(** * ADS records merger: global merging checks and pipeline timestamp manager

    A shallow embedding of
    - [merger/global_merging_checks.py]: the two post-merge consistency
      checks [check_pub_year_consistency] and
      [first_author_bibcode_consistency];
    - [pipeline_timestamp_manager.py]: [get_records_status] and the
      functions that build the two bibcode -> timestamp dictionaries;
    - the priority-based field merger exercised by
      [tests/test_merger_regression_tests.py].

    Python dictionaries are [gmap]s, Python sets are [gset]s, Python [str]
    values are [string]s (byte strings, as in Python 2), and exceptions are
    explicit outcomes. *)

From Stdlib Require Import Ascii String.
From stdpp Require Import base option list strings gmap sets.

Local Open Scope string_scope.
Local Open Scope list_scope.
Local Open Scope nat_scope.

(** ** Python outcomes *)

(** The exceptions the modelled code can raise. *)
Inductive exn : Type :=
| KeyError
| IndexError
| ValueError
| IOError.

Inductive outcome (A : Type) : Type :=
| Return (a : A)
| Raise (e : exn).
Arguments Return {A} a.
Arguments Raise {A} e.

#[global] Instance exn_eq_dec : EqDecision exn.
Proof. solve_decision. Defined.

#[global] Instance outcome_eq_dec {A} `{EqDecision A} : EqDecision (outcome A).
Proof. solve_decision. Defined.

(** ** Python string primitives *)

Module PyStr.

(** [s[0:n]]: slicing never raises, it stops at the end of [s]. *)
Fixpoint slice_to (n : nat) (s : string) : string :=
  match n, s with
  | S n', String c s' => String c (slice_to n' s')
  | _, _ => EmptyString
  end.

(** [s[0]]: the first character, [IndexError] on the empty string. *)
Definition first_char (s : string) : outcome string :=
  match s with
  | EmptyString => Raise IndexError
  | String c _ => Return (String c EmptyString)
  end.

(** [s[-1]]: the last character, [IndexError] on the empty string. *)
Fixpoint last_char (s : string) : outcome string :=
  match s with
  | EmptyString => Raise IndexError
  | String c EmptyString => Return (String c EmptyString)
  | String _ s' => last_char s'
  end.

(** [s[:-1]]: everything but the last character; empty stays empty. *)
Fixpoint drop_last (s : string) : string :=
  match s with
  | EmptyString => EmptyString
  | String _ EmptyString => EmptyString
  | String c s' => String c (drop_last s')
  end.

Definition tab : ascii := "009"%char.

(** [s.split('\t', 1)]: at most one split, at the first tab. *)
Fixpoint split_tab1 (s : string) : list string :=
  match s with
  | EmptyString => [EmptyString]
  | String c s' =>
      if Ascii.eqb c tab then [EmptyString; s']
      else match split_tab1 s' with
           | x :: rest => String c x :: rest
           | [] => [String c EmptyString]
           end
  end.

(** The characters [str.strip()] removes: space, tab, newline, carriage
    return, vertical tab and form feed. *)
Definition is_space (c : ascii) : bool :=
  let n := nat_of_ascii c in
  Nat.eqb n 32 || (Nat.leb 9 n && Nat.leb n 13).

Fixpoint lstrip (s : string) : string :=
  match s with
  | String c s' => if is_space c then lstrip s' else s
  | EmptyString => EmptyString
  end.

Fixpoint rstrip (s : string) : string :=
  match s with
  | EmptyString => EmptyString
  | String c s' =>
      match rstrip s' with
      | EmptyString => if is_space c then EmptyString else String c EmptyString
      | r => String c r
      end
  end.

(** [s.strip()] *)
Definition strip (s : string) : string := rstrip (lstrip s).

(** The double quote, for the messages that quote their arguments. *)
Definition dquote : string := String "034"%char EmptyString.

End PyStr.

(** ** The record container of Invenio's [bibrecord] *)

Module Bibrecord.

(** A field instance is the tuple
    [(subfields, ind1, ind2, controlfield_value, global_position)];
    [subfields] is the ordered list of [(code, value)] pairs. *)
Record field : Type := mk_field {
  subfields : list (string * string);
  ind1 : string;
  ind2 : string;
  controlfield_value : string;
  global_position : nat
}.

(** A record is a dictionary from tag to the list of its field
    instances. *)
Abbreviation record := (gmap string (list field)).

(** [bibrecord.field_get_subfield_values(field_instance, code)]: the
    values of all the subfields with that code, in field order. *)
Definition field_get_subfield_values (field_instance : field) (code : string)
  : list string :=
  omap (fun cv : string * string =>
          if decide (cv.1 = code) then Some cv.2 else None)
       (subfields field_instance).

(** [xs[0]] on a Python list. *)
Definition item0 {A} (xs : list A) : outcome A :=
  match xs with
  | [] => Raise IndexError
  | x :: _ => Return x
  end.

(** [bibrecord._compare_fields(field1, field2, strict=False)]: same
    indicators and controlfield value, and the same set of subfields. *)
Definition _compare_fields_loose (field1 field2 : field) : bool :=
  bool_decide (ind1 field1 = ind1 field2
               ∧ ind2 field1 = ind2 field2
               ∧ controlfield_value field1 = controlfield_value field2)
  && bool_decide (subfields field1 ⊆ subfields field2
                  ∧ subfields field2 ⊆ subfields field1).

End Bibrecord.

Import Bibrecord.

(** ** merger/global_merging_checks.py *)

Module GlobalMergingChecks.

(** The constants imported from [merger_settings]. *)
Record merger_settings : Type := mk_settings {
  FIELD_TO_MARC : gmap string string;
  SYSTEM_NUMBER_SUBFIELD : string;
  PUBL_DATE_SUBFIELD : string;
  PUBL_DATE_TYPE_SUBFIELD : string;
  PUBL_DATE_TYPE_VAL_SUBFIELD : list string;
  AUTHOR_NAME_SUBFIELD : string
}.

(** One call of [manage_check_error(msg_str, type_check)], as the error
    sink receives it. *)
Record violation : Type := mk_violation {
  v_type_check : string;
  v_msg_str : string
}.

(** What a check can touch: the merged record it is given, the error
    sink, and the log written by [msg]. *)
Record world : Type := mk_world {
  merged_record : record;
  sink : list violation;
  log : list string
}.

(** Computations over the world that return or raise. *)
Definition M (A : Type) : Type := world -> outcome A * world.

Definition ret {A} (a : A) : M A := fun w => (Return a, w).

Definition bind {A B} (m : M A) (k : A -> M B) : M B :=
  fun w =>
    match m w with
    | (Return a, w') => k a w'
    | (Raise e, w') => (Raise e, w')
    end.

Definition lift {A} (o : outcome A) : M A := fun w => (o, w).

Notation "x <~ m ;; k" := (bind m (fun x => k))
  (at level 100, m at next level, right associativity).
Notation "m ;;; k" := (bind m (fun _ => k))
  (at level 100, right associativity).

(** [try: body; except KeyError: handler] followed by [k] when the body
    succeeds; any other exception propagates. *)
Definition try_except_KeyError {A B} (body : M A) (handler : M B)
    (k : A -> M B) : M B :=
  fun w =>
    match body w with
    | (Return a, w') => k a w'
    | (Raise KeyError, w') => handler w'
    | (Raise e, w') => (Raise e, w')
    end.

(** [d[key]] on a dictionary. *)
Definition getitem {V} (d : gmap string V) (key : string) : outcome V :=
  match d !! key with
  | Some v => Return v
  | None => Raise KeyError
  end.

(** [merged_record[tag]]: a read of the record held in the world. *)
Definition record_getitem (tag : string) : M (list field) :=
  fun w => (getitem (merged_record w) tag, w).

(** Modelled from the spec: [msg] is defined in [merger_settings], which is
    not part of the sources at hand.  The specification keeps logging
    outside the checker, away from the record and from the error sink: the
    call appends its line to the log when [verbose] is set, and returns. *)
Definition msg (message : string) (verbose : bool) : M unit :=
  fun w =>
    (Return tt,
     if verbose
     then {| merged_record := merged_record w; sink := sink w;
             log := log w ++ [message] |}
     else w).

(** Modelled from the spec: [manage_check_error] is defined in
    [merger_settings], which is not part of the sources at hand.  The
    specification says that violations are accumulated, never raise a
    hard fault, and are surfaced to an external error sink: the call
    appends the violation to the sink and returns. *)
Definition manage_check_error (msg_str type_check : string) : M unit :=
  fun w =>
    (Return tt,
     {| merged_record := merged_record w;
        sink := sink w ++ [mk_violation type_check msg_str];
        log := log w |}).

Section Checks.

Variable settings : merger_settings.

(** The messages of the two checks. *)
Definition year_msg (date_type_string system_number : string) : string :=
  "Year of " +:+ PyStr.dquote +:+ date_type_string +:+ PyStr.dquote
  +:+ " not consistent with the main bibcode "
  +:+ PyStr.dquote +:+ system_number +:+ PyStr.dquote +:+ "!".

Definition author_msg (first_author system_number : string) : string :=
  "First Author " +:+ PyStr.dquote +:+ first_author +:+ PyStr.dquote
  +:+ " not consistent with the main bibcode "
  +:+ PyStr.dquote +:+ system_number +:+ PyStr.dquote +:+ "!".

(** Lines 51-55: the inner loop that extracts the date of one type.
    The scan stops at the first field whose type subfield equals
    [date_type_string]; a scanned field without a type subfield, or a
    matching field without a date subfield, raises [IndexError]. *)
Fixpoint find_pubdate (pub_dates_fields : list field)
    (date_type_string : string) : outcome string :=
  match pub_dates_fields with
  | [] => Return ""
  | field :: rest =>
      match item0 (field_get_subfield_values field
                     (PUBL_DATE_TYPE_SUBFIELD settings)) with
      | Raise e => Raise e
      | Return ty =>
          if decide (ty = date_type_string)
          then item0 (field_get_subfield_values field
                        (PUBL_DATE_SUBFIELD settings))
          else find_pubdate rest date_type_string
      end
  end.

(** Lines 49-62: the loop over the configured date types, threading
    [num_dates_checked]. *)
Fixpoint check_date_types (pub_dates_fields : list field)
    (system_number type_check : string)
    (date_types : list string) (num_dates_checked : nat) : M nat :=
  match date_types with
  | [] => ret num_dates_checked
  | date_type_string :: rest =>
      pubdate <~ lift (find_pubdate pub_dates_fields date_type_string) ;;
      if decide (String.length pubdate ≠ 0)
      then
        (if decide (PyStr.slice_to 4 pubdate ≠ PyStr.slice_to 4 system_number)
         then manage_check_error (year_msg date_type_string system_number)
                type_check
         else ret tt) ;;;
        check_date_types pub_dates_fields system_number type_check rest
          (S num_dates_checked)
      else
        check_date_types pub_dates_fields system_number type_check rest
          num_dates_checked
  end.

Definition check_pub_year_consistency (type_check : string)
    (verbose : bool) : M unit :=
  msg "      running check_pub_year_consistency" verbose ;;;
  try_except_KeyError
    (tag <~ lift (getitem (FIELD_TO_MARC settings) "system number") ;;
     record_getitem tag)
    (manage_check_error "No System Number field!" type_check)
    (fun system_number_fields =>
  try_except_KeyError
    (tag <~ lift (getitem (FIELD_TO_MARC settings) "publication date") ;;
     record_getitem tag)
    (manage_check_error "No Publication Date field!" type_check)
    (fun pub_dates_fields =>
  if decide (1 < length system_number_fields)
  then manage_check_error "There are more than one System Numbers!"
         type_check
  else
    field0 <~ lift (item0 system_number_fields) ;;
    system_number <~ lift (item0 (field_get_subfield_values field0
                                    (SYSTEM_NUMBER_SUBFIELD settings))) ;;
    num_dates_checked <~
      check_date_types pub_dates_fields system_number type_check
        (PUBL_DATE_TYPE_VAL_SUBFIELD settings) 0 ;;
    if decide (num_dates_checked = 0)
    then manage_check_error "No dates available for this record!"
           type_check
    else ret tt)).

Definition first_author_bibcode_consistency (type_check : string)
    (verbose : bool) : M unit :=
  msg "      running first_author_bibcode_consistency" verbose ;;;
  try_except_KeyError
    (tag <~ lift (getitem (FIELD_TO_MARC settings) "system number") ;;
     record_getitem tag)
    (manage_check_error "No System Number field!" type_check)
    (fun system_number_fields =>
  try_except_KeyError
    (tag <~ lift (getitem (FIELD_TO_MARC settings) "first author") ;;
     record_getitem tag)
    (manage_check_error "No First Author field!" type_check)
    (fun first_author_fields =>
  if decide (1 < length system_number_fields)
  then manage_check_error "There are more than one System Numbers!"
         type_check
  else if decide (1 < length first_author_fields)
  then manage_check_error "There are more than one First Author!"
         type_check
  else
    field0 <~ lift (item0 system_number_fields) ;;
    system_number <~ lift (item0 (field_get_subfield_values field0
                                    (SYSTEM_NUMBER_SUBFIELD settings))) ;;
    author0 <~ lift (item0 first_author_fields) ;;
    first_author <~ lift (item0 (field_get_subfield_values author0
                                   (AUTHOR_NAME_SUBFIELD settings))) ;;
    a0 <~ lift (PyStr.first_char first_author) ;;
    s_last <~ lift (PyStr.last_char system_number) ;;
    if decide (a0 ≠ s_last)
    then manage_check_error (author_msg first_author system_number)
           type_check
    else ret tt)).

(** *** Reading the record the way the specification words it *)

(** A field instance carries a subfield code when it has at least one
    subfield with that code. *)
Definition carries (code : string) (f : field) : Prop :=
  field_get_subfield_values f code ≠ [].

(** The value of a subfield code is the first one the field holds. *)
Definition subfield_value (code : string) (f : field) : option string :=
  head (field_get_subfield_values f code).

(** The first date field, in record order, whose type subfield equals
    [date_type]. *)
Fixpoint first_matching_field (pub_dates_fields : list field)
    (date_type : string) : option field :=
  match pub_dates_fields with
  | [] => None
  | d :: rest =>
      if decide (subfield_value (PUBL_DATE_TYPE_SUBFIELD settings) d
                 = Some date_type)
      then Some d
      else first_matching_field rest date_type
  end.

(** The date value of a date type: that of its first matching field. *)
Definition date_value_of (pub_dates_fields : list field)
    (date_type : string) : option string :=
  match first_matching_field pub_dates_fields date_type with
  | Some d => subfield_value (PUBL_DATE_SUBFIELD settings) d
  | None => None
  end.

(** A date type yields a usable date when its date value is non-empty. *)
Definition usable_date (pub_dates_fields : list field)
    (date_type : string) : Prop :=
  ∃ v, date_value_of pub_dates_fields date_type = Some v ∧ v ≠ "".

(** The violations, as the sink records them. *)
Definition year_mismatch (type_check date_type system_number : string)
  : violation :=
  mk_violation type_check (year_msg date_type system_number).

Definition no_usable_date (type_check : string) : violation :=
  mk_violation type_check "No dates available for this record!".

Definition duplicate_identifier (type_check : string) : violation :=
  mk_violation type_check "There are more than one System Numbers!".

Definition missing_identifier (type_check : string) : violation :=
  mk_violation type_check "No System Number field!".

Definition missing_publication_date (type_check : string) : violation :=
  mk_violation type_check "No Publication Date field!".

Definition author_bibcode_mismatch (type_check first_author
    system_number : string) : violation :=
  mk_violation type_check (author_msg first_author system_number).

(** What the report of one configured date type must be: a single
    year-mismatch violation exactly when the usable date's leading four
    characters differ from the identifier's, nothing otherwise. *)
Definition year_report_spec (type_check system_number : string)
    (pub_dates_fields : list field) (date_type : string)
    (report : list violation) : Prop :=
  match date_value_of pub_dates_fields date_type with
  | Some v =>
      if decide (v = "") then report = []
      else (report = [year_mismatch type_check date_type system_number]
            ↔ PyStr.slice_to 4 v ≠ PyStr.slice_to 4 system_number)
           ∧ (report = []
              ↔ PyStr.slice_to 4 v = PyStr.slice_to 4 system_number)
  | None => report = []
  end.

(** The date fields without the instances of type [date_type] that
    come after the first one of that type. *)
Definition drop_of_type (date_type : string)
    (pub_dates_fields : list field) : list field :=
  filter (fun d => subfield_value (PUBL_DATE_TYPE_SUBFIELD settings) d
                   ≠ Some date_type)
         pub_dates_fields.

Fixpoint keep_first_of_type (date_type : string)
    (pub_dates_fields : list field) : list field :=
  match pub_dates_fields with
  | [] => []
  | d :: rest =>
      if decide (subfield_value (PUBL_DATE_TYPE_SUBFIELD settings) d
                 = Some date_type)
      then d :: drop_of_type date_type rest
      else d :: keep_first_of_type date_type rest
  end.

(** The same reading as functions: the report of one date type, the
    reports of all of them in configuration order, and the number of
    date types with a usable date. *)
Definition usable_dateb (pub_dates_fields : list field)
    (date_type : string) : bool :=
  match date_value_of pub_dates_fields date_type with
  | Some v => bool_decide (v ≠ "")
  | None => false
  end.

Definition year_report (type_check system_number : string)
    (pub_dates_fields : list field) (date_type : string)
  : list violation :=
  match date_value_of pub_dates_fields date_type with
  | Some v =>
      if decide (v ≠ ""
                 ∧ PyStr.slice_to 4 v ≠ PyStr.slice_to 4 system_number)
      then [year_mismatch type_check date_type system_number]
      else []
  | None => []
  end.

Definition year_reports (type_check system_number : string)
    (pub_dates_fields : list field) (date_types : list string)
  : list (list violation) :=
  year_report type_check system_number pub_dates_fields <$> date_types.

(** The world with more violations in the sink. *)
Definition report (w : world) (reports : list violation) : world :=
  {| merged_record := merged_record w;
     sink := sink w ++ reports;
     log := log w |}.

(** The world after a check that returned: same record, the new
    violations appended to the sink, the trace line appended to the log
    when [verbose]. *)
Definition after_check (w : world) (reports : list violation)
    (verbose : bool) (line : string) : world :=
  {| merged_record := merged_record w;
     sink := sink w ++ reports;
     log := if verbose then log w ++ [line] else log w |}.

(** A computation that leaves the merged record as it found it. *)
Definition preserves_record {A} (m : M A) : Prop :=
  ∀ w, merged_record (m w).2 = merged_record w.

(** Running both checks on the same record, one after the other. *)
Definition run_both_year_first (type_check : string) (verbose : bool)
  : M unit :=
  check_pub_year_consistency type_check verbose ;;;
  first_author_bibcode_consistency type_check verbose.

Definition run_both_author_first (type_check : string) (verbose : bool)
  : M unit :=
  first_author_bibcode_consistency type_check verbose ;;;
  check_pub_year_consistency type_check verbose.

End Checks.

(** The settings used in the worked examples: MARC tags 970, 260 and 100. *)
Definition example_settings : merger_settings :=
  {| FIELD_TO_MARC := {[ "system number" := "970";
                         "publication date" := "260";
                         "first author" := "100" ]};
     SYSTEM_NUMBER_SUBFIELD := "a";
     PUBL_DATE_SUBFIELD := "c";
     PUBL_DATE_TYPE_SUBFIELD := "t";
     PUBL_DATE_TYPE_VAL_SUBFIELD := ["print"; "electronic"];
     AUTHOR_NAME_SUBFIELD := "a" |}.

Definition datafield (sf : list (string * string)) : field :=
  mk_field sf " " " " "" 0.

(** A record whose print date disagrees with the year of its bibcode,
    and whose first author agrees with the bibcode's last letter. *)
Definition identifier_2020 : field := datafield [("a", "2020ApJ...1A")].
Definition print_2019 : field :=
  datafield [("c", "2019-03-01"); ("t", "print")].
Definition author_adams : field := datafield [("a", "Adams, J")].

Definition record_print_2019 : record :=
  {[ "970" := [identifier_2020]; "260" := [print_2019];
     "100" := [author_adams] ]}.

(** The same record with, ahead of the print date, a date field that has
    no type subfield. *)
Definition untyped_date : field := datafield [("c", "2019-03-01")].

Definition record_untyped_date : record :=
  {[ "970" := [identifier_2020]; "260" := [untyped_date; print_2019] ]}.

(** A record whose only date field has no type subfield. *)
Definition record_only_untyped_date : record :=
  {[ "970" := [identifier_2020]; "260" := [untyped_date] ]}.

(** A record with two system numbers and no publication date. *)
Definition record_two_identifiers : record :=
  {[ "970" := [identifier_2020; identifier_2020] ]}.

(** The same with a publication date. *)
Definition record_two_identifiers_dated : record :=
  {[ "970" := [identifier_2020; identifier_2020]; "260" := [print_2019] ]}.

(** A record whose system number field has no subfield [a], and one whose
    first author has an empty name. *)
Definition record_identifier_without_value : record :=
  {[ "970" := [datafield [("b", "2020ApJ...1A")]]; "260" := [print_2019] ]}.

Definition record_empty_author : record :=
  {[ "970" := [identifier_2020]; "100" := [datafield [("a", "")]] ]}.

(** A later print date, of another year. *)
Definition print_2021 : field :=
  datafield [("c", "2021-05-05"); ("t", "print")].

Definition print_2020 : field :=
  datafield [("c", "2020-01-01"); ("t", "print")].

Definition fresh (r : record) : world :=
  {| merged_record := r; sink := []; log := [] |}.

End GlobalMergingChecks.

(** ** pipeline_timestamp_manager.py *)

Module PipelineTimestampManager.

Definition outcome_bind {A B} (o : outcome A) (k : A -> outcome B)
  : outcome B :=
  match o with
  | Return a => k a
  | Raise e => Raise e
  end.

Local Notation "x <~ m ;; k" := (outcome_bind m (fun x => k))
  (at level 100, m at next level, right associativity).

(** The progress lines written with [printmsg] go to the log only and are
    left out.  What the module reads from outside: the file names of
    [pipeline_settings] and [ads.pub2arx], the files themselves (each
    as the lines that iterating over the open file yields), and the rows
    that the two [run_sql] queries return. *)
Record environment : Type := mk_environment {
  BIBCODES_AST : string;
  BIBCODES_PHY : string;
  BIBCODES_GEN : string;
  BIBCODES_PRE : string;
  pub2arx : string;
  files : gmap string (list string);
  deleted_rows : list string;
  timestamp_rows : list (string * string)
}.

(** [open(filename)], iterated line by line. *)
Definition open_lines (env : environment) (filename : string)
  : outcome (list string) :=
  match files env !! filename with
  | Some lines => Return lines
  | None => Raise IOError
  end.

(** [d[key]] on a dictionary. *)
Definition getitem {V} (d : gmap string V) (key : string) : outcome V :=
  match d !! key with
  | Some v => Return v
  | None => Raise KeyError
  end.

Section WithEnvironment.

Variable env : environment.

(** Timestamps ordered by increasing order of importance. *)
Definition TIMESTAMP_FILES_HIERARCHY : list string :=
  [BIBCODES_GEN env; BIBCODES_PRE env; BIBCODES_PHY env; BIBCODES_AST env].

(** Lines 145-147: [bibcode, timestamp = line[:-1].split('\t', 1)];
    unpacking anything but two parts raises [ValueError]. *)
Fixpoint read_timestamp_lines (lines : list string)
    (timestamps : gmap string string) : outcome (gmap string string) :=
  match lines with
  | [] => Return timestamps
  | line :: rest =>
      match PyStr.split_tab1 (PyStr.drop_last line) with
      | [bibcode; timestamp] =>
          read_timestamp_lines rest (<[bibcode := timestamp]> timestamps)
      | _ => Raise ValueError
      end
  end.

Definition _read_timestamp_file (filename : string)
  : outcome (gmap string string) :=
  lines <~ open_lines env filename ;;
  read_timestamp_lines lines ∅.

(** Lines 122-124: [timestamps.update(db_timestamps)] for each file of
    the hierarchy; the entries of the file read overwrite the earlier
    ones. *)
Fixpoint update_from_files (filenames : list string)
    (timestamps : gmap string string) : outcome (gmap string string) :=
  match filenames with
  | [] => Return timestamps
  | filename :: rest =>
      db_timestamps <~ _read_timestamp_file filename ;;
      update_from_files rest (db_timestamps ∪ timestamps)
  end.

(** Lines 128-129: [line.strip().split('\t', 1)[1]] for each line. *)
Fixpoint published_eprints_of (lines : list string)
  : outcome (list string) :=
  match lines with
  | [] => Return []
  | line :: rest =>
      match PyStr.split_tab1 (PyStr.strip line) with
      | _ :: bibcode :: _ =>
          bibcodes <~ published_eprints_of rest ;;
          Return (bibcode :: bibcodes)
      | _ => Raise IndexError
      end
  end.

Definition published_eprints : outcome (list string) :=
  lines <~ open_lines env (pub2arx env) ;;
  published_eprints_of lines.

(** Lines 130-134: [del timestamps[bibcode]], a missing key ignored. *)
Definition remove_published (bibcodes : list string)
    (timestamps : gmap string string) : gmap string string :=
  foldl (fun ts bibcode => delete bibcode ts) timestamps bibcodes.

Definition _get_ads_timestamps : outcome (gmap string string) :=
  timestamps <~ update_from_files TIMESTAMP_FILES_HIERARCHY ∅ ;;
  bibcodes <~ published_eprints ;;
  Return (remove_published bibcodes timestamps).

(** Lines 98-112: the timestamps of the records that are not marked as
    deleted. *)
Definition _get_invenio_timestamps : gmap string string :=
  let deleted_bibcodes := deleted_rows env in
  foldl (fun timestamps row =>
           if decide (row.1 ∈ deleted_bibcodes) then timestamps
           else <[row.1 := row.2]> timestamps)
        ∅ (timestamp_rows env).

End WithEnvironment.

(** Lines 75-82: the loop over [records_to_check]; the iteration order
    of the set is the one [elements] gives. *)
Fixpoint check_timestamps (bibcodes : list string)
    (ads_timestamps invenio_timestamps : gmap string string)
    (records_modified : list string) : outcome (list string) :=
  match bibcodes with
  | [] => Return records_modified
  | bibcode :: rest =>
      ads_timestamp <~ getitem ads_timestamps bibcode ;;
      invenio_timestamp <~ getitem invenio_timestamps bibcode ;;
      check_timestamps rest ads_timestamps invenio_timestamps
        (if decide (invenio_timestamp ≠ ads_timestamp)
         then records_modified ++ [bibcode]
         else records_modified)
  end.

(** Lines 58-87: [get_records_status] once the two dictionaries are
    there. *)
Definition get_records_status_from
    (ads_timestamps invenio_timestamps : gmap string string)
  : outcome (gset string * list string * gset string) :=
  let ads_bibcodes : gset string := dom ads_timestamps in
  let invenio_bibcodes : gset string := dom invenio_timestamps in
  let records_added := ads_bibcodes ∖ invenio_bibcodes in
  let records_deleted := invenio_bibcodes ∖ ads_bibcodes in
  let records_to_check := invenio_bibcodes ∖ records_deleted in
  records_modified <~
    check_timestamps (elements records_to_check)
      ads_timestamps invenio_timestamps [] ;;
  Return (records_added, records_modified, records_deleted).

Definition get_records_status (env : environment)
  : outcome (gset string * list string * gset string) :=
  ads_timestamps <~ _get_ads_timestamps env ;;
  get_records_status_from ads_timestamps (_get_invenio_timestamps env).

(** A line holds a tab character. *)
Definition has_tab (s : string) : Prop :=
  PyStr.tab ∈ list_ascii_of_string s.

(** The files of the hierarchy and the published-eprints file exist and
    every line splits in two. *)
Definition readable (env : environment) : Prop :=
  (∀ filename, filename ∈ TIMESTAMP_FILES_HIERARCHY env →
     ∃ lines, files env !! filename = Some lines
              ∧ Forall (fun line => has_tab (PyStr.drop_last line)) lines)
  ∧ ∃ lines, files env !! pub2arx env = Some lines
             ∧ Forall (fun line => has_tab (PyStr.strip line)) lines.

(** The dictionaries of several files taken in one after the other, each
    overwriting what came before. *)
Definition updated (timestamps : gmap string string)
    (tiers : list (gmap string string)) : gmap string string :=
  foldl (fun acc db => db ∪ acc) timestamps tiers.

(** A worked example: bibcode B1 is in the physics and astronomy files,
    B2 is a published eprint. *)
Definition line (first second : string) : string :=
  first +:+ String PyStr.tab second +:+ String "010"%char EmptyString.

Definition example_environment : environment :=
  {| BIBCODES_AST := "ast"; BIBCODES_PHY := "phy";
     BIBCODES_GEN := "gen"; BIBCODES_PRE := "pre";
     pub2arx := "pub2arx";
     files := {[ "gen" := [line "B3" "t3"];
                 "pre" := [line "B2" "t2"];
                 "phy" := [line "B1" "t-phy"];
                 "ast" := [line "B1" "t-ast"];
                 "pub2arx" := [line "B9" "B2"] ]};
     deleted_rows := [];
     timestamp_rows := [("B1", "t-old")] |}.

End PipelineTimestampManager.

(** ** The priority-based field merger *)

Module Merger.

(** Modelled from the spec: the input of section 6, missing with
    [merger/merger.py].  A source record is an ordered mapping: tag, then
    the field instances of that tag in record order. *)
Abbreviation source_record := (list (string * list field)).

(** Modelled from the spec: [merger/merger.py] is not part of the sources
    at hand, only its regression tests are.  The origin of a field
    instance is carried by a designated subfield; the regression tests
    use code 7. *)
Definition ORIGIN_SUBFIELD : string := "7".

(** Modelled from the spec: the merger's configuration (section 6), the
    priority order with the highest priority first and the field schema;
    [merger/merger.py] and its settings are not part of the sources. *)
Record field_policy : Type := mk_policy {
  repeatable : bool;
  identityKeySubfields : list string
}.

(** Modelled from the spec: the recognised options [priorityOrder] and
    [fieldSchema] of section 6; the merger's settings are missing. *)
Record configuration : Type := mk_configuration {
  priorityOrder : list string;
  fieldSchema : list (string * field_policy)
}.

(** Modelled from the spec: the priority table of section 4.3, missing
    with [merger/merger.py].  The rank of a source code is its position
    in [priorityOrder] (lower is better); an unknown code has the lowest
    rank. *)
Fixpoint priority (order : list string) (code : string) : nat :=
  match order with
  | [] => 0
  | c :: rest => if decide (c = code) then 0 else S (priority rest code)
  end.

(** Modelled from the spec: the source code of a field instance is the
    value of its origin subfield (section 3); the merger's code is
    missing. *)
Definition source_code (f : field) : option string :=
  head (field_get_subfield_values f ORIGIN_SUBFIELD).

(** Modelled from the spec: the rank of a field instance is that of its
    source code, the lowest rank without one (section 3); the merger's code
    is missing. *)
Definition rank (order : list string) (f : field) : nat :=
  match source_code f with
  | Some code => priority order code
  | None => length order
  end.

(** Modelled from the spec: sorting the members of a group by descending
    priority, ties in original order (section 4.1); the merger's own
    code is missing.  One step of an insertion sort on the rank: [f], which
    comes before the members of [sorted] in the original order, goes behind
    the members of strictly better rank only, so ahead of those of its own
    rank. *)
Fixpoint insert_by_rank (order : list string) (f : field)
    (sorted : list field) : list field :=
  match sorted with
  | [] => [f]
  | g :: rest =>
      if decide (rank order g < rank order f)
      then g :: insert_by_rank order f rest
      else f :: sorted
  end.

(** Modelled from the spec: the members of a group by descending priority,
    members of equal priority in their original order (sections 3 and 4.1);
    the merger's code is missing. *)
Definition sort_by_priority (order : list string) (members : list field)
  : list field :=
  foldr (fun f sorted => insert_by_rank order f sorted) [] members.

(** A group whose members come by rank, the best rank first. *)
Definition by_rank (order : list string) (members : list field) : Prop :=
  ∀ i j f g,
    i < j → members !! i = Some f → members !! j = Some g →
    rank order f ≤ rank order g.

(** Modelled from the spec: the enrichment step of section 4.1, missing
    with [merger/merger.py].  A donor adds the value of each of its
    subfield codes that the merged instance does not hold yet. *)
Definition has_code (code : string) (merged : list (string * string))
  : bool :=
  bool_decide (code ∈ merged.*1).

(** Modelled from the spec: a donor only fills gaps (section 3,
    invariants); the merger's code is missing. *)
Definition fill_gaps (merged donor : list (string * string))
  : list (string * string) :=
  foldl (fun acc cv => if has_code cv.1 acc then acc else acc ++ [cv])
        merged donor.

(** Modelled from the spec: one field group resolved (section 4.1): the
    winner's subfields verbatim, then the gaps filled from the donors in
    priority order.  The merger's own code is missing. *)
Definition merge_group (order : list string) (members : list field)
  : option field :=
  match sort_by_priority order members with
  | [] => None
  | winner :: donors =>
      Some {| subfields := foldl (fun acc d => fill_gaps acc (subfields d))
                                 (subfields winner) donors;
              ind1 := ind1 winner;
              ind2 := ind2 winner;
              controlfield_value := controlfield_value winner;
              global_position := global_position winner |}
  end.

(** Modelled from the spec: the identity key of an instance, the values
    at [identityKeySubfields] with a missing subfield read as the empty
    string, and the grouping by equal keys in first-seen order
    (section 4.1); the merger's own code is missing. *)
Definition identity_key (keys : list string) (f : field) : list string :=
  (fun code => default "" (head (field_get_subfield_values f code)))
    <$> keys.

(** Modelled from the spec: instances with equal keys form one group, the
    groups in first-seen key order (section 4.1); the merger's code is
    missing. *)
Fixpoint add_to_group (key : list string) (f : field)
    (groups : list (list string * list field))
  : list (list string * list field) :=
  match groups with
  | [] => [(key, [f])]
  | (k, members) :: rest =>
      if decide (k = key) then (k, members ++ [f]) :: rest
      else (k, members) :: add_to_group key f rest
  end.

(** Modelled from the spec: the field groups of a repeatable tag
    (section 4.1); the merger's code is missing. *)
Definition group_by_key (keys : list string) (instances : list field)
  : list (list field) :=
  (foldl (fun groups f => add_to_group (identity_key keys f) f groups)
         [] instances).*2.

(** Modelled from the spec: the contract [resolve] of section 4.1, whose
    code is missing with [merger/merger.py]. *)
Definition resolve (order : list string) (tag : string)
    (instances : list field) (isRepeatable : bool)
    (identityKeySubfields : list string) : list field :=
  let groups :=
    if isRepeatable then group_by_key identityKeySubfields instances
    else match instances with [] => [] | _ => [instances] end in
  omap (merge_group order) groups.

(** Modelled from the spec: ascending tag order (section 4.2) and the
    set of distinct tags of the source records; the assembler's code is
    missing with [merger/merger.py]. *)
Fixpoint insert_tag (tag : string) (sorted : list string) : list string :=
  match sorted with
  | [] => [tag]
  | t :: rest =>
      if decide (t = tag) then sorted
      else if String.ltb tag t then tag :: sorted
      else t :: insert_tag tag rest
  end.

(** Modelled from the spec: the distinct tags of the source records, in
    ascending order (section 4.2); the assembler's code is missing. *)
Definition distinct_tags (sourceRecords : list source_record)
  : list string :=
  foldr insert_tag [] (concat sourceRecords).*1.

(** Modelled from the spec: the instances of a tag across the source
    records, in source-record order (section 4.2); the assembler's code is
    missing. *)
Definition instances_of (tag : string) (sourceRecords : list source_record)
  : list field :=
  concat ((fun tf : string * list field =>
             if decide (tf.1 = tag) then tf.2 else [])
          <$> concat sourceRecords).

(** Modelled from the spec: the entry of a tag in [fieldSchema]
    (section 6); the merger's settings are missing. *)
Fixpoint policy_of (schema : list (string * field_policy)) (tag : string)
  : option field_policy :=
  match schema with
  | [] => None
  | (t, p) :: rest => if decide (t = tag) then Some p else policy_of rest tag
  end.

(** Modelled from the spec: the contract [assemble] of section 4.2, whose
    code is missing with [merger/merger.py].  A tag absent from the
    schema is non-repeatable and expected once: with several instances
    its merge is skipped and the tag is reported to the caller. *)
Definition assemble_tag (cfg : configuration)
    (sourceRecords : list source_record) (tag : string)
  : list field + string :=
  let instances := instances_of tag sourceRecords in
  match policy_of (fieldSchema cfg) tag with
  | Some p =>
      inl (resolve (priorityOrder cfg) tag instances (repeatable p)
             (identityKeySubfields p))
  | None =>
      if decide (1 < length instances) then inr tag
      else inl (resolve (priorityOrder cfg) tag instances false [])
  end.

(** Modelled from the spec: the merged record, tags in ascending order,
    and the tags whose merge was skipped (section 4.2); the assembler's code
    is missing. *)
Definition assemble (cfg : configuration)
    (sourceRecords : list source_record)
  : source_record * list string :=
  foldr (fun tag acc =>
           match assemble_tag cfg sourceRecords tag with
           | inl merged => ((tag, merged) :: acc.1, acc.2)
           | inr failed => (acc.1, failed :: acc.2)
           end)
        ([], []) (distinct_tags sourceRecords).

(** Modelled from the spec: the fields of a tag in a merged record, as the
    regression test reads them with [merged_record[0]['100']]. *)
Fixpoint fields_of (tag : string) (r : source_record) : list field :=
  match r with
  | [] => []
  | (t, fs) :: rest => if decide (t = tag) then fs else fields_of tag rest
  end.

(** *** The regression scenario [test_02_merge_two_records_additional_subfield] *)

Definition scenario_configuration (order : list string) : configuration :=
  {| priorityOrder := order;
     fieldSchema :=
       [("100", {| repeatable := true; identityKeySubfields := ["b"] |})] |}.

Definition scenario_order : list string := ["ADS metadata"; "A&A"; "ARXIV"].

Definition scenario_author1 : field :=
  mk_field [("a", "Di Milia, Giovanni"); ("b", "Di Milia, G");
            ("7", "A&A")] " " " " "" 1.

Definition scenario_author2 : field :=
  mk_field [("a", "Di Milia, Giancarlo"); ("b", "Di Milia, G");
            ("u", "Center for astrophysics"); ("7", "ARXIV")]
           " " " " "" 1.

Definition scenario_collection : field :=
  mk_field [("a", "ASTRONOMY"); ("7", "ADS metadata")] "" "" "" 2.

Definition scenario_record1 : source_record :=
  [("100", [scenario_author1]); ("980", [scenario_collection])].

Definition scenario_record2 : source_record :=
  [("100", [scenario_author2])].

Definition scenario_expected : field :=
  mk_field [("a", "Di Milia, Giovanni"); ("b", "Di Milia, G");
            ("u", "Center for astrophysics"); ("7", "A&A")] " " " " "" 1.

End Merger.

(** ** Further readings of the consistency checks *)

Module CheckReadings.

Import GlobalMergingChecks.

Section Readings.

Variable settings : merger_settings.

(** The field instances a check finds under a name of [FIELD_TO_MARC]:
    [None] where [merged_record[FIELD_TO_MARC[name]]] raises [KeyError],
    the name being unknown to the settings or the tag absent from the
    record. *)
Definition fields_named (name : string) (r : record)
  : option (list field) :=
  match FIELD_TO_MARC settings !! name with
  | Some tag => r !! tag
  | None => None
  end.

(** The scan of lines 52-55 for a date type faults: some field, reached
    before any field of that type, has no type subfield, or the first
    field of that type has no date subfield. *)
Definition scan_faults (pub_dates_fields : list field) (date_type : string)
  : Prop :=
  ∃ pre d post,
    pub_dates_fields = pre ++ d :: post
    ∧ Forall (fun p => ∃ ty,
                subfield_value (PUBL_DATE_TYPE_SUBFIELD settings) p = Some ty
                ∧ ty ≠ date_type) pre
    ∧ (subfield_value (PUBL_DATE_TYPE_SUBFIELD settings) d = None
       ∨ (subfield_value (PUBL_DATE_TYPE_SUBFIELD settings) d
          = Some date_type
          ∧ subfield_value (PUBL_DATE_SUBFIELD settings) d = None)).

End Readings.

(** What a check reads with [field_get_subfield_values(fields[0], code)[0]]:
    [None] where the read raises [IndexError], there being no field
    instance or no subfield of that code in the first one. *)
Definition first_value (code : string) (fields : list field)
  : option string :=
  match fields with
  | [] => None
  | f :: _ => subfield_value code f
  end.

(** The two violations that only rule B reports. *)
Definition missing_first_author (type_check : string) : violation :=
  mk_violation type_check "No First Author field!".

Definition duplicate_first_author (type_check : string) : violation :=
  mk_violation type_check "There are more than one First Author!".

Section RuleFailures.

Variable settings : merger_settings.

(** The records rule A can read: when both tags are there and the
    system-number tag has at most one field instance, the system number can
    be read and the scan for each configured date type meets no fault. *)
Definition year_rule_readable (r : record) : Prop :=
  ∀ fs ds,
    fields_named settings "system number" r = Some fs →
    fields_named settings "publication date" r = Some ds →
    length fs ≤ 1 →
    is_Some (first_value (SYSTEM_NUMBER_SUBFIELD settings) fs)
    ∧ ∀ t, t ∈ PUBL_DATE_TYPE_VAL_SUBFIELD settings →
           ¬ scan_faults settings ds t.

(** The records rule B can read: when both tags are there, each with at
    most one field instance, the system number and the first author's name
    can be read and neither is the empty string. *)
Definition author_rule_readable (r : record) : Prop :=
  ∀ fs gs,
    fields_named settings "system number" r = Some fs →
    fields_named settings "first author" r = Some gs →
    length fs ≤ 1 → length gs ≤ 1 →
    ∃ sn a,
      first_value (SYSTEM_NUMBER_SUBFIELD settings) fs = Some sn ∧ sn ≠ ""
      ∧ first_value (AUTHOR_NAME_SUBFIELD settings) gs = Some a ∧ a ≠ "".

(** What rule A has to report on a record, failure by failure: the
    missing system number; else the missing publication date; else the
    duplicate system number; else, the system number being read, the report
    of each configured date type in configuration order, followed by the
    no-usable-date violation exactly when no date type yields a usable
    date. *)
Definition year_rule_reported (type_check : string) (r : record)
    (reports : list violation) : Prop :=
  (fields_named settings "system number" r = None →
   reports = [missing_identifier type_check])
  ∧ (is_Some (fields_named settings "system number" r) →
     fields_named settings "publication date" r = None →
     reports = [missing_publication_date type_check])
  ∧ (∀ fs,
       fields_named settings "system number" r = Some fs →
       is_Some (fields_named settings "publication date" r) →
       1 < length fs →
       reports = [duplicate_identifier type_check])
  ∧ (∀ fs ds sn,
       fields_named settings "system number" r = Some fs →
       fields_named settings "publication date" r = Some ds →
       length fs ≤ 1 →
       first_value (SYSTEM_NUMBER_SUBFIELD settings) fs = Some sn →
       ∃ per_type tail,
         reports = concat per_type ++ tail
         ∧ Forall2 (year_report_spec settings type_check sn ds)
                   (PUBL_DATE_TYPE_VAL_SUBFIELD settings) per_type
         ∧ (tail = [no_usable_date type_check]
            ↔ ∀ t, t ∈ PUBL_DATE_TYPE_VAL_SUBFIELD settings →
                   ¬ usable_date settings ds t)
         ∧ (tail = []
            ↔ ∃ t, t ∈ PUBL_DATE_TYPE_VAL_SUBFIELD settings
                   ∧ usable_date settings ds t)).

(** What rule B has to report on a record, failure by failure: the
    missing system number; else the missing first author; else the
    duplicate system number; else the duplicate first author; else, both
    values being read, the author/bibcode mismatch exactly when the first
    character of the name differs from the last character of the system
    number. *)
Definition author_rule_reported (type_check : string) (r : record)
    (reports : list violation) : Prop :=
  (fields_named settings "system number" r = None →
   reports = [missing_identifier type_check])
  ∧ (is_Some (fields_named settings "system number" r) →
     fields_named settings "first author" r = None →
     reports = [missing_first_author type_check])
  ∧ (∀ fs,
       fields_named settings "system number" r = Some fs →
       is_Some (fields_named settings "first author" r) →
       1 < length fs →
       reports = [duplicate_identifier type_check])
  ∧ (∀ fs gs,
       fields_named settings "system number" r = Some fs →
       fields_named settings "first author" r = Some gs →
       length fs ≤ 1 → 1 < length gs →
       reports = [duplicate_first_author type_check])
  ∧ (∀ fs gs sn a,
       fields_named settings "system number" r = Some fs →
       fields_named settings "first author" r = Some gs →
       length fs ≤ 1 → length gs ≤ 1 →
       first_value (SYSTEM_NUMBER_SUBFIELD settings) fs = Some sn →
       first_value (AUTHOR_NAME_SUBFIELD settings) gs = Some a →
       (reports = [author_bibcode_mismatch type_check a sn]
        ↔ PyStr.first_char a ≠ PyStr.last_char sn)
       ∧ (reports = []
          ↔ PyStr.first_char a = PyStr.last_char sn)).

End RuleFailures.

(** A record with an electronic date after the print date, and a date
    field without a type subfield after both. *)
Definition electronic_2020 : field :=
  datafield [("c", "2020-02-02"); ("t", "electronic")].

Definition record_untyped_last : record :=
  {[ "970" := [identifier_2020];
     "260" := [print_2019; electronic_2020; untyped_date];
     "100" := [author_adams] ]}.

(** A record with two system-number field instances that have no subfield
    of the system-number code. *)
Definition record_two_blank_identifiers : record :=
  {[ "970" := [datafield [("b", "x")]; datafield [("b", "y")]];
     "260" := [print_2019]; "100" := [author_adams] ]}.

(** Records for the worked examples: no system number at all, two first
    authors, a first author that disagrees with the bibcode, and a system
    number tag holding no field instance. *)
Definition record_without_identifier : record :=
  {[ "260" := [print_2019]; "100" := [author_adams] ]}.

Definition author_curie : field := datafield [("a", "Curie, M")].

Definition record_two_authors : record :=
  {[ "970" := [identifier_2020]; "260" := [print_2019];
     "100" := [author_adams; author_curie] ]}.

Definition record_curie : record :=
  {[ "970" := [identifier_2020]; "260" := [print_2019];
     "100" := [author_curie] ]}.

Definition record_no_identifier_instance : record :=
  {[ "970" := []; "260" := [print_2019]; "100" := [author_adams] ]}.

End CheckReadings.

(** ** Further readings of the timestamp manager *)

Module TimestampReadings.

(** A column that [str.strip()] leaves alone at its left end: it is not
    empty and does not start with white space. *)
Definition starts_with_nonspace (s : string) : Prop :=
  match s with
  | String c _ => PyStr.is_space c = false
  | EmptyString => False
  end.

(** A column that [str.strip()] leaves alone at its right end: it is not
    empty and does not end with white space. *)
Definition ends_with_nonspace (s : string) : Prop :=
  ∃ s' c, s = s' +:+ String c EmptyString ∧ PyStr.is_space c = false.

Import PipelineTimestampManager.

(** The worked example with bibcode B3 marked as deleted in Invenio. *)
Definition deleted_environment : environment :=
  {| BIBCODES_AST := "ast"; BIBCODES_PHY := "phy";
     BIBCODES_GEN := "gen"; BIBCODES_PRE := "pre";
     pub2arx := "pub2arx";
     files := files example_environment;
     deleted_rows := ["B3"];
     timestamp_rows := [("B3", "t3"); ("B1", "t-old")] |}.

(** An astronomy file whose last line has no newline, and a
    published-eprints file with a line whose second column is empty. *)
Definition unterminated_line : string := "B2" +:+ String PyStr.tab "t2".

Definition ragged_environment : environment :=
  {| BIBCODES_AST := "ast"; BIBCODES_PHY := "phy";
     BIBCODES_GEN := "gen"; BIBCODES_PRE := "pre";
     pub2arx := "pub2arx";
     files := {[ "gen" := []; "pre" := []; "phy" := [];
                 "ast" := [line "B1" "t1"; unterminated_line];
                 "pub2arx" := [line "B9" "B2"; line "B8" ""] ]};
     deleted_rows := [];
     timestamp_rows := [] |}.

End TimestampReadings.

(** * Properties *)

(** ** Python string primitives on examples *)

Example slice_to_year : PyStr.slice_to 4 "2019-03-01" = "2019".
Proof. reflexivity. Qed.

Example slice_to_short : PyStr.slice_to 4 "19" = "19".
Proof. reflexivity. Qed.

Example last_char_bibcode : PyStr.last_char "2020ApJ...1A" = Return "A".
Proof. reflexivity. Qed.

Example split_tab1_two :
  PyStr.split_tab1
    (String "a" (String PyStr.tab (String "b" (String PyStr.tab "c"))))
  = ["a"; String "b" (String PyStr.tab "c")].
Proof. reflexivity. Qed.

Example split_tab1_none : PyStr.split_tab1 "abc" = ["abc"].
Proof. reflexivity. Qed.

Example strip_both : PyStr.strip (String PyStr.tab " a b  ") = "a b".
Proof. reflexivity. Qed.

(** ** The consistency checks *)

Section CheckFacts.

Import GlobalMergingChecks CheckReadings.

Variable settings : merger_settings.

Local Abbreviation TYPE := (PUBL_DATE_TYPE_SUBFIELD settings).
Local Abbreviation DATE := (PUBL_DATE_SUBFIELD settings).

Local Arguments PyStr.slice_to : simpl never.
Local Arguments year_msg : simpl never.
Local Arguments String.append : simpl never.

Lemma item0_head {A} (xs : list A) :
  item0 xs = match head xs with
             | Some x => Return x
             | None => Raise IndexError
             end.
Proof. by destruct xs. Qed.

Lemma carries_head code f :
  carries code f → ∃ v, subfield_value code f = Some v.
Proof.
  unfold carries, subfield_value.
  destruct (field_get_subfield_values f code); [done | eauto].
Qed.

Lemma length_zero_empty (s : string) : String.length s = 0 ↔ s = "".
Proof. destruct s; simpl; split; congruence. Qed.

(** A scan that returns has met no fault. *)
Lemma find_pubdate_returns_no_fault ds t v :
  find_pubdate settings ds t = Return v → ¬ scan_faults settings ds t.
Proof.
  unfold subfield_value.
  intros Hret (pre & d & post & -> & Hpre & Hd). revert Hret.
  unfold subfield_value in *.
  induction Hpre as [|p pre (ty & Hp & Hne) _ IH]; simpl;
    rewrite item0_head.
  - destruct Hd as [Hd|[Hd Hv]]; rewrite Hd; [done|].
    rewrite decide_True by done. by rewrite item0_head, Hv.
  - rewrite Hp. by rewrite decide_False.
Qed.

(** The inner loop returns the date value of the date type, or the empty
    string, when its scan meets no fault. *)
Lemma find_pubdate_spec ds t :
  ¬ scan_faults settings ds t →
  find_pubdate settings ds t
  = Return (default "" (date_value_of settings ds t)).
Proof.
  unfold date_value_of, scan_faults, subfield_value.
  induction ds as [|d ds IH]; intros Hno; [done|].
  simpl. rewrite item0_head.
  destruct (head (field_get_subfield_values d TYPE)) as [ty|] eqn:Hty.
  2: { destruct Hno. exists [], d, ds. rewrite Hty.
       split_and!; [done | constructor | by left]. }
  destruct (decide (ty = t)) as [->|Hne].
  - rewrite decide_True by done. rewrite item0_head.
    destruct (head (field_get_subfield_values d DATE)) as [v|] eqn:Hv;
      [done|].
    destruct Hno. exists [], d, ds. rewrite Hty, Hv.
    split_and!; [done | constructor | by right].
  - rewrite decide_False by (unfold subfield_value; congruence). apply IH.
    intros (pre & d' & post & -> & Hpre & Hd'). apply Hno.
    exists (d :: pre), d', post. split_and!; [done | | done].
    constructor; [|done]. exists ty. by rewrite Hty.
Qed.

Lemma report_report w r1 r2 : report (report w r1) r2 = report w (r1 ++ r2).
Proof. unfold report; simpl. by rewrite <- app_assoc. Qed.

Lemma report_nil w : report w [] = w.
Proof. destruct w. unfold report; simpl. by rewrite app_nil_r. Qed.

(** The loop over the date types: every type contributes its report, and
    the counter ends at the number of usable dates. *)
Lemma check_date_types_spec ds sn tc types n w :
  (∀ t, t ∈ types → ¬ scan_faults settings ds t) →
  check_date_types settings ds sn tc types n w
  = (Return (n + length (filter (fun t => usable_dateb settings ds t) types)),
     report w (concat (year_reports settings tc sn ds types))).
Proof.
  revert n w. induction types as [|t types IH]; intros n w Hdate.
  - simpl. unfold ret. by rewrite report_nil, Nat.add_0_r.
  - simpl. unfold bind at 1, lift at 1.
    rewrite find_pubdate_spec by (apply Hdate; left).
    rewrite filter_cons.
    unfold year_report, usable_dateb.
    destruct (date_value_of settings ds t) as [v|] eqn:Hv; simpl.
    + destruct (decide (String.length v ≠ 0)) as [Hlen|Hlen].
      * assert (v ≠ "") as Hne by (by rewrite <- length_zero_empty).
        rewrite (bool_decide_eq_true_2 _ Hne). simpl.
        destruct (decide (PyStr.slice_to 4 v ≠ PyStr.slice_to 4 sn)).
        -- rewrite decide_True by done.
           unfold bind, manage_check_error. simpl.
           rewrite IH by (intros t' ?; apply (Hdate t'); by right).
           unfold report. simpl. rewrite <- app_assoc. simpl.
           f_equal. f_equal. unfold usable_dateb. lia.
        -- rewrite decide_False by tauto.
           unfold bind, ret. simpl.
           rewrite IH by (intros t' ?; apply (Hdate t'); by right).
           f_equal. f_equal. unfold usable_dateb. lia.
      * assert (v = "") as -> by (apply length_zero_empty; lia).
        rewrite decide_False by tauto. simpl.
        fold (usable_dateb settings ds).
        by rewrite IH by (intros t' ?; apply (Hdate t'); by right).
    + fold (usable_dateb settings ds).
      by rewrite IH by (intros t' ?; apply (Hdate t'); by right).
Qed.

Local Abbreviation SYS := (SYSTEM_NUMBER_SUBFIELD settings).
Local Abbreviation NAME := (AUTHOR_NAME_SUBFIELD settings).
Local Abbreviation TYPES := (PUBL_DATE_TYPE_VAL_SUBFIELD settings).
Local Abbreviation year_line := "      running check_pub_year_consistency".
Local Abbreviation author_line :=
  "      running first_author_bibcode_consistency".

(** Unfolding a check down to its reads of the settings and the record. *)
Ltac step_check :=
  unfold check_pub_year_consistency, first_author_bibcode_consistency,
    bind, try_except_KeyError, lift, record_getitem, getitem, msg,
    manage_check_error, ret, after_check.

(** Rule A on a record whose scans meet no fault: the reports are those of
    the date types in configuration order, followed by the no-usable-date
    violation when the counter stayed at zero. *)
Lemma check_pub_year_consistency_wf tc verbose w sys_tag date_tag f sn ds :
  FIELD_TO_MARC settings !! "system number" = Some sys_tag →
  FIELD_TO_MARC settings !! "publication date" = Some date_tag →
  merged_record w !! sys_tag = Some [f] →
  subfield_value SYS f = Some sn →
  merged_record w !! date_tag = Some ds →
  (∀ t, t ∈ TYPES → ¬ scan_faults settings ds t) →
  check_pub_year_consistency settings tc verbose w
  = (Return tt,
     after_check w
       (concat (year_reports settings tc sn ds TYPES)
        ++ (if decide (length (filter (fun t => usable_dateb settings ds t)
                                 TYPES) = 0)
            then [no_usable_date tc] else []))
       verbose year_line).
Proof.
  intros Hs Hd Hsys Hsn Hdates Hdate.
  unfold subfield_value in Hsn.
  step_check.
  destruct verbose; simpl;
    rewrite Hs; simpl; rewrite Hsys; simpl;
    rewrite Hd; simpl; rewrite Hdates; simpl;
    rewrite item0_head, Hsn;
    rewrite (check_date_types_spec ds sn tc TYPES 0 _ Hdate); simpl;
    destruct (decide (length (filter (fun t => usable_dateb settings ds t)
                                TYPES) = 0));
    simpl; rewrite ?app_nil_r, <- ?app_assoc; done.
Qed.

Lemma year_report_meets_spec tc sn ds t :
  year_report_spec settings tc sn ds t (year_report settings tc sn ds t).
Proof.
  unfold year_report_spec, year_report.
  destruct (date_value_of settings ds t) as [v|]; [|done].
  destruct (decide (v = "")) as [->|Hv].
  - by rewrite decide_False by tauto.
  - destruct (decide (PyStr.slice_to 4 v = PyStr.slice_to 4 sn)) as [Heq|Hne].
    + rewrite decide_False by tauto. split; split; done.
    + rewrite decide_True by tauto. split; split; done.
Qed.

(** C1 (as amended): on a merged record with exactly one system-number
    field instance carrying the system-number subfield, the
    publication-date tag present, and the scan for each configured date
    type meeting no fault (every publication-date field instance that the
    scan reaches before the first one of the type carries a type subfield,
    and that first one carries a date subfield),
    [check_pub_year_consistency] returns and reports, for each configured
    date type in configuration order, a year-mismatch violation if and
    only if the type's first matching field has a non-empty date value
    whose leading 4 characters differ from the leading 4 characters of the
    system number; a date type with no matching field or an empty value
    reports nothing.  The only other report is the trailing
    no-usable-date violation. *)
Theorem check_pub_year_consistency_year_mismatch
    tc verbose w sys_tag date_tag f sn ds :
  FIELD_TO_MARC settings !! "system number" = Some sys_tag →
  FIELD_TO_MARC settings !! "publication date" = Some date_tag →
  merged_record w !! sys_tag = Some [f] →
  subfield_value SYS f = Some sn →
  merged_record w !! date_tag = Some ds →
  (∀ t, t ∈ TYPES → ¬ scan_faults settings ds t) →
  ∃ per_type tail,
    check_pub_year_consistency settings tc verbose w
    = (Return tt, after_check w (concat per_type ++ tail) verbose year_line)
    ∧ Forall2 (year_report_spec settings tc sn ds) TYPES per_type
    ∧ (tail = [] ∨ tail = [no_usable_date tc]).
Proof.
  intros Hs Hd Hsys Hsn Hdates Hdate.
  eexists (year_reports settings tc sn ds TYPES), _.
  split; [by eapply check_pub_year_consistency_wf|].
  split.
  - unfold year_reports. apply Forall2_fmap_r, Forall_Forall2_diag.
    apply Forall_forall. intros t _. apply year_report_meets_spec.
  - case_decide; auto.
Qed.

Lemma usable_dateb_spec ds t :
  usable_dateb settings ds t = true ↔ usable_date settings ds t.
Proof.
  unfold usable_dateb, usable_date.
  destruct (date_value_of settings ds t) as [v|].
  - rewrite bool_decide_eq_true. split; [eauto | by intros (? & [= <-] & ?)].
  - split; [done | by intros (? & ? & ?)].
Qed.

Lemma year_report_unusable tc sn ds t :
  ¬ usable_date settings ds t → year_report settings tc sn ds t = [].
Proof.
  unfold usable_date, year_report. intros Hno.
  destruct (date_value_of settings ds t) as [v|]; [|done].
  case_decide as Hv; [|done]. destruct Hno. exists v. tauto.
Qed.

Lemma year_msg_starts_with_Y t sn : ∃ rest, year_msg t sn = String "Y" rest.
Proof. unfold year_msg. eexists. reflexivity. Qed.

Lemma no_usable_date_not_in_year_reports tc sn ds types :
  no_usable_date tc ∉ concat (year_reports settings tc sn ds types).
Proof.
  induction types as [|t types IH]; simpl; [apply not_elem_of_nil|].
  rewrite elem_of_app. intros [Hin|Hin]; [|done].
  unfold year_report in Hin.
  destruct (date_value_of settings ds t); [|by apply elem_of_nil in Hin].
  case_decide; [|by apply elem_of_nil in Hin].
  apply list_elem_of_singleton in Hin.
  destruct (year_msg_starts_with_Y t sn) as [rest Hrest].
  unfold no_usable_date, year_mismatch in Hin.
  rewrite Hrest in Hin. discriminate.
Qed.

Lemma year_reports_unusable tc sn ds types :
  (∀ t, t ∈ types → ¬ usable_date settings ds t) →
  concat (year_reports settings tc sn ds types) = []
  ∧ filter (fun t => usable_dateb settings ds t) types = [].
Proof.
  induction types as [|t types IH]; intros Hnone; [done|].
  destruct IH as [IH1 IH2]; [intros t' ?; apply Hnone; by right|].
  simpl. rewrite filter_cons, IH1, IH2.
  rewrite year_report_unusable by (apply Hnone; left).
  split; [done|]. case_decide as Hu; [|done].
  apply Is_true_true, usable_dateb_spec in Hu.
  destruct (Hnone t); [left | done].
Qed.

(** C7 (as amended): on a merged record with exactly one system-number
    field instance carrying the system-number subfield, the
    publication-date tag present, and the scan for each configured date
    type meeting no fault (every publication-date field instance that the
    scan reaches before the first one of the type carries a type subfield,
    and that first one carries a date subfield),
    [check_pub_year_consistency] returns; if no configured date type
    yields a non-empty date value its reports are exactly one
    no-usable-date violation, and if at least one does, no such violation
    is among its reports. *)
Theorem check_pub_year_consistency_no_usable_date
    tc verbose w sys_tag date_tag f sn ds :
  FIELD_TO_MARC settings !! "system number" = Some sys_tag →
  FIELD_TO_MARC settings !! "publication date" = Some date_tag →
  merged_record w !! sys_tag = Some [f] →
  subfield_value SYS f = Some sn →
  merged_record w !! date_tag = Some ds →
  (∀ t, t ∈ TYPES → ¬ scan_faults settings ds t) →
  ∃ reports,
    check_pub_year_consistency settings tc verbose w
    = (Return tt, after_check w reports verbose year_line)
    ∧ ((∀ t, t ∈ TYPES → ¬ usable_date settings ds t) →
       reports = [no_usable_date tc])
    ∧ ((∃ t, t ∈ TYPES ∧ usable_date settings ds t) →
       no_usable_date tc ∉ reports).
Proof.
  intros Hs Hd Hsys Hsn Hdates Hdate.
  eexists. split; [by eapply check_pub_year_consistency_wf|].
  split.
  - intros Hnone.
    destruct (year_reports_unusable tc sn ds TYPES Hnone) as [-> ->].
    done.
  - intros (t & Hin & Hu).
    assert (t ∈ filter (fun t => usable_dateb settings ds t) TYPES) as Hf.
    { apply list_elem_of_filter. split; [|done].
      by apply Is_true_true, usable_dateb_spec. }
    destruct (filter _ TYPES) as [|t0 l] eqn:E;
      [by apply elem_of_nil in Hf|].
    simpl. rewrite app_nil_r.
    apply no_usable_date_not_in_year_reports.
Qed.

(** C3 (as amended): on a merged record whose system-number tag holds
    more than one field instance, [check_pub_year_consistency] returns and
    compares no year: when the publication-date tag is present its only
    report is the duplicate-identifier violation, and when the
    publication-date tag is absent its only report is the
    missing-publication-date violation. *)
Theorem check_pub_year_consistency_duplicate_identifier
    tc verbose w sys_tag date_tag fs :
  FIELD_TO_MARC settings !! "system number" = Some sys_tag →
  FIELD_TO_MARC settings !! "publication date" = Some date_tag →
  merged_record w !! sys_tag = Some fs →
  1 < length fs →
  (is_Some (merged_record w !! date_tag) →
   check_pub_year_consistency settings tc verbose w
   = (Return tt, after_check w [duplicate_identifier tc] verbose year_line))
  ∧ (merged_record w !! date_tag = None →
     check_pub_year_consistency settings tc verbose w
     = (Return tt,
        after_check w [missing_publication_date tc] verbose year_line)).
Proof.
  intros Hs Hd Hsys Hlen. split.
  - intros [ds Hds]. step_check.
    destruct verbose; simpl;
      rewrite Hs; simpl; rewrite Hsys; simpl;
      rewrite Hd; simpl; rewrite Hds; simpl;
      by rewrite decide_True by done.
  - intros Hnone. step_check.
    destruct verbose; simpl;
      rewrite Hs; simpl; rewrite Hsys; simpl;
      rewrite Hd; simpl; by rewrite Hnone.
Qed.

Lemma first_char_nonempty s : s ≠ "" → ∃ c, PyStr.first_char s = Return c.
Proof. destruct s; [done | eauto]. Qed.

Lemma last_char_nonempty s : s ≠ "" → ∃ c, PyStr.last_char s = Return c.
Proof.
  induction s as [|a s IH]; [done|]. intros _.
  destruct s as [|b s]; [by eexists|].
  destruct IH as [c Hc]; [done|]. exists c. by rewrite <- Hc.
Qed.

(** Rule B on a record it can read. *)
Lemma first_author_bibcode_consistency_wf
    tc verbose w sys_tag auth_tag f g sn a :
  FIELD_TO_MARC settings !! "system number" = Some sys_tag →
  FIELD_TO_MARC settings !! "first author" = Some auth_tag →
  merged_record w !! sys_tag = Some [f] →
  merged_record w !! auth_tag = Some [g] →
  subfield_value SYS f = Some sn → sn ≠ "" →
  subfield_value NAME g = Some a → a ≠ "" →
  first_author_bibcode_consistency settings tc verbose w
  = (Return tt,
     after_check w
       (if decide (PyStr.first_char a ≠ PyStr.last_char sn)
        then [author_bibcode_mismatch tc a sn] else [])
       verbose author_line).
Proof.
  intros Hs Ha Hsys Hauth Hsn Hsn' Hname Hname'.
  destruct (first_char_nonempty a Hname') as [c Hc].
  destruct (last_char_nonempty sn Hsn') as [c' Hc'].
  unfold subfield_value in *. destruct w as [r snk lg]; simpl in *.
  step_check.
  destruct verbose; simpl;
    rewrite Hs; simpl; rewrite Hsys; simpl;
    rewrite Ha; simpl; rewrite Hauth; simpl;
    rewrite !item0_head, Hsn, Hname, Hc, Hc';
    (destruct (decide (c ≠ c')) as [Hne|Heq];
     [rewrite decide_True by congruence
     |rewrite decide_False by (intros H; apply Heq; congruence)]);
    simpl; by rewrite ?app_nil_r.
Qed.

(** C2: on a merged record with exactly one system-number field instance
    and exactly one first-author field instance, each carrying its
    designated subfield with a non-empty value,
    [first_author_bibcode_consistency] returns, and it reports the
    author/bibcode mismatch violation if and only if the first character
    of the first author's name differs from the last character of the
    system number; when they agree it reports nothing. *)
Theorem first_author_bibcode_consistency_mismatch
    tc verbose w sys_tag auth_tag f g sn a :
  FIELD_TO_MARC settings !! "system number" = Some sys_tag →
  FIELD_TO_MARC settings !! "first author" = Some auth_tag →
  merged_record w !! sys_tag = Some [f] →
  merged_record w !! auth_tag = Some [g] →
  subfield_value SYS f = Some sn → sn ≠ "" →
  subfield_value NAME g = Some a → a ≠ "" →
  ∃ reports,
    first_author_bibcode_consistency settings tc verbose w
    = (Return tt, after_check w reports verbose author_line)
    ∧ (reports = [author_bibcode_mismatch tc a sn]
       ↔ PyStr.first_char a ≠ PyStr.last_char sn)
    ∧ (reports = [] ↔ PyStr.first_char a = PyStr.last_char sn).
Proof.
  intros Hs Ha Hsys Hauth Hsn Hsn' Hname Hname'.
  eexists. split; [by eapply first_author_bibcode_consistency_wf|].
  destruct (decide (PyStr.first_char a = PyStr.last_char sn)).
  - rewrite decide_False by tauto. split; split; done.
  - rewrite decide_True by done. split; split; done.
Qed.

(** *** The checks only read the record *)

Lemma preserves_ret {A} (a : A) : preserves_record (ret a).
Proof. done. Qed.

Lemma preserves_lift {A} (o : outcome A) : preserves_record (lift o).
Proof. done. Qed.

Lemma preserves_msg line verbose : preserves_record (msg line verbose).
Proof. intros w. unfold msg. by destruct verbose. Qed.

Lemma preserves_manage_check_error m tc :
  preserves_record (manage_check_error m tc).
Proof. done. Qed.

Lemma preserves_record_getitem tag : preserves_record (record_getitem tag).
Proof. done. Qed.

Lemma preserves_bind {A B} (m : M A) (k : A → M B) :
  preserves_record m → (∀ a, preserves_record (k a)) →
  preserves_record (bind m k).
Proof.
  intros Hm Hk w. unfold bind. specialize (Hm w).
  destruct (m w) as [[a|e] w']; simpl in *; [|done].
  by rewrite Hk.
Qed.

Lemma preserves_try {A B} (body : M A) (handler : M B) (k : A → M B) :
  preserves_record body → preserves_record handler →
  (∀ a, preserves_record (k a)) →
  preserves_record (try_except_KeyError body handler k).
Proof.
  intros Hb Hh Hk w. unfold try_except_KeyError. specialize (Hb w).
  destruct (body w) as [[a|e] w']; simpl in *; [by rewrite Hk|].
  destruct e; simpl; first [by rewrite Hh | done].
Qed.

Ltac preserves_step :=
  first [ apply preserves_ret | apply preserves_lift | apply preserves_msg
        | apply preserves_manage_check_error
        | apply preserves_record_getitem
        | apply preserves_bind | apply preserves_try
        | intros ? | case_decide ].

Lemma preserves_check_date_types ds sn tc types n :
  preserves_record (check_date_types settings ds sn tc types n).
Proof.
  revert n. induction types as [|t types IH]; intros n; simpl.
  - apply preserves_ret.
  - apply preserves_bind; [apply preserves_lift|]. intros pubdate.
    case_decide; [|apply IH].
    apply preserves_bind; [|intros; apply IH].
    case_decide; preserves_step.
Qed.

Lemma preserves_check_pub_year_consistency tc verbose :
  preserves_record (check_pub_year_consistency settings tc verbose).
Proof.
  unfold check_pub_year_consistency.
  repeat first [ apply preserves_check_date_types | preserves_step ].
Qed.

Lemma preserves_first_author_bibcode_consistency tc verbose :
  preserves_record (first_author_bibcode_consistency settings tc verbose).
Proof.
  unfold first_author_bibcode_consistency. repeat preserves_step.
Qed.

(** C8: whatever the merged record, and whether they return or raise,
    [check_pub_year_consistency] and [first_author_bibcode_consistency],
    run alone or one after the other in either order, leave the merged
    record as it was: no tag, field instance or subfield is added,
    removed or rewritten. *)
Theorem checks_leave_record_unchanged tc verbose w :
  merged_record (check_pub_year_consistency settings tc verbose w).2
  = merged_record w
  ∧ merged_record (first_author_bibcode_consistency settings tc verbose w).2
    = merged_record w
  ∧ merged_record (run_both_year_first settings tc verbose w).2
    = merged_record w
  ∧ merged_record (run_both_author_first settings tc verbose w).2
    = merged_record w.
Proof.
  split_and!.
  - apply preserves_check_pub_year_consistency.
  - apply preserves_first_author_bibcode_consistency.
  - apply preserves_bind;
      [apply preserves_check_pub_year_consistency
      |intros; apply preserves_first_author_bibcode_consistency].
  - apply preserves_bind;
      [apply preserves_first_author_bibcode_consistency
      |intros; apply preserves_check_pub_year_consistency].
Qed.

(** *** Only the first field of a type is read *)

Lemma find_pubdate_drop_of_type t t' ds :
  t' ≠ t →
  find_pubdate settings (drop_of_type settings t ds) t'
  = find_pubdate settings ds t'.
Proof.
  intros Hne. unfold drop_of_type.
  induction ds as [|d ds IH]; [done|].
  rewrite filter_cons. unfold subfield_value in *.
  case_decide as Hd; simpl; rewrite item0_head.
  - destruct (head _) as [ty|]; [|done]. case_decide; [done | apply IH].
  - rewrite Hd. rewrite decide_False by congruence. apply IH.
Qed.

Lemma find_pubdate_keep_first_of_type t t' ds :
  find_pubdate settings (keep_first_of_type settings t ds) t'
  = find_pubdate settings ds t'.
Proof.
  induction ds as [|d ds IH]; [done|]. simpl.
  unfold subfield_value in *.
  case_decide as Hd; simpl; rewrite item0_head.
  - rewrite Hd. case_decide as Ht; [done|].
    apply find_pubdate_drop_of_type. congruence.
  - destruct (head _) as [ty|]; [|done]. case_decide; [done | apply IH].
Qed.

Lemma find_pubdate_first_match t pre d post :
  Forall (fun p => ∃ ty, subfield_value TYPE p = Some ty ∧ ty ≠ t) pre →
  subfield_value TYPE d = Some t →
  find_pubdate settings (pre ++ d :: post) t
  = item0 (field_get_subfield_values d DATE).
Proof.
  unfold subfield_value. intros Hpre Hd.
  induction Hpre as [|p pre (ty & Hp & Hne) _ IH]; simpl;
    rewrite item0_head.
  - rewrite Hd. by rewrite decide_True.
  - rewrite Hp. by rewrite decide_False.
Qed.

(** One turn of the loop over the date types. *)
Lemma check_date_types_cons ds sn tc t types n w :
  check_date_types settings ds sn tc (t :: types) n w
  = match find_pubdate settings ds t with
    | Raise e => (Raise e, w)
    | Return pubdate =>
        if decide (String.length pubdate ≠ 0)
        then check_date_types settings ds sn tc types (S n)
               (if decide (PyStr.slice_to 4 pubdate ≠ PyStr.slice_to 4 sn)
                then report w [year_mismatch tc t sn] else w)
        else check_date_types settings ds sn tc types n w
    end.
Proof.
  simpl. unfold bind, lift.
  destruct (find_pubdate settings ds t); [|done].
  case_decide; [|done]. by case_decide.
Qed.

(** The loop over the date types sees the date fields only through
    [find_pubdate], and the record not at all. *)
Lemma check_date_types_agree ds1 ds2 sn tc types n w1 w2 :
  (∀ t, find_pubdate settings ds1 t = find_pubdate settings ds2 t) →
  sink w1 = sink w2 → log w1 = log w2 →
  (check_date_types settings ds1 sn tc types n w1).1
  = (check_date_types settings ds2 sn tc types n w2).1
  ∧ sink (check_date_types settings ds1 sn tc types n w1).2
    = sink (check_date_types settings ds2 sn tc types n w2).2
  ∧ log (check_date_types settings ds1 sn tc types n w1).2
    = log (check_date_types settings ds2 sn tc types n w2).2.
Proof.
  intros Hfind. revert n w1 w2.
  induction types as [|t types IH]; intros n w1 w2 Hsink Hlog; [done|].
  rewrite !check_date_types_cons, Hfind.
  destruct (find_pubdate settings ds2 t) as [pubdate|e]; [|done].
  case_decide; [|by apply IH].
  case_decide; apply IH; simpl; congruence.
Qed.

Ltac loops_agree :=
  match goal with
  | |- context [check_date_types ?s (keep_first_of_type ?s ?t ?ds)
                  ?sn ?tc ?ty ?n ?w1] =>
      match goal with
      | |- context [check_date_types s ds sn tc ty n ?w2] =>
          let H1 := fresh "Hout" in
          let H2 := fresh "Hsink" in
          let H3 := fresh "Hlog" in
          pose proof (check_date_types_agree
                        (keep_first_of_type s t ds) ds sn tc ty n w1 w2
                        (fun t' => find_pubdate_keep_first_of_type t t' ds)
                        eq_refl eq_refl) as (H1 & H2 & H3);
          destruct (check_date_types s (keep_first_of_type s t ds)
                      sn tc ty n w1);
          destruct (check_date_types s ds sn tc ty n w2)
      end
  end.

Lemma check_pub_year_consistency_keep_first
    tc verbose r snk lg date_tag t ds :
  FIELD_TO_MARC settings !! "publication date" = Some date_tag →
  FIELD_TO_MARC settings !! "system number" ≠ Some date_tag →
  let run fields :=
    check_pub_year_consistency settings tc verbose
      {| merged_record := <[date_tag := fields]> r;
         sink := snk; log := lg |} in
  (run (keep_first_of_type settings t ds)).1 = (run ds).1
  ∧ sink (run (keep_first_of_type settings t ds)).2 = sink (run ds).2
  ∧ log (run (keep_first_of_type settings t ds)).2 = log (run ds).2.
Proof.
  intros Hd Hs run. subst run. cbv beta.
  step_check.
  destruct (FIELD_TO_MARC settings !! "system number") as [sys_tag|] eqn:E;
    [|by destruct verbose].
  assert (date_tag ≠ sys_tag) as Hne by congruence.
  destruct verbose; simpl;
    rewrite !(lookup_insert_ne _ _ _ _ Hne);
    (destruct (r !! sys_tag) as [fs|]; simpl; [|done]);
    rewrite Hd; simpl; rewrite !lookup_insert_eq; simpl;
    (case_decide; [done|]);
    (destruct (item0 fs) as [f|e]; simpl; [|done]);
    (destruct (item0 (field_get_subfield_values f SYS)) as [sn|e];
     simpl; [|done]).
  all: loops_agree;
    simpl in *; subst;
    (match goal with o : outcome nat |- _ => destruct o as [k|e] end;
     simpl; [|done]);
    case_decide; simpl; rewrite ?Hsink, ?Hlog; done.
Qed.


(** C10: for each date type, [check_pub_year_consistency] reads the first
    publication-date field instance, in record order, whose type subfield
    equals it, and ignores the later instances of that type: taking the
    later instances of a type out of the publication-date fields, whatever
    their date values, changes neither the outcome of the check, nor what
    it reports, nor what it logs; and the scan for a type returns the date
    of the first instance of that type, whatever follows it. *)
Theorem check_pub_year_consistency_first_match_only
    tc verbose r snk lg date_tag t ds :
  FIELD_TO_MARC settings !! "publication date" = Some date_tag →
  FIELD_TO_MARC settings !! "system number" ≠ Some date_tag →
  let run fields :=
    check_pub_year_consistency settings tc verbose
      {| merged_record := <[date_tag := fields]> r;
         sink := snk; log := lg |} in
  (run (keep_first_of_type settings t ds)).1 = (run ds).1
  ∧ sink (run (keep_first_of_type settings t ds)).2 = sink (run ds).2
  ∧ log (run (keep_first_of_type settings t ds)).2 = log (run ds).2
  ∧ ∀ pre d post,
      Forall (fun p => ∃ ty, subfield_value TYPE p = Some ty ∧ ty ≠ t) pre →
      subfield_value TYPE d = Some t →
      find_pubdate settings (pre ++ d :: post) t
      = item0 (field_get_subfield_values d DATE).
Proof.
  intros Hd Hs run.
  destruct (check_pub_year_consistency_keep_first tc verbose r snk lg
              date_tag t ds Hd Hs) as (H1 & H2 & H3).
  split_and!; [exact H1 | exact H2 | exact H3 |].
  apply find_pubdate_first_match.
Qed.

End CheckFacts.

Section CheckExamples.

Import GlobalMergingChecks CheckReadings.

Local Abbreviation year_line := "      running check_pub_year_consistency".

Lemma example_scans_meet_no_fault t :
  t ∈ PUBL_DATE_TYPE_VAL_SUBFIELD example_settings →
  ¬ scan_faults example_settings [print_2019] t.
Proof.
  intros _. apply (find_pubdate_returns_no_fault example_settings _ _
                     (if decide (t = "print") then "2019-03-01" else "")).
  assert (field_get_subfield_values print_2019
            (PUBL_DATE_TYPE_SUBFIELD example_settings) = ["print"]) as Hty
    by (vm_compute; reflexivity).
  assert (field_get_subfield_values print_2019
            (PUBL_DATE_SUBFIELD example_settings) = ["2019-03-01"]) as Hdate
    by (vm_compute; reflexivity).
  cbn [find_pubdate]. rewrite Hty, Hdate. cbn [item0].
  destruct (decide (t = "print")) as [->|Hne].
  - by rewrite decide_True.
  - by rewrite decide_False.
Defined.

(** The scans for both configured date types stop at their match, before
    the field that has no type subfield. *)
Lemma example_scans_stop_before_untyped t :
  t ∈ PUBL_DATE_TYPE_VAL_SUBFIELD example_settings →
  ¬ scan_faults example_settings
      [print_2019; electronic_2020; untyped_date] t.
Proof.
  intros Ht. simpl in Ht.
  apply elem_of_cons in Ht as [->|Ht];
    [|apply elem_of_cons in Ht as [->|Ht]; [|by apply elem_of_nil in Ht]].
  - apply (find_pubdate_returns_no_fault example_settings _ _ "2019-03-01").
    vm_compute; reflexivity.
  - apply (find_pubdate_returns_no_fault example_settings _ _ "2020-02-02").
    vm_compute; reflexivity.
Defined.

(** The amended C1 at a record whose print date is of 2019 and whose
    bibcode is of 2020, with an electronic date of 2020 and, after both, a
    date field that has no type subfield. *)
Lemma check_pub_year_consistency_year_mismatch_witness :
  ∃ per_type tail,
    check_pub_year_consistency example_settings "warnings" false
      (fresh record_untyped_last)
    = (Return tt,
       after_check (fresh record_untyped_last) (concat per_type ++ tail)
         false year_line)
    ∧ Forall2 (year_report_spec example_settings "warnings" "2020ApJ...1A"
                 [print_2019; electronic_2020; untyped_date])
              (PUBL_DATE_TYPE_VAL_SUBFIELD example_settings) per_type
    ∧ (tail = [] ∨ tail = [no_usable_date "warnings"]).
Proof.
  apply (check_pub_year_consistency_year_mismatch example_settings
           "warnings" false (fresh record_untyped_last) "970" "260"
           identifier_2020 "2020ApJ...1A"
           [print_2019; electronic_2020; untyped_date]).
  - vm_compute; reflexivity.
  - vm_compute; reflexivity.
  - vm_compute; reflexivity.
  - vm_compute; reflexivity.
  - vm_compute; reflexivity.
  - exact example_scans_stop_before_untyped.
Defined.

(** C1 as stated fails: with a type-less date field ahead of the print
    date, the record has exactly one system-number field instance and the
    publication-date tag, the first field matching type print holds the
    non-empty date 2019-03-01 whose year differs from the bibcode's 2020,
    and yet no year mismatch is reported: the scan raises [IndexError] on
    the type-less field and the sink stays empty. *)
Lemma check_pub_year_consistency_year_mismatch_counterexample :
  let w := fresh record_untyped_date in
  let ds := [untyped_date; print_2019] in
  merged_record w !! "970" = Some [identifier_2020]
  ∧ merged_record w !! "260" = Some ds
  ∧ "print" ∈ PUBL_DATE_TYPE_VAL_SUBFIELD example_settings
  ∧ date_value_of example_settings ds "print" = Some "2019-03-01"
  ∧ PyStr.slice_to 4 "2019-03-01" ≠ PyStr.slice_to 4 "2020ApJ...1A"
  ∧ check_pub_year_consistency example_settings "warnings" false w
    = (Raise IndexError, w)
  ∧ ¬ ∃ per_type tail,
        check_pub_year_consistency example_settings "warnings" false w
        = (Return tt, after_check w (concat per_type ++ tail) false year_line)
        ∧ Forall2 (year_report_spec example_settings "warnings"
                     "2020ApJ...1A" ds)
                  (PUBL_DATE_TYPE_VAL_SUBFIELD example_settings) per_type.
Proof.
  assert (check_pub_year_consistency example_settings "warnings" false
            (fresh record_untyped_date)
          = (Raise IndexError, fresh record_untyped_date)) as Hrun
    by (vm_compute; reflexivity).
  cbv zeta. split_and!.
  - vm_compute; reflexivity.
  - vm_compute; reflexivity.
  - simpl. set_solver.
  - vm_compute; reflexivity.
  - vm_compute. discriminate.
  - exact Hrun.
  - intros (per_type & tail & Heq & _). rewrite Hrun in Heq. discriminate.
Qed.

Local Abbreviation author_line :=
  "      running first_author_bibcode_consistency".

(** The amended C7 at the record with a usable print date. *)
Lemma check_pub_year_consistency_no_usable_date_witness :
  ∃ reports,
    check_pub_year_consistency example_settings "warnings" false
      (fresh record_print_2019)
    = (Return tt, after_check (fresh record_print_2019) reports false
                    year_line)
    ∧ ((∀ t, t ∈ PUBL_DATE_TYPE_VAL_SUBFIELD example_settings →
             ¬ usable_date example_settings [print_2019] t) →
       reports = [no_usable_date "warnings"])
    ∧ ((∃ t, t ∈ PUBL_DATE_TYPE_VAL_SUBFIELD example_settings
             ∧ usable_date example_settings [print_2019] t) →
       no_usable_date "warnings" ∉ reports).
Proof.
  apply (check_pub_year_consistency_no_usable_date example_settings
           "warnings" false (fresh record_print_2019) "970" "260"
           identifier_2020 "2020ApJ...1A" [print_2019]).
  - vm_compute; reflexivity.
  - vm_compute; reflexivity.
  - vm_compute; reflexivity.
  - vm_compute; reflexivity.
  - vm_compute; reflexivity.
  - exact example_scans_meet_no_fault.
Defined.

Lemma untyped_date_matches_nothing t :
  first_matching_field example_settings [untyped_date] t = None.
Proof. reflexivity. Qed.

(** C7 as stated fails: the record has exactly one system-number field
    instance and the publication-date tag, its only date field has no
    type subfield, so no configured date type yields a date value; the
    claim asks for one no-usable-date violation, and the check raises
    [IndexError] with nothing reported. *)
Lemma check_pub_year_consistency_no_usable_date_counterexample :
  let w := fresh record_only_untyped_date in
  merged_record w !! "970" = Some [identifier_2020]
  ∧ merged_record w !! "260" = Some [untyped_date]
  ∧ (∀ t, t ∈ PUBL_DATE_TYPE_VAL_SUBFIELD example_settings →
          ¬ usable_date example_settings [untyped_date] t)
  ∧ check_pub_year_consistency example_settings "warnings" false w
    = (Raise IndexError, w)
  ∧ ¬ ∃ reports,
        check_pub_year_consistency example_settings "warnings" false w
        = (Return tt, after_check w reports false year_line)
        ∧ reports = [no_usable_date "warnings"].
Proof.
  assert (check_pub_year_consistency example_settings "warnings" false
            (fresh record_only_untyped_date)
          = (Raise IndexError, fresh record_only_untyped_date)) as Hrun
    by (vm_compute; reflexivity).
  cbv zeta. split_and!.
  - vm_compute; reflexivity.
  - vm_compute; reflexivity.
  - intros t _ (v & Hv & _). unfold date_value_of in Hv.
    by rewrite untyped_date_matches_nothing in Hv.
  - exact Hrun.
  - intros (reports & Heq & _). rewrite Hrun in Heq. discriminate.
Qed.

(** The amended C3 at the record with two system numbers and a
    publication date. *)
Lemma check_pub_year_consistency_duplicate_identifier_witness :
  (is_Some (merged_record (fresh record_two_identifiers_dated) !! "260") →
   check_pub_year_consistency example_settings "warnings" false
     (fresh record_two_identifiers_dated)
   = (Return tt,
      after_check (fresh record_two_identifiers_dated)
        [duplicate_identifier "warnings"] false year_line))
  ∧ (merged_record (fresh record_two_identifiers_dated) !! "260" = None →
     check_pub_year_consistency example_settings "warnings" false
       (fresh record_two_identifiers_dated)
     = (Return tt,
        after_check (fresh record_two_identifiers_dated)
          [missing_publication_date "warnings"] false year_line)).
Proof.
  apply (check_pub_year_consistency_duplicate_identifier example_settings
           "warnings" false (fresh record_two_identifiers_dated)
           "970" "260" [identifier_2020; identifier_2020]).
  - vm_compute; reflexivity.
  - vm_compute; reflexivity.
  - vm_compute; reflexivity.
  - simpl; lia.
Defined.

(** C3 as stated fails: with two system-number field instances and no
    publication-date tag, the check reports the missing publication date
    and returns; the duplicate-identifier violation is not reported. *)
Lemma check_pub_year_consistency_duplicate_identifier_counterexample :
  let w := fresh record_two_identifiers in
  merged_record w !! "970" = Some [identifier_2020; identifier_2020]
  ∧ merged_record w !! "260" = None
  ∧ check_pub_year_consistency example_settings "warnings" false w
    = (Return tt,
       after_check w [missing_publication_date "warnings"] false year_line)
  ∧ duplicate_identifier "warnings"
    ∉ sink (check_pub_year_consistency example_settings "warnings" false
              w).2.
Proof.
  assert (check_pub_year_consistency example_settings "warnings" false
            (fresh record_two_identifiers)
          = (Return tt,
             after_check (fresh record_two_identifiers)
               [missing_publication_date "warnings"] false year_line))
    as Hrun by (vm_compute; reflexivity).
  cbv zeta. split_and!.
  - vm_compute; reflexivity.
  - vm_compute; reflexivity.
  - exact Hrun.
  - rewrite Hrun. simpl. intros Hin.
    apply list_elem_of_singleton in Hin. discriminate.
Qed.

(** C2 at the record whose first author, Adams, agrees with the last
    letter of the bibcode. *)
Lemma first_author_bibcode_consistency_mismatch_witness :
  ∃ reports,
    first_author_bibcode_consistency example_settings "warnings" false
      (fresh record_print_2019)
    = (Return tt,
       after_check (fresh record_print_2019) reports false author_line)
    ∧ (reports = [author_bibcode_mismatch "warnings" "Adams, J"
                    "2020ApJ...1A"]
       ↔ PyStr.first_char "Adams, J" ≠ PyStr.last_char "2020ApJ...1A")
    ∧ (reports = []
       ↔ PyStr.first_char "Adams, J" = PyStr.last_char "2020ApJ...1A").
Proof.
  apply (first_author_bibcode_consistency_mismatch example_settings
           "warnings" false (fresh record_print_2019) "970" "100"
           identifier_2020 author_adams "2020ApJ...1A" "Adams, J").
  - vm_compute; reflexivity.
  - vm_compute; reflexivity.
  - vm_compute; reflexivity.
  - vm_compute; reflexivity.
  - vm_compute; reflexivity.
  - discriminate.
  - vm_compute; reflexivity.
  - discriminate.
Defined.

(** The scenario of rule B in the specification: an identifier ending in
    B and a first author starting with C. *)
Example first_author_bibcode_consistency_scenario :
  sink (first_author_bibcode_consistency example_settings "warnings" false
          (fresh {[ "970" := [datafield [("a", "2020ApJ...1B")]];
                    "100" := [datafield [("a", "Curie, M")]] ]})).2
  = [author_bibcode_mismatch "warnings" "Curie, M" "2020ApJ...1B"].
Proof. vm_compute; reflexivity. Qed.

(** The scenario of rule A in the specification. *)
Example check_pub_year_consistency_scenario :
  sink (check_pub_year_consistency example_settings "warnings" false
          (fresh record_print_2019)).2
  = [year_mismatch "warnings" "print" "2020ApJ...1A"].
Proof. vm_compute; reflexivity. Qed.

(** C4 as stated fails: rule A raises [IndexError] on a record whose
    system-number field instance has no subfield of the system-number
    code, and rule B raises [IndexError] on a record whose first author's
    name is the empty string; neither reports anything to the sink. *)
Lemma checks_return_normally_counterexample :
  check_pub_year_consistency example_settings "warnings" false
    (fresh record_identifier_without_value)
  = (Raise IndexError, fresh record_identifier_without_value)
  ∧ first_author_bibcode_consistency example_settings "warnings" false
      (fresh record_empty_author)
    = (Raise IndexError, fresh record_empty_author).
Proof. split; vm_compute; reflexivity. Qed.

(** C10 at a record with two print dates: the later one, of 2021, is
    ignored. *)
Lemma check_pub_year_consistency_first_match_only_witness :
  let run fields :=
    check_pub_year_consistency example_settings "warnings" false
      {| merged_record := <[ "260" := fields ]> record_print_2019;
         sink := []; log := [] |} in
  let ds := [print_2019; print_2021] in
  (run (keep_first_of_type example_settings "print" ds)).1 = (run ds).1
  ∧ sink (run (keep_first_of_type example_settings "print" ds)).2
    = sink (run ds).2
  ∧ log (run (keep_first_of_type example_settings "print" ds)).2
    = log (run ds).2
  ∧ ∀ pre d post,
      Forall (fun p => ∃ ty,
                subfield_value (PUBL_DATE_TYPE_SUBFIELD example_settings) p
                = Some ty ∧ ty ≠ "print") pre →
      subfield_value (PUBL_DATE_TYPE_SUBFIELD example_settings) d
      = Some "print" →
      find_pubdate example_settings (pre ++ d :: post) "print"
      = item0 (field_get_subfield_values d
                 (PUBL_DATE_SUBFIELD example_settings)).
Proof.
  apply (check_pub_year_consistency_first_match_only example_settings
           "warnings" false record_print_2019 [] [] "260" "print"
           [print_2019; print_2021]).
  - vm_compute; reflexivity.
  - vm_compute. discriminate.
Defined.

Example keep_first_of_type_example :
  keep_first_of_type example_settings "print" [print_2019; print_2021]
  = [print_2019].
Proof. vm_compute; reflexivity. Qed.

Example later_print_date_ignored :
  sink (check_pub_year_consistency example_settings "warnings" false
          (fresh (<[ "260" := [print_2020; print_2019] ]>
                    record_print_2019))).2
  = [].
Proof. vm_compute; reflexivity. Qed.

End CheckExamples.

(** ** The timestamp manager *)

Section TimestampFacts.

Import PipelineTimestampManager.

(** *** Comparing the two dictionaries *)

Lemma check_timestamps_spec bibcodes
    (ads_timestamps invenio_timestamps : gmap string string) acc :
  (∀ b, b ∈ bibcodes →
        is_Some (ads_timestamps !! b) ∧ is_Some (invenio_timestamps !! b)) →
  check_timestamps bibcodes ads_timestamps invenio_timestamps acc
  = Return (acc ++ filter (fun b => invenio_timestamps !! b
                                    ≠ ads_timestamps !! b) bibcodes).
Proof.
  revert acc. induction bibcodes as [|b bibcodes IH]; intros acc Hin; simpl.
  - by rewrite app_nil_r.
  - destruct (Hin b) as [[ta Ha] [ti Hi]]; [left|].
    unfold getitem. rewrite Ha, Hi. simpl.
    rewrite IH by (intros; apply Hin; by right).
    rewrite filter_cons, Ha, Hi.
    destruct (decide (ti ≠ ta)).
    + rewrite decide_True by congruence. by rewrite <- app_assoc.
    + rewrite decide_False; [done|]. intros H. apply n. congruence.
Qed.

(** [get_records_status] on two dictionaries: it returns, and the three
    collections are the set differences and the keys of both sides with
    different timestamps. *)
Lemma get_records_status_from_returns
    (ads_timestamps invenio_timestamps : gmap string string) :
  get_records_status_from ads_timestamps invenio_timestamps
  = Return (dom ads_timestamps ∖ dom invenio_timestamps,
            filter (fun b => invenio_timestamps !! b ≠ ads_timestamps !! b)
                   (elements (dom invenio_timestamps
                              ∖ (dom invenio_timestamps
                                 ∖ dom ads_timestamps))),
            dom invenio_timestamps ∖ dom ads_timestamps).
Proof.
  unfold get_records_status_from.
  rewrite check_timestamps_spec; [done|].
  intros b Hb. apply elem_of_elements in Hb.
  rewrite <- !elem_of_dom.
  apply elem_of_difference in Hb as [Hi Hnot]. split; [|done].
  destruct (decide (b ∈ dom ads_timestamps)) as [|Hno]; [done|].
  destruct Hnot. by apply elem_of_difference.
Qed.

Lemma elem_of_modified (ads_timestamps invenio_timestamps : gmap string string) k :
  k ∈ filter (fun b => invenio_timestamps !! b ≠ ads_timestamps !! b)
             (elements (dom invenio_timestamps
                        ∖ (dom invenio_timestamps ∖ dom ads_timestamps)))
  ↔ ∃ t_ads t_inv,
      ads_timestamps !! k = Some t_ads
      ∧ invenio_timestamps !! k = Some t_inv
      ∧ t_ads ≠ t_inv.
Proof.
  rewrite list_elem_of_filter, elem_of_elements.
  rewrite elem_of_difference, elem_of_difference, !elem_of_dom.
  split.
  - intros (Hne & [ti Hi] & Hnot).
    destruct (ads_timestamps !! k) as [ta|] eqn:Ha.
    + exists ta, ti. split_and!; [done | done | congruence].
    + destruct Hnot. split; [eauto | by intros [? ?]].
  - intros (ta & ti & Ha & Hi & Hne). rewrite Ha, Hi.
    split_and!; [congruence | eauto | ].
    intros [_ Hnone]. apply Hnone. eauto.
Qed.

(** C6: for every pair of bibcode -> timestamp dictionaries,
    [get_records_status] returns three collections: the added bibcodes
    are exactly the ADS keys absent from Invenio, the deleted ones exactly
    the Invenio keys absent from ADS, the modified ones exactly the keys of
    both dictionaries whose two timestamps differ; the three are pairwise
    disjoint, and no bibcode is listed twice as modified. *)
Theorem get_records_status_partition
    (ads_timestamps invenio_timestamps : gmap string string) :
  ∃ records_added records_modified records_deleted,
    get_records_status_from ads_timestamps invenio_timestamps
    = Return (records_added, records_modified, records_deleted)
    ∧ (∀ k, k ∈ records_added
            ↔ is_Some (ads_timestamps !! k) ∧ invenio_timestamps !! k = None)
    ∧ (∀ k, k ∈ records_deleted
            ↔ is_Some (invenio_timestamps !! k) ∧ ads_timestamps !! k = None)
    ∧ (∀ k, k ∈ records_modified
            ↔ ∃ t_ads t_inv,
                ads_timestamps !! k = Some t_ads
                ∧ invenio_timestamps !! k = Some t_inv
                ∧ t_ads ≠ t_inv)
    ∧ (records_added ## records_deleted)
    ∧ (∀ k, k ∈ records_modified →
            (k ∉ records_added) ∧ (k ∉ records_deleted))
    ∧ NoDup records_modified.
Proof.
  eexists _, _, _. split; [apply get_records_status_from_returns|].
  split_and!.
  - intros k. rewrite elem_of_difference, !elem_of_dom.
    by rewrite eq_None_not_Some.
  - intros k. rewrite elem_of_difference, !elem_of_dom.
    by rewrite eq_None_not_Some.
  - apply elem_of_modified.
  - intros k [Ha _]%elem_of_difference [_ Hno]%elem_of_difference. done.
  - intros k Hk. apply elem_of_modified in Hk as (ta & ti & Ha & Hi & _).
    rewrite !elem_of_difference, !elem_of_dom. rewrite Ha, Hi.
    split; intros [_ Hnot]; apply Hnot; eauto.
  - apply NoDup_filter, NoDup_elements.
Qed.

(** *** Building the ADS dictionary *)

Lemma split_tab1_has_tab s :
  has_tab s → ∃ a b, PyStr.split_tab1 s = [a; b].
Proof.
  unfold has_tab. induction s as [|c s IH]; simpl.
  - intros H. by apply elem_of_nil in H.
  - intros H. destruct (Ascii.eqb c PyStr.tab) eqn:E; [eauto|].
    apply Ascii.eqb_neq in E.
    apply elem_of_cons in H as [Heq|H]; [by destruct E|].
    destruct (IH H) as (a & b & ->). eauto.
Qed.

Lemma read_timestamp_lines_returns lines acc :
  Forall (fun l => has_tab (PyStr.drop_last l)) lines →
  ∃ db, read_timestamp_lines lines acc = Return db.
Proof.
  intros Hall. revert acc.
  induction Hall as [|l lines Hl _ IH]; intros acc; simpl; [eauto|].
  destruct (split_tab1_has_tab _ Hl) as (a & b & ->). apply IH.
Qed.

Lemma published_eprints_of_returns lines :
  Forall (fun l => has_tab (PyStr.strip l)) lines →
  ∃ bibcodes, published_eprints_of lines = Return bibcodes.
Proof.
  induction 1 as [|l lines Hl _ [bibcodes IH]]; simpl; [eauto|].
  destruct (split_tab1_has_tab _ Hl) as (a & b & ->).
  rewrite IH. simpl. eauto.
Qed.

Lemma update_from_files_returns env filenames acc :
  (∀ filename, filename ∈ filenames →
     ∃ db, _read_timestamp_file env filename = Return db) →
  ∃ tiers,
    Forall2 (fun filename db => _read_timestamp_file env filename = Return db)
            filenames tiers
    ∧ update_from_files env filenames acc = Return (updated acc tiers).
Proof.
  revert acc. induction filenames as [|f filenames IH]; intros acc Hall.
  - exists []. by split.
  - destruct (Hall f) as [db Hdb]; [left|].
    destruct (IH (db ∪ acc)) as (tiers & Htiers & Hrun);
      [intros; apply Hall; by right|].
    exists (db :: tiers). split; [by constructor|].
    simpl. rewrite Hdb. simpl. exact Hrun.
Qed.

Lemma updated_lookup_absent (tiers : list (gmap string string)) acc k :
  (∀ db, db ∈ tiers → db !! k = None) →
  updated acc tiers !! k = acc !! k.
Proof.
  revert acc. induction tiers as [|db tiers IH]; intros acc Hall; [done|].
  simpl. rewrite IH by (intros; apply Hall; by right).
  rewrite lookup_union_r; [done|]. apply Hall. left.
Qed.

(** The entry kept for a bibcode is that of the last file holding it. *)
Lemma updated_lookup_latest (tiers : list (gmap string string)) acc k i db t :
  tiers !! i = Some db → db !! k = Some t →
  (∀ j db', i < j → tiers !! j = Some db' → db' !! k = None) →
  updated acc tiers !! k = Some t.
Proof.
  revert acc i. induction tiers as [|d tiers IH]; intros acc i Hi Hk Hlater;
    [done|].
  destruct i as [|i]; simpl in *.
  - injection Hi as ->. rewrite updated_lookup_absent.
    + by apply lookup_union_Some_l.
    + intros db' Hin. apply list_elem_of_lookup in Hin as [j Hj].
      apply (Hlater (S j)); [lia | done].
  - apply (IH _ i); [done | done |].
    intros j db' Hlt Hj. apply (Hlater (S j)); [lia | done].
Qed.

Lemma remove_published_lookup bibcodes (timestamps : gmap string string) k :
  remove_published bibcodes timestamps !! k
  = if decide (k ∈ bibcodes) then None else timestamps !! k.
Proof.
  unfold remove_published. revert timestamps.
  induction bibcodes as [|b bibcodes IH]; intros timestamps.
  - case_decide as Hin; [by apply elem_of_nil in Hin | done].
  - cbn [foldl]. rewrite IH.
    destruct (decide (k ∈ bibcodes)) as [Hin|Hnot].
    + case_decide as Hin'; [done|]. destruct Hin'. by right.
    + destruct (decide (k = b)) as [->|Hne].
      * case_decide as Hin'; [apply lookup_delete_eq|].
        destruct Hin'. left.
      * case_decide as Hin'; [|by apply lookup_delete_ne].
        apply elem_of_cons in Hin' as [?|?]; done.
Qed.

(** A bibcode that the ADS dictionary does not hold is neither to add
    nor to modify. *)
Lemma absent_neither_added_nor_modified
    (ads_timestamps invenio_timestamps : gmap string string) k :
  ads_timestamps !! k = None →
  (k ∉ dom ads_timestamps ∖ dom invenio_timestamps)
  ∧ (k ∉ filter (fun b => invenio_timestamps !! b ≠ ads_timestamps !! b)
                (elements (dom invenio_timestamps
                           ∖ (dom invenio_timestamps
                              ∖ dom ads_timestamps)))).
Proof.
  intros Hnone. split.
  - rewrite elem_of_difference, elem_of_dom, Hnone. by intros [[? ?] _].
  - rewrite elem_of_modified, Hnone. by intros (? & ? & ? & _).
Qed.

Lemma _read_timestamp_file_returns env filename :
  readable env → filename ∈ TIMESTAMP_FILES_HIERARCHY env →
  ∃ db, _read_timestamp_file env filename = Return db.
Proof.
  intros [Hfiles _] Hin. destruct (Hfiles _ Hin) as (lines & Hopen & Hall).
  unfold _read_timestamp_file, open_lines. rewrite Hopen. simpl.
  by apply read_timestamp_lines_returns.
Qed.

(** C9: when its files can be read, [_get_ads_timestamps] returns a
    dictionary in which a bibcode that is not a published eprint has the
    timestamp of the file listed latest in [TIMESTAMP_FILES_HIERARCHY]
    among those holding it (so the astronomy file, listed last, always
    wins), and in which no bibcode of the published-eprints file is left:
    such a bibcode is never among the records to add or to modify that
    [get_records_status] computes from the dictionary. *)
Theorem get_ads_timestamps_hierarchy env :
  readable env →
  ∃ timestamps tiers eprints,
    _get_ads_timestamps env = Return timestamps
    ∧ Forall2 (fun filename db =>
                 _read_timestamp_file env filename = Return db)
              (TIMESTAMP_FILES_HIERARCHY env) tiers
    ∧ published_eprints env = Return eprints
    ∧ (∀ k i db t,
         k ∉ eprints →
         tiers !! i = Some db → db !! k = Some t →
         (∀ j db', i < j → tiers !! j = Some db' → db' !! k = None) →
         timestamps !! k = Some t)
    ∧ (∀ k db_ast t,
         k ∉ eprints →
         _read_timestamp_file env (BIBCODES_AST env) = Return db_ast →
         db_ast !! k = Some t →
         timestamps !! k = Some t)
    ∧ (∀ k, k ∈ eprints → timestamps !! k = None)
    ∧ (∀ invenio_timestamps records_added records_modified records_deleted,
         get_records_status_from timestamps invenio_timestamps
         = Return (records_added, records_modified, records_deleted) →
         ∀ k, k ∈ eprints →
              (k ∉ records_added) ∧ (k ∉ records_modified))
    ∧ (∃ records_added records_modified records_deleted,
         get_records_status env
         = Return (records_added, records_modified, records_deleted)
         ∧ ∀ k, k ∈ eprints →
                (k ∉ records_added) ∧ (k ∉ records_modified)).
Proof.
  intros Hreadable.
  destruct (update_from_files_returns env (TIMESTAMP_FILES_HIERARCHY env) ∅)
    as (tiers & Htiers & Hrun);
    [intros; by apply _read_timestamp_file_returns|].
  destruct Hreadable as [_ (lines & Hopen & Hall)].
  destruct (published_eprints_of_returns lines Hall) as [eprints Hpub].
  assert (published_eprints env = Return eprints) as Hpub'
    by (unfold published_eprints, open_lines; by rewrite Hopen).
  exists (remove_published eprints (updated ∅ tiers)), tiers, eprints.
  assert (∀ k, k ∈ eprints →
               remove_published eprints (updated ∅ tiers) !! k = None)
    as Hgone
    by (intros k Hk; rewrite remove_published_lookup; by rewrite decide_True).
  assert (∀ k i db t,
            k ∉ eprints →
            tiers !! i = Some db → db !! k = Some t →
            (∀ j db', i < j → tiers !! j = Some db' → db' !! k = None) →
            remove_published eprints (updated ∅ tiers) !! k = Some t)
    as Hlatest.
  { intros k i db t Hk Hi Hdb Hlater.
    rewrite remove_published_lookup, decide_False by done.
    by eapply updated_lookup_latest. }
  assert (_get_ads_timestamps env
          = Return (remove_published eprints (updated ∅ tiers))) as Hget
    by (unfold _get_ads_timestamps; rewrite Hrun; simpl; by rewrite Hpub').
  split_and!; [exact Hget|done|done|exact Hlatest| |exact Hgone| |].
  - intros k db_ast t Hk Hast Hdb.
    unfold TIMESTAMP_FILES_HIERARCHY in Htiers.
    repeat (match goal with
            | H : Forall2 _ (_ :: _) _ |- _ =>
                apply Forall2_cons_inv_l in H as (? & ? & ? & ? & ->)
            | H : Forall2 _ [] _ |- _ => apply Forall2_nil_inv_l in H as ->
            end).
    apply (Hlatest k 3 db_ast t); [done | | done |].
    + simpl. congruence.
    + intros j db' Hlt Hj. apply lookup_lt_Some in Hj. simpl in Hj. lia.
  - intros inv added modified deleted Hstatus k Hk.
    rewrite get_records_status_from_returns in Hstatus.
    injection Hstatus as <- <- <-.
    by apply absent_neither_added_nor_modified, Hgone.
  - unfold get_records_status. rewrite Hget. simpl.
    rewrite get_records_status_from_returns.
    eexists _, _, _. split; [reflexivity|].
    intros k Hk. by apply absent_neither_added_nor_modified, Hgone.
Qed.

End TimestampFacts.

Section TimestampExamples.

Import PipelineTimestampManager.

Lemma example_environment_readable : readable example_environment.
Proof.
  split.
  - intros filename Hin. unfold TIMESTAMP_FILES_HIERARCHY in Hin. simpl in Hin.
    repeat (apply elem_of_cons in Hin as [->|Hin]);
      [| | | |by apply elem_of_nil in Hin];
      eexists; (split; [vm_compute; reflexivity|]);
      repeat constructor.
  - eexists. split; [vm_compute; reflexivity|].
    repeat constructor.
Defined.

(** C9 at the example environment. *)
Lemma get_ads_timestamps_hierarchy_witness :
  ∃ timestamps tiers eprints,
    _get_ads_timestamps example_environment = Return timestamps
    ∧ Forall2 (fun filename db =>
                 _read_timestamp_file example_environment filename
                 = Return db)
              (TIMESTAMP_FILES_HIERARCHY example_environment) tiers
    ∧ published_eprints example_environment = Return eprints
    ∧ (∀ k i db t,
         k ∉ eprints →
         tiers !! i = Some db → db !! k = Some t →
         (∀ j db', i < j → tiers !! j = Some db' → db' !! k = None) →
         timestamps !! k = Some t)
    ∧ (∀ k db_ast t,
         k ∉ eprints →
         _read_timestamp_file example_environment
           (BIBCODES_AST example_environment) = Return db_ast →
         db_ast !! k = Some t →
         timestamps !! k = Some t)
    ∧ (∀ k, k ∈ eprints → timestamps !! k = None)
    ∧ (∀ invenio_timestamps records_added records_modified records_deleted,
         get_records_status_from timestamps invenio_timestamps
         = Return (records_added, records_modified, records_deleted) →
         ∀ k, k ∈ eprints →
              (k ∉ records_added) ∧ (k ∉ records_modified))
    ∧ (∃ records_added records_modified records_deleted,
         get_records_status example_environment
         = Return (records_added, records_modified, records_deleted)
         ∧ ∀ k, k ∈ eprints →
                (k ∉ records_added) ∧ (k ∉ records_modified)).
Proof.
  apply (get_ads_timestamps_hierarchy example_environment).
  exact example_environment_readable.
Defined.

(** The astronomy timestamp of B1 wins over the physics one, and the
    published eprint B2 is gone. *)
Example example_ads_timestamps :
  _get_ads_timestamps example_environment
  = Return {[ "B1" := "t-ast"; "B3" := "t3" ]}.
Proof. vm_compute; reflexivity. Qed.

Example example_records_status :
  get_records_status example_environment
  = Return ({[ "B3" ]}, ["B1"], ∅).
Proof. vm_compute; reflexivity. Qed.

End TimestampExamples.

(** ** The merger on the regression scenario *)

Section MergerFacts.

Import Merger.

(** *** The sort of a group: sorted, a permutation, and stable *)

Lemma insert_by_rank_perm order f sorted :
  insert_by_rank order f sorted ≡ₚ f :: sorted.
Proof.
  induction sorted as [|g rest IH]; simpl; [done|].
  case_decide; [|done]. rewrite IH. apply Permutation_swap.
Qed.

Lemma sort_by_priority_perm order members :
  sort_by_priority order members ≡ₚ members.
Proof.
  unfold sort_by_priority.
  induction members as [|f members IH]; simpl; [done|].
  by rewrite insert_by_rank_perm, IH.
Qed.

Lemma by_rank_cons order f members :
  by_rank order (f :: members)
  ↔ Forall (fun g => rank order f ≤ rank order g) members
    ∧ by_rank order members.
Proof.
  unfold by_rank. split.
  - intros Hs. split.
    + apply Forall_lookup. intros j g Hg.
      apply (Hs 0 (S j) f g); [lia | done | done].
    + intros i j a b Hij Ha Hb. apply (Hs (S i) (S j) a b); [lia|done|done].
  - intros [Hall Hs] i j a b Hij Ha Hb.
    destruct j as [|j]; [lia|]. simpl in Hb.
    destruct i as [|i]; simpl in Ha.
    + injection Ha as <-. rewrite Forall_lookup in Hall. by eapply Hall.
    + apply (Hs i j a b); [lia|done|done].
Qed.

Lemma insert_by_rank_sorted order f sorted :
  by_rank order sorted → by_rank order (insert_by_rank order f sorted).
Proof.
  induction sorted as [|g rest IH]; simpl; intros Hs.
  - apply by_rank_cons. split; [constructor | done].
  - apply by_rank_cons in Hs as Hs'. destruct Hs' as [Hall Hrest].
    case_decide as Hlt.
    + apply by_rank_cons. split; [|by apply IH].
      rewrite insert_by_rank_perm. constructor; [lia | done].
    + apply by_rank_cons. split; [|done].
      constructor; [lia|].
      eapply Forall_impl; [exact Hall|]. simpl. intros; lia.
Qed.

Lemma sort_by_priority_sorted order members :
  by_rank order (sort_by_priority order members).
Proof.
  unfold sort_by_priority.
  induction members as [|f members IH]; simpl.
  - intros i j f g _ Hf. by rewrite lookup_nil in Hf.
  - by apply insert_by_rank_sorted.
Qed.

Lemma insert_by_rank_stable order r f sorted :
  filter (fun g => rank order g = r) (insert_by_rank order f sorted)
  = filter (fun g => rank order g = r) (f :: sorted).
Proof.
  induction sorted as [|g rest IH]; simpl; [done|].
  case_decide as Hlt; [|done].
  rewrite (filter_cons _ g), IH, !filter_cons.
  repeat case_decide; try done; lia.
Qed.

(** Ties keep their original order: the members of any one rank come out
    of the sort in the order they went in. *)
Lemma sort_by_priority_stable order r members :
  filter (fun g => rank order g = r) (sort_by_priority order members)
  = filter (fun g => rank order g = r) members.
Proof.
  unfold sort_by_priority.
  induction members as [|f members IH]; simpl; [done|].
  by rewrite insert_by_rank_stable, !filter_cons, IH.
Qed.

(** Of two members the first wins unless the second has a strictly better
    rank. *)
Lemma sort_by_priority_pair order x y :
  sort_by_priority order [x; y]
  = if decide (rank order x ≤ rank order y) then [x; y] else [y; x].
Proof.
  unfold sort_by_priority. cbn [foldr insert_by_rank].
  destruct (decide (rank order x ≤ rank order y)).
  - by rewrite decide_False by lia.
  - by rewrite decide_True by lia.
Qed.

(** *** Filling gaps *)

(** A donor never overwrites: filling gaps keeps what is there. *)
Lemma fill_gaps_prefix merged donor :
  ∃ added, fill_gaps merged donor = merged ++ added.
Proof.
  unfold fill_gaps. revert merged.
  induction donor as [|cv donor IH]; intros merged; simpl.
  - exists []. by rewrite app_nil_r.
  - destruct (has_code cv.1 merged); [apply IH|].
    destruct (IH (merged ++ [cv])) as [added ->].
    exists (cv :: added). by rewrite <- app_assoc.
Qed.

(** What a donor adds: subfields of its own, in its order, one per code,
    of codes the merged instance did not hold; afterwards every code of the
    donor is held. *)
Lemma fill_gaps_spec merged donor :
  ∃ added,
    fill_gaps merged donor = merged ++ added
    ∧ added `sublist_of` donor
    ∧ (∀ cv, cv ∈ added → cv.1 ∉ merged.*1)
    ∧ NoDup added.*1
    ∧ (∀ cv, cv ∈ donor → cv.1 ∈ (merged ++ added).*1).
Proof.
  unfold fill_gaps. revert merged.
  induction donor as [|cv donor IH]; intros merged; simpl.
  - exists []. rewrite app_nil_r.
    split_and!; [done | done | | constructor |].
    + intros cv Hcv. by apply elem_of_nil in Hcv.
    + intros cv Hcv. by apply elem_of_nil in Hcv.
  - destruct (has_code cv.1 merged) eqn:Hheld; unfold has_code in Hheld.
    + apply bool_decide_eq_true in Hheld.
      destruct (IH merged) as (added & -> & Hsub & Hnew & Hnodup & Hall).
      exists added. split_and!; [done | by apply sublist_cons | done | done |].
      intros cv' [->|Hcv']%elem_of_cons; [|by apply Hall].
      rewrite fmap_app, elem_of_app. by left.
    + apply bool_decide_eq_false in Hheld.
      destruct (IH (merged ++ [cv]))
        as (added & -> & Hsub & Hnew & Hnodup & Hall).
      exists (cv :: added).
      assert (∀ cv', cv' ∈ added → (cv'.1 ∉ merged.*1) ∧ cv'.1 ≠ cv.1)
        as Hnew'.
      { intros cv' Hcv'. specialize (Hnew cv' Hcv').
        rewrite fmap_app, elem_of_app in Hnew. simpl in Hnew.
        rewrite list_elem_of_singleton in Hnew. tauto. }
      split_and!.
      * by rewrite <- app_assoc.
      * by apply sublist_skip.
      * intros cv' [->|Hcv']%elem_of_cons; [done|]. by apply Hnew'.
      * simpl. constructor; [|done].
        intros (cv' & Heq & Hcv')%list_elem_of_fmap.
        destruct (Hnew' cv' Hcv') as [_ Hne]. congruence.
      * intros cv' Hcv'. rewrite <- app_assoc in Hall. simpl in Hall.
        apply elem_of_cons in Hcv' as [->|Hcv']; [|by apply Hall].
        rewrite fmap_app, elem_of_app. right. simpl. left.
Qed.

(** *** Two instances of one group *)

Lemma group_by_key_pair keys x y :
  identity_key keys x = identity_key keys y →
  group_by_key keys [x; y] = [[x; y]].
Proof.
  intros Hkey. unfold group_by_key. cbn [foldl add_to_group].
  by rewrite decide_True.
Qed.

(** Two instances with the same identity key resolve to one merged
    instance: the better ranked of the two, the first on a tie, enriched
    from the other. *)
Lemma resolve_pair order tag keys x y :
  identity_key keys x = identity_key keys y →
  resolve order tag [x; y] true keys
  = let winner := if decide (rank order x ≤ rank order y) then x else y in
    let donor := if decide (rank order x ≤ rank order y) then y else x in
    [{| subfields := fill_gaps (subfields winner) (subfields donor);
        ind1 := ind1 winner;
        ind2 := ind2 winner;
        controlfield_value := controlfield_value winner;
        global_position := global_position winner |}].
Proof.
  intros Hkey. unfold resolve. rewrite group_by_key_pair by done.
  cbn [omap list_omap]. unfold merge_group.
  rewrite sort_by_priority_pair. by case_decide.
Qed.

Lemma scenario_resolve_authors order :
  priority order "A&A" < priority order "ARXIV" →
  resolve order "100" [scenario_author1; scenario_author2] true ["b"]
  = [mk_field [("a", "Di Milia, Giovanni"); ("b", "Di Milia, G");
               ("7", "A&A"); ("u", "Center for astrophysics")]
              " " " " "" 1]
  ∧ resolve order "100" [scenario_author2; scenario_author1] true ["b"]
    = [mk_field [("a", "Di Milia, Giovanni"); ("b", "Di Milia, G");
                 ("7", "A&A"); ("u", "Center for astrophysics")]
                " " " " "" 1].
Proof.
  intros Hlt.
  assert (rank order scenario_author1 = priority order "A&A") as H1
    by reflexivity.
  assert (rank order scenario_author2 = priority order "ARXIV") as H2
    by reflexivity.
  rewrite !resolve_pair by reflexivity. cbv zeta. rewrite H1, H2.
  split.
  - rewrite !decide_True by lia. vm_compute; reflexivity.
  - rewrite !decide_False by lia. vm_compute; reflexivity.
Qed.

Lemma scenario_resolve_collection order :
  resolve order "980" [scenario_collection] false [] = [scenario_collection].
Proof. reflexivity. Qed.

Lemma scenario_assemble order sourceRecords :
  priority order "A&A" < priority order "ARXIV" →
  sourceRecords = [scenario_record1; scenario_record2]
  ∨ sourceRecords = [scenario_record2; scenario_record1] →
  assemble (scenario_configuration order) sourceRecords
  = ([("100", [mk_field [("a", "Di Milia, Giovanni");
                         ("b", "Di Milia, G"); ("7", "A&A");
                         ("u", "Center for astrophysics")]
                        " " " " "" 1]);
      ("980", [scenario_collection])], []).
Proof.
  intros Hlt Hrecords.
  destruct (scenario_resolve_authors order Hlt) as [H12 H21].
  assert (∀ tag,
            policy_of
              [("100", {| repeatable := true;
                          identityKeySubfields := ["b"] |})] tag
            = if decide (tag = "100")
              then Some {| repeatable := true;
                           identityKeySubfields := ["b"] |}
              else None) as Hpolicy.
  { intros tag. simpl. destruct (decide ("100" = tag)) as [<-|Hne].
    - by rewrite decide_True.
    - by rewrite decide_False by congruence. }
  unfold assemble.
  destruct Hrecords as [-> | ->].
  - assert (distinct_tags [scenario_record1; scenario_record2]
            = ["100"; "980"]) as -> by (vm_compute; reflexivity).
    cbn [foldr]. unfold assemble_tag.
    assert (instances_of "100" [scenario_record1; scenario_record2]
            = [scenario_author1; scenario_author2]) as ->
      by (vm_compute; reflexivity).
    assert (instances_of "980" [scenario_record1; scenario_record2]
            = [scenario_collection]) as -> by (vm_compute; reflexivity).
    cbn [scenario_configuration priorityOrder fieldSchema].
    rewrite !Hpolicy. rewrite decide_True by done.
    rewrite decide_False by done.
    cbn [repeatable identityKeySubfields].
    rewrite H12, scenario_resolve_collection. reflexivity.
  - assert (distinct_tags [scenario_record2; scenario_record1]
            = ["100"; "980"]) as -> by (vm_compute; reflexivity).
    cbn [foldr]. unfold assemble_tag.
    assert (instances_of "100" [scenario_record2; scenario_record1]
            = [scenario_author2; scenario_author1]) as ->
      by (vm_compute; reflexivity).
    assert (instances_of "980" [scenario_record2; scenario_record1]
            = [scenario_collection]) as -> by (vm_compute; reflexivity).
    cbn [scenario_configuration priorityOrder fieldSchema].
    rewrite !Hpolicy. rewrite decide_True by done.
    rewrite decide_False by done.
    cbn [repeatable identityKeySubfields].
    rewrite H21, scenario_resolve_collection. reflexivity.
Qed.

(** C5: merging the record whose author field comes from A&A with the
    record whose matching author field comes from ARXIV and has the
    additional subfield u, A&A ranked above ARXIV, gives a single author
    field, whichever of the two records comes first: the subfields a, b and
    the origin of the A&A field verbatim, and the subfield u filled in from
    the ARXIV field.  It is the field the regression test expects, under
    the loose comparison the test uses.  The scenario is an instance of the
    rule for any two instances with the same identity key: the better
    ranked wins, the first of the two on a tie; its subfields and
    indicators are kept verbatim; what is added comes from the donor, in
    the donor's order, one subfield per code, only of codes absent from the
    winner; and every code of the donor is in the merged instance. *)
Theorem merge_two_records_additional_subfield order :
  priority order "A&A" < priority order "ARXIV" →
  (∀ sourceRecords,
     sourceRecords = [scenario_record1; scenario_record2]
     ∨ sourceRecords = [scenario_record2; scenario_record1] →
     let merged := assemble (scenario_configuration order) sourceRecords in
     merged.2 = []
     ∧ ∃ author,
         fields_of "100" merged.1 = [author]
         ∧ subfields author
           = [("a", "Di Milia, Giovanni"); ("b", "Di Milia, G");
              ("7", "A&A"); ("u", "Center for astrophysics")]
         ∧ source_code author = Some "A&A"
         ∧ _compare_fields_loose author scenario_expected = true)
  ∧ (∀ tag keys x y,
       identity_key keys x = identity_key keys y →
       let winner := if decide (rank order x ≤ rank order y) then x else y in
       let donor := if decide (rank order x ≤ rank order y) then y else x in
       ∃ merged added,
         resolve order tag [x; y] true keys = [merged]
         ∧ subfields merged = subfields winner ++ added
         ∧ ind1 merged = ind1 winner ∧ ind2 merged = ind2 winner
         ∧ added `sublist_of` subfields donor
         ∧ (∀ cv, cv ∈ added → cv.1 ∉ (subfields winner).*1)
         ∧ NoDup added.*1
         ∧ (∀ cv, cv ∈ subfields donor → cv.1 ∈ (subfields merged).*1)).
Proof.
  intros Hlt. split.
  - intros sourceRecords Hrecords merged. subst merged.
    rewrite (scenario_assemble order sourceRecords Hlt Hrecords).
    split; [reflexivity|].
    eexists. split; [vm_compute; reflexivity|].
    split_and!; vm_compute; reflexivity.
  - intros tag keys x y Hkey winner donor.
    rewrite resolve_pair by done. cbv zeta. fold winner donor.
    destruct (fill_gaps_spec (subfields winner) (subfields donor))
      as (added & Hfill & Hsub & Hnew & Hnodup & Hall).
    eexists _, added. split; [reflexivity|]. simpl.
    rewrite Hfill. by split_and!.
Qed.

(** C5 at the priority order of the regression tests. *)
Lemma merge_two_records_additional_subfield_witness :
  (∀ sourceRecords,
     sourceRecords = [scenario_record1; scenario_record2]
     ∨ sourceRecords = [scenario_record2; scenario_record1] →
     let merged :=
       assemble (scenario_configuration scenario_order) sourceRecords in
     merged.2 = []
     ∧ ∃ author,
         fields_of "100" merged.1 = [author]
         ∧ subfields author
           = [("a", "Di Milia, Giovanni"); ("b", "Di Milia, G");
              ("7", "A&A"); ("u", "Center for astrophysics")]
         ∧ source_code author = Some "A&A"
         ∧ _compare_fields_loose author scenario_expected = true)
  ∧ (∀ tag keys x y,
       identity_key keys x = identity_key keys y →
       let winner :=
         if decide (rank scenario_order x ≤ rank scenario_order y)
         then x else y in
       let donor :=
         if decide (rank scenario_order x ≤ rank scenario_order y)
         then y else x in
       ∃ merged added,
         resolve scenario_order tag [x; y] true keys = [merged]
         ∧ subfields merged = subfields winner ++ added
         ∧ ind1 merged = ind1 winner ∧ ind2 merged = ind2 winner
         ∧ added `sublist_of` subfields donor
         ∧ (∀ cv, cv ∈ added → cv.1 ∉ (subfields winner).*1)
         ∧ NoDup added.*1
         ∧ (∀ cv, cv ∈ subfields donor → cv.1 ∈ (subfields merged).*1)).
Proof.
  apply (merge_two_records_additional_subfield scenario_order).
  vm_compute. lia.
Defined.

(** The merge of the two records, run. *)
Example merge_two_records_run :
  assemble (scenario_configuration scenario_order)
    [scenario_record1; scenario_record2]
  = ([("100", [mk_field [("a", "Di Milia, Giovanni");
                         ("b", "Di Milia, G"); ("7", "A&A");
                         ("u", "Center for astrophysics")]
                        " " " " "" 1]);
      ("980", [scenario_collection])], []).
Proof. vm_compute; reflexivity. Qed.

(** The order of the source records does not matter here: the priority
    of the origins decides. *)
Example merge_two_records_other_order :
  fields_of "100"
    (assemble (scenario_configuration scenario_order)
       [scenario_record2; scenario_record1]).1
  = fields_of "100"
      (assemble (scenario_configuration scenario_order)
         [scenario_record1; scenario_record2]).1.
Proof. vm_compute; reflexivity. Qed.

(** On a tie the instance met first wins: two instances of one origin. *)
Example merge_tie_first_wins :
  let first_seen := mk_field [("a", "First"); ("b", "K"); ("7", "A&A")]
                             " " " " "" 1 in
  let second_seen := mk_field [("a", "Second"); ("b", "K"); ("c", "extra");
                               ("7", "A&A")] " " " " "" 1 in
  sort_by_priority scenario_order [first_seen; second_seen]
  = [first_seen; second_seen]
  ∧ resolve scenario_order "100" [first_seen; second_seen] true ["b"]
    = [mk_field [("a", "First"); ("b", "K"); ("7", "A&A"); ("c", "extra")]
                " " " " "" 1].
Proof. split; vm_compute; reflexivity. Qed.

End MergerFacts.

(** ** The consistency checks on any record *)

Section CheckCases.

Import GlobalMergingChecks CheckReadings.

Variable settings : merger_settings.

Local Abbreviation TYPE := (PUBL_DATE_TYPE_SUBFIELD settings).
Local Abbreviation DATE := (PUBL_DATE_SUBFIELD settings).
Local Abbreviation SYS := (SYSTEM_NUMBER_SUBFIELD settings).
Local Abbreviation NAME := (AUTHOR_NAME_SUBFIELD settings).
Local Abbreviation TYPES := (PUBL_DATE_TYPE_VAL_SUBFIELD settings).
Local Abbreviation year_line := "      running check_pub_year_consistency".
Local Abbreviation author_line :=
  "      running first_author_bibcode_consistency".

Local Arguments PyStr.slice_to : simpl never.
Local Arguments year_msg : simpl never.
Local Arguments author_msg : simpl never.
Local Arguments String.append : simpl never.

Lemma report_after_msg w reports verbose line :
  report (msg line verbose w).2 reports = after_check w reports verbose line.
Proof. by destruct verbose. Qed.

(** Rule A, guard by guard. *)
Lemma check_pub_year_consistency_cases tc verbose w :
  check_pub_year_consistency settings tc verbose w
  = let w0 := (msg year_line verbose w).2 in
    match fields_named settings "system number" (merged_record w) with
    | None => (Return tt, report w0 [missing_identifier tc])
    | Some fs =>
        match fields_named settings "publication date" (merged_record w) with
        | None => (Return tt, report w0 [missing_publication_date tc])
        | Some ds =>
            if decide (1 < length fs)
            then (Return tt, report w0 [duplicate_identifier tc])
            else
              match fs with
              | [] => (Raise IndexError, w0)
              | f :: _ =>
                  match field_get_subfield_values f SYS with
                  | [] => (Raise IndexError, w0)
                  | sn :: _ =>
                      match check_date_types settings ds sn tc TYPES 0 w0 with
                      | (Return n, w') =>
                          (Return tt,
                           if decide (n = 0)
                           then report w' [no_usable_date tc] else w')
                      | (Raise e, w') => (Raise e, w')
                      end
                  end
              end
        end
    end.
Proof.
  unfold fields_named, check_pub_year_consistency, bind,
    try_except_KeyError, lift, record_getitem, getitem, manage_check_error,
    ret, report.
  destruct w as [r snk lg]. destruct verbose; simpl.
  all: destruct (FIELD_TO_MARC settings !! "system number") as [sys_tag|];
    simpl; [|done].
  all: destruct (r !! sys_tag) as [fs|]; simpl; [|done].
  all: destruct (FIELD_TO_MARC settings !! "publication date") as [date_tag|];
    simpl; [|done].
  all: destruct (r !! date_tag) as [ds|]; simpl; [|done].
  all: case_decide; [done|].
  all: destruct fs as [|f rest]; simpl; [done|].
  all: destruct (field_get_subfield_values f SYS) as [|sn ?]; simpl; [done|].
  all: destruct (check_date_types _ _ _ _ _ _ _) as [[n|e] w']; simpl;
    [|done].
  all: by case_decide.
Qed.

(** The scan for a date type raises exactly when it faults, and then with
    [IndexError]. *)
Lemma find_pubdate_raises_iff ds t e :
  find_pubdate settings ds t = Raise e
  ↔ e = IndexError ∧ scan_faults settings ds t.
Proof.
  unfold scan_faults, subfield_value. split.
  - induction ds as [|d ds IH]; simpl; [done|].
    destruct (field_get_subfield_values d TYPE) as [|ty tys] eqn:Hty; simpl.
    + intros [= <-]. split; [done|].
      exists [], d, ds. rewrite Hty. split_and!; [done | constructor | by left].
    + case_decide as Heq.
      * destruct (field_get_subfield_values d DATE) as [|v vs] eqn:Hv;
          simpl; [|done].
        intros [= <-]. split; [done|].
        exists [], d, ds. rewrite Hty, Hv, Heq.
        split_and!; [done | constructor | by right].
      * intros Hrec. destruct (IH Hrec) as (-> & pre & d' & post & -> & Hpre & Hd').
        split; [done|]. exists (d :: pre), d', post.
        split_and!; [done | | done].
        constructor; [|done]. exists ty. by rewrite Hty.
  - intros (-> & pre & d & post & -> & Hpre & Hd).
    induction Hpre as [|p pre (ty & Hp & Hne) _ IH]; simpl.
    + destruct Hd as [Hd|[Hd Hv]].
      * by destruct (field_get_subfield_values d TYPE).
      * destruct (field_get_subfield_values d TYPE) as [|ty tys];
          [done|]. simpl in *. injection Hd as ->.
        rewrite decide_True by done.
        by destruct (field_get_subfield_values d DATE).
    + destruct (field_get_subfield_values p TYPE) as [|ty' tys]; [done|].
      simpl in *. injection Hp as ->. by rewrite decide_False.
Qed.

(** The loop over the date types on any fields: what it appends to the
    sink are year mismatches of some of the date types, in their order, at
    most as many as it counted dates; it raises what the scan of one of the
    types raises. *)
Lemma check_date_types_outcome ds sn tc types n :
  ∃ o types',
    (∀ w, check_date_types settings ds sn tc types n w
          = (o, report w ((fun t => year_mismatch tc t sn) <$> types')))
    ∧ types' `sublist_of` types
    ∧ match o with
      | Return n' =>
          n ≤ n' ∧ length types' ≤ n' - n
          ∧ ∀ t, t ∈ types → ∃ v, find_pubdate settings ds t = Return v
      | Raise e => ∃ t, t ∈ types ∧ find_pubdate settings ds t = Raise e
      end.
Proof.
  revert n. induction types as [|t types IH]; intros n.
  - exists (Return n), []. split; [|split].
    + intros w. simpl. unfold ret. by rewrite report_nil.
    + done.
    + split_and!; [lia | simpl; lia |]. intros t Ht. by apply elem_of_nil in Ht.
  - destruct (find_pubdate settings ds t) as [pubdate|e] eqn:Hfind.
    2: { exists (Raise e), []. split; [|split].
         - intros w. rewrite check_date_types_cons, Hfind.
           by rewrite report_nil.
         - apply sublist_nil_l.
         - exists t. split; [left | done]. }
    destruct (decide (String.length pubdate ≠ 0)) as [Hlen|Hlen].
    + destruct (IH (S n)) as (o & types' & Hrun & Hsub & Ho).
      destruct (decide (PyStr.slice_to 4 pubdate ≠ PyStr.slice_to 4 sn))
        as [Hne|Heq].
      * exists o, (t :: types'). split; [|split].
        -- intros w. rewrite check_date_types_cons, Hfind.
           rewrite decide_True by done. rewrite decide_True by done.
           rewrite Hrun, report_report. done.
        -- by apply sublist_skip.
        -- destruct o as [n'|e]; simpl.
           ++ destruct Ho as (? & ? & Hall). split_and!; [lia | lia |].
              intros t' [->|?]%elem_of_cons; eauto.
           ++ destruct Ho as (t' & ? & ?). exists t'. split; [by right|done].
      * exists o, types'. split; [|split].
        -- intros w. rewrite check_date_types_cons, Hfind.
           rewrite decide_True by done. rewrite decide_False by done.
           apply Hrun.
        -- by apply sublist_cons.
        -- destruct o as [n'|e]; simpl.
           ++ destruct Ho as (? & ? & Hall). split_and!; [lia | lia |].
              intros t' [->|?]%elem_of_cons; eauto.
           ++ destruct Ho as (t' & ? & ?). exists t'. split; [by right|done].
    + destruct (IH n) as (o & types' & Hrun & Hsub & Ho).
      exists o, types'. split; [|split].
      * intros w. rewrite check_date_types_cons, Hfind.
        rewrite decide_False by done. apply Hrun.
      * by apply sublist_cons.
      * destruct o as [n'|e]; simpl.
        -- destruct Ho as (? & ? & Hall). split_and!; [lia | lia |].
           intros t' [->|?]%elem_of_cons; eauto.
        -- destruct Ho as (t' & ? & ?). exists t'. split; [by right|done].
Qed.

Lemma first_value_item0 code fs :
  first_value code fs
  = match fs with
    | [] => None
    | f :: _ => match field_get_subfield_values f code with
                | [] => None
                | v :: _ => Some v
                end
    end.
Proof.
  destruct fs as [|f ?]; [done|]. unfold first_value, subfield_value.
  by destruct (field_get_subfield_values f code).
Qed.

(** X1: when the record has no system-number tag (or the settings name
    none), both checks return having reported exactly the
    missing-system-number violation, whatever else the record holds. *)
Theorem checks_missing_identifier tc verbose w :
  fields_named settings "system number" (merged_record w) = None →
  check_pub_year_consistency settings tc verbose w
  = (Return tt, after_check w [missing_identifier tc] verbose year_line)
  ∧ first_author_bibcode_consistency settings tc verbose w
    = (Return tt, after_check w [missing_identifier tc] verbose author_line).
Proof.
  unfold fields_named. intros Hnone.
  unfold check_pub_year_consistency, first_author_bibcode_consistency, bind,
    try_except_KeyError, lift, record_getitem, getitem, manage_check_error,
    msg, after_check.
  destruct w as [r snk lg]. simpl in *.
  destruct (FIELD_TO_MARC settings !! "system number") as [sys_tag|];
    destruct verbose; simpl; by rewrite ?Hnone.
Qed.

(** X2: rule A raises exactly when both tags are there, the system-number
    tag has at most one field instance, and either the system number cannot
    be read (no instance, or no subfield of its code) or the scan for one of
    the configured date types faults; what it raises is [IndexError]. *)
Theorem check_pub_year_consistency_raises_iff tc verbose w e :
  (check_pub_year_consistency settings tc verbose w).1 = Raise e
  ↔ e = IndexError
    ∧ ∃ fs ds,
        fields_named settings "system number" (merged_record w) = Some fs
        ∧ fields_named settings "publication date" (merged_record w) = Some ds
        ∧ length fs ≤ 1
        ∧ (first_value SYS fs = None
           ∨ ∃ t, t ∈ TYPES ∧ scan_faults settings ds t).
Proof.
  rewrite check_pub_year_consistency_cases. cbv zeta.
  destruct (fields_named settings "system number" _) as [fs|];
    [|split; [done | by intros (_ & ? & ? & ? & _)]].
  destruct (fields_named settings "publication date" _) as [ds|];
    [|split; [done | by intros (_ & ? & ? & _ & ? & _)]].
  case_decide as Hlen;
    [split; [done | intros (_ & ? & ? & [= <-] & _ & ? & _); lia]|].
  destruct fs as [|f rest].
  { simpl. split; [intros [= <-] | by intros [-> _]].
    split; [done|]. exists [], ds. split_and!; [done | done | simpl; lia | by left]. }
  destruct (field_get_subfield_values f SYS) as [|sn sns] eqn:Hsn.
  { simpl. split; [intros [= <-] | by intros [-> _]].
    split; [done|]. exists (f :: rest), ds.
    split_and!; [done | done | lia |].
    left. unfold first_value, subfield_value. by rewrite Hsn. }
  destruct (check_date_types_outcome ds sn tc TYPES 0)
    as (o & types' & Hrun & _ & Ho).
  rewrite Hrun. destruct o as [n|e0]; simpl.
  - split; [done|]. destruct Ho as (_ & _ & Hall).
    intros (_ & fs' & ds' & [= <-] & [= <-] & _ & [Hno|(t & Ht & Hf)]).
    + unfold first_value, subfield_value in Hno. by rewrite Hsn in Hno.
    + destruct (Hall t Ht) as [v Hv].
      assert (find_pubdate settings ds t = Raise IndexError) as Hr
        by (by apply find_pubdate_raises_iff).
      congruence.
  - destruct Ho as (t & Ht & Hf).
    apply find_pubdate_raises_iff in Hf as [-> Hf]. split.
    + intros [= <-]. split; [done|]. exists (f :: rest), ds.
      split_and!; [done | done | lia | right; eauto].
    + by intros [-> _].
Qed.

(** X3: whatever the record and the outcome, rule A leaves the record as
    it was and appends to the sink either exactly one of the
    missing-system-number, missing-publication-date, duplicate-system-number
    and no-usable-date violations, or year mismatches only: at most one per
    configured date type, in configuration order, each naming the system
    number of the record.  In particular the no-usable-date violation never
    comes with a year mismatch. *)
Theorem check_pub_year_consistency_reports tc verbose w :
  ∃ reports,
    (check_pub_year_consistency settings tc verbose w).2
    = after_check w reports verbose year_line
    ∧ (reports = [missing_identifier tc]
       ∨ reports = [missing_publication_date tc]
       ∨ reports = [duplicate_identifier tc]
       ∨ reports = [no_usable_date tc]
       ∨ ∃ sn types',
           types' `sublist_of` TYPES
           ∧ reports = (fun t => year_mismatch tc t sn) <$> types'
           ∧ (types' ≠ [] →
              ∃ fs, fields_named settings "system number" (merged_record w)
                    = Some fs
                    ∧ first_value SYS fs = Some sn)).
Proof.
  rewrite check_pub_year_consistency_cases. cbv zeta.
  destruct (fields_named settings "system number" _) as [fs|] eqn:Hfs;
    [|eexists; split; [apply report_after_msg | auto]].
  destruct (fields_named settings "publication date" _) as [ds|];
    [|eexists; split; [apply report_after_msg | auto]].
  case_decide as Hlen; [eexists; split; [apply report_after_msg | auto 6]|].
  destruct fs as [|f rest].
  { exists []. simpl. split; [by rewrite <- report_after_msg, report_nil|].
    do 4 right. exists "", []. split_and!; [apply sublist_nil_l | done | done]. }
  destruct (field_get_subfield_values f SYS) as [|sn sns] eqn:Hsn.
  { exists []. simpl. split; [by rewrite <- report_after_msg, report_nil|].
    do 4 right. exists "", []. split_and!; [apply sublist_nil_l | done | done]. }
  destruct (check_date_types_outcome ds sn tc TYPES 0)
    as (o & types' & Hrun & Hsub & Ho).
  rewrite Hrun.
  assert (∃ fs', Some (f :: rest) = Some fs' ∧ first_value SYS fs' = Some sn)
    as Hread.
  { exists (f :: rest). split; [done|].
    unfold first_value, subfield_value. by rewrite Hsn. }
  destruct o as [n|e0]; simpl.
  - case_decide as Hn.
    + destruct Ho as (_ & Hle & _). subst n.
      destruct types'; [|simpl in Hle; lia]. simpl.
      rewrite report_nil. eexists. split; [apply report_after_msg | auto 6].
    + eexists. split; [apply report_after_msg|].
      do 4 right. exists sn, types'. by split_and!.
  - eexists. split; [apply report_after_msg|].
    do 4 right. exists sn, types'. by split_and!.
Qed.

Lemma last_char_raises s e :
  PyStr.last_char s = Raise e → e = IndexError ∧ s = "".
Proof.
  induction s as [|c s IH]; simpl; [by intros [= <-]|].
  destruct s as [|c' s]; [done|]. intros H. by destruct (IH H).
Qed.

(** Rule B, guard by guard. *)
Lemma first_author_bibcode_consistency_cases tc verbose w :
  first_author_bibcode_consistency settings tc verbose w
  = let w0 := (msg author_line verbose w).2 in
    match fields_named settings "system number" (merged_record w) with
    | None => (Return tt, report w0 [missing_identifier tc])
    | Some fs =>
        match fields_named settings "first author" (merged_record w) with
        | None => (Return tt, report w0 [missing_first_author tc])
        | Some gs =>
            if decide (1 < length fs)
            then (Return tt, report w0 [duplicate_identifier tc])
            else if decide (1 < length gs)
            then (Return tt, report w0 [duplicate_first_author tc])
            else
              match first_value SYS fs, first_value NAME gs with
              | Some sn, Some a =>
                  match PyStr.first_char a, PyStr.last_char sn with
                  | Return a0, Return s_last =>
                      (Return tt,
                       report w0
                         (if decide (a0 ≠ s_last)
                          then [author_bibcode_mismatch tc a sn] else []))
                  | _, _ => (Raise IndexError, w0)
                  end
              | _, _ => (Raise IndexError, w0)
              end
        end
    end.
Proof.
  unfold fields_named, first_author_bibcode_consistency, bind,
    try_except_KeyError, lift, record_getitem, getitem, manage_check_error,
    ret, report.
  destruct w as [r snk lg]. destruct verbose; simpl.
  all: destruct (FIELD_TO_MARC settings !! "system number") as [sys_tag|];
    simpl; [|done].
  all: destruct (r !! sys_tag) as [fs|]; simpl; [|done].
  all: destruct (FIELD_TO_MARC settings !! "first author") as [auth_tag|];
    simpl; [|done].
  all: destruct (r !! auth_tag) as [gs|]; simpl; [|done].
  all: case_decide; [done|]. all: case_decide; [done|].
  all: rewrite !first_value_item0.
  all: destruct fs as [|f ?]; simpl; [done|].
  all: destruct (field_get_subfield_values f SYS) as [|sn ?]; simpl; [done|].
  all: destruct gs as [|g ?]; simpl; [done|].
  all: destruct (field_get_subfield_values g NAME) as [|a ?]; simpl; [done|].
  all: destruct (PyStr.first_char a) as [a0|e0] eqn:Ha; simpl;
    [|destruct a; simpl in Ha; by simplify_eq].
  all: destruct (PyStr.last_char _) as [s_last|e1] eqn:Hs; simpl.
  all: try (case_decide; simpl; by rewrite ?app_nil_r).
  all: by apply last_char_raises in Hs as [-> _].
Qed.

(** X4: the guards of rule B in their order.  With the system-number tag
    there: without a first-author tag the only report is the
    missing-first-author violation, even with several system numbers; with
    both tags, several system numbers give the duplicate-system-number
    violation alone; one system number at most and several first authors
    give the duplicate-first-author violation alone.  In all three cases
    the check returns and no character is compared. *)
Theorem first_author_bibcode_consistency_guards tc verbose w fs :
  fields_named settings "system number" (merged_record w) = Some fs →
  (fields_named settings "first author" (merged_record w) = None →
   first_author_bibcode_consistency settings tc verbose w
   = (Return tt, after_check w [missing_first_author tc] verbose author_line))
  ∧ (∀ gs,
       fields_named settings "first author" (merged_record w) = Some gs →
       (1 < length fs →
        first_author_bibcode_consistency settings tc verbose w
        = (Return tt,
           after_check w [duplicate_identifier tc] verbose author_line))
       ∧ (length fs ≤ 1 → 1 < length gs →
          first_author_bibcode_consistency settings tc verbose w
          = (Return tt,
             after_check w [duplicate_first_author tc] verbose author_line))).
Proof.
  intros Hfs. rewrite first_author_bibcode_consistency_cases, Hfs. cbv zeta.
  split.
  - intros ->. by rewrite report_after_msg.
  - intros gs ->. split.
    + intros Hlen. rewrite decide_True by done. by rewrite report_after_msg.
    + intros Hlen Hlen'. rewrite decide_False by lia.
      rewrite decide_True by done. by rewrite report_after_msg.
Qed.

(** X5: rule B raises exactly when both tags are there, each with at most
    one field instance, and the system number or the first author's name
    cannot be read (no instance, or no subfield of the code) or is the
    empty string; what it raises is [IndexError]. *)
Theorem first_author_bibcode_consistency_raises_iff tc verbose w e :
  (first_author_bibcode_consistency settings tc verbose w).1 = Raise e
  ↔ e = IndexError
    ∧ ∃ fs gs,
        fields_named settings "system number" (merged_record w) = Some fs
        ∧ fields_named settings "first author" (merged_record w) = Some gs
        ∧ length fs ≤ 1 ∧ length gs ≤ 1
        ∧ (first_value SYS fs = None ∨ first_value SYS fs = Some ""
           ∨ first_value NAME gs = None ∨ first_value NAME gs = Some "").
Proof.
  rewrite first_author_bibcode_consistency_cases. cbv zeta.
  destruct (fields_named settings "system number" _) as [fs|];
    [|split; [done | by intros (_ & ? & ? & ? & _)]].
  destruct (fields_named settings "first author" _) as [gs|];
    [|split; [done | by intros (_ & ? & ? & _ & ? & _)]].
  case_decide as Hlen;
    [split; [done | intros (_ & ? & ? & [= <-] & _ & ? & _); lia]|].
  case_decide as Hlen';
    [split; [done | intros (_ & ? & ? & _ & [= <-] & _ & ? & _); lia]|].
  transitivity
    (e = IndexError
     ∧ (first_value SYS fs = None ∨ first_value SYS fs = Some ""
        ∨ first_value NAME gs = None ∨ first_value NAME gs = Some "")).
  2: { split.
       - intros [-> Hc]. split; [done|]. exists fs, gs.
         split_and!; [done | done | lia | lia | done].
       - by intros (-> & ? & ? & [= <-] & [= <-] & _ & _ & Hc). }
  assert (∀ c : Prop, c →
            (Raise (A:=unit) IndexError = Raise e ↔ e = IndexError ∧ c))
    as Hraise
    by (intros c Hc; split; [by intros [= <-] | by intros [-> _]]).
  destruct (first_value SYS fs) as [sn|]; [|simpl; apply Hraise; auto].
  destruct (first_value NAME gs) as [a|]; [|simpl; apply Hraise; auto].
  destruct a as [|c a]; [simpl; apply Hraise; auto|].
  destruct sn as [|c' sn]; [simpl; apply Hraise; auto|].
  assert (String c' sn ≠ "") as Hne by done.
  destruct (last_char_nonempty _ Hne) as [s_last Hlast].
  cbn [PyStr.first_char]. rewrite Hlast. simpl.
  split; [done|]. by intros [_ [|[|[|]]]].
Qed.

(** What a check does depends on the record alone: the outcome and the
    reports are the same whatever the sink and the log hold. *)
Lemma check_pub_year_consistency_summary tc verbose r :
  ∃ o reports,
    (o = Return tt ∨ o = Raise IndexError)
    ∧ ∀ snk lg,
        check_pub_year_consistency settings tc verbose (mk_world r snk lg)
        = (o, after_check (mk_world r snk lg) reports verbose year_line).
Proof.
  pose proof (fun snk lg =>
                check_pub_year_consistency_cases tc verbose (mk_world r snk lg))
    as Hcases.
  cbv zeta in Hcases. cbn [merged_record] in Hcases.
  destruct (fields_named settings "system number" r) as [fs|];
    [|eexists _, _; split; [by left|]; intros; rewrite Hcases;
      by rewrite report_after_msg].
  destruct (fields_named settings "publication date" r) as [ds|];
    [|eexists _, _; split; [by left|]; intros; rewrite Hcases;
      by rewrite report_after_msg].
  destruct (decide (1 < length fs));
    [eexists _, _; split; [by left|]; intros; rewrite Hcases;
     by rewrite report_after_msg|].
  destruct fs as [|f rest];
    [exists (Raise IndexError), []; split; [by right|]; intros;
     rewrite Hcases; by rewrite <- report_after_msg, report_nil|].
  destruct (field_get_subfield_values f SYS) as [|sn sns];
    [exists (Raise IndexError), []; split; [by right|]; intros;
     rewrite Hcases; by rewrite <- report_after_msg, report_nil|].
  destruct (check_date_types_outcome ds sn tc TYPES 0)
    as (o & types' & Hrun & _ & Ho).
  destruct o as [k|e].
  - destruct (decide (k = 0)).
    + eexists _, _. split; [by left|]. intros. rewrite Hcases, Hrun.
      rewrite decide_True by done.
      by rewrite report_report, report_after_msg.
    + eexists _, _. split; [by left|]. intros. rewrite Hcases, Hrun.
      rewrite decide_False by done. by rewrite report_after_msg.
  - destruct Ho as (t & _ & Hf).
    apply find_pubdate_raises_iff in Hf as [-> _].
    eexists _, _. split; [by right|]. intros. rewrite Hcases, Hrun.
    by rewrite report_after_msg.
Qed.

Lemma first_author_bibcode_consistency_summary tc verbose r :
  ∃ o reports,
    (o = Return tt ∨ o = Raise IndexError)
    ∧ ∀ snk lg,
        first_author_bibcode_consistency settings tc verbose
          (mk_world r snk lg)
        = (o, after_check (mk_world r snk lg) reports verbose author_line).
Proof.
  pose proof (fun snk lg =>
                first_author_bibcode_consistency_cases tc verbose
                  (mk_world r snk lg))
    as Hcases.
  cbv zeta in Hcases. cbn [merged_record] in Hcases.
  assert (∀ w0, w0 = report w0 []) as Hnil
    by (intros; by rewrite report_nil).
  destruct (fields_named settings "system number" r) as [fs|];
    [|eexists _, _; split; [by left|]; intros; rewrite Hcases;
      by rewrite report_after_msg].
  destruct (fields_named settings "first author" r) as [gs|];
    [|eexists _, _; split; [by left|]; intros; rewrite Hcases;
      by rewrite report_after_msg].
  destruct (decide (1 < length fs));
    [eexists _, _; split; [by left|]; intros; rewrite Hcases;
     by rewrite report_after_msg|].
  destruct (decide (1 < length gs));
    [eexists _, _; split; [by left|]; intros; rewrite Hcases;
     by rewrite report_after_msg|].
  destruct (first_value SYS fs) as [sn|];
    [|exists (Raise IndexError), []; split; [by right|]; intros;
      rewrite Hcases; by rewrite <- report_after_msg, report_nil].
  destruct (first_value NAME gs) as [a|];
    [|exists (Raise IndexError), []; split; [by right|]; intros;
      rewrite Hcases; by rewrite <- report_after_msg, report_nil].
  destruct (PyStr.first_char a) as [a0|?];
    [|exists (Raise IndexError), []; split; [by right|]; intros;
      rewrite Hcases; by rewrite <- report_after_msg, report_nil].
  destruct (PyStr.last_char sn) as [s_last|?];
    [|exists (Raise IndexError), []; split; [by right|]; intros;
      rewrite Hcases; by rewrite <- report_after_msg, report_nil].
  eexists _, _. split; [by left|]. intros. rewrite Hcases.
  by rewrite report_after_msg.
Qed.

(** X6: the two checks can be run in either order.  Both orders have the
    same outcome on every record; when they return, each check has reported
    what it reports when run alone, and the two sinks hold the same
    violations, those of the check that ran first coming first. *)
Theorem checks_order_insensitive tc verbose w :
  (run_both_year_first settings tc verbose w).1
  = (run_both_author_first settings tc verbose w).1
  ∧ ((run_both_year_first settings tc verbose w).1 = Return tt →
     ∃ rA rB,
       check_pub_year_consistency settings tc verbose w
       = (Return tt, after_check w rA verbose year_line)
       ∧ first_author_bibcode_consistency settings tc verbose w
         = (Return tt, after_check w rB verbose author_line)
       ∧ sink (run_both_year_first settings tc verbose w).2
         = sink w ++ rA ++ rB
       ∧ sink (run_both_author_first settings tc verbose w).2
         = sink w ++ rB ++ rA).
Proof.
  destruct w as [r snk lg].
  destruct (check_pub_year_consistency_summary tc verbose r)
    as (oA & rA & HoA & HA).
  destruct (first_author_bibcode_consistency_summary tc verbose r)
    as (oB & rB & HoB & HB).
  assert (∀ rs line,
            after_check (mk_world r snk lg) rs verbose line
            = mk_world r (snk ++ rs) (if verbose then lg ++ [line] else lg))
    as Hafter by done.
  unfold run_both_year_first, run_both_author_first, bind.
  rewrite HA, HB.
  destruct HoA as [-> | ->], HoB as [-> | ->];
    rewrite ?Hafter, ?HA, ?HB; simpl; (split; [done|]); try done.
  intros _. exists rA, rB. by rewrite <- !app_assoc.
Qed.

(** The trailing report of rule A: the no-usable-date violation exactly
    when no configured date type yields a usable date. *)
Lemma no_usable_date_tail tc ds types :
  let tail :=
    if decide (length (filter (fun t => usable_dateb settings ds t) types) = 0)
    then [no_usable_date tc] else [] in
  (tail = [no_usable_date tc]
   ↔ ∀ t, t ∈ types → ¬ usable_date settings ds t)
  ∧ (tail = [] ↔ ∃ t, t ∈ types ∧ usable_date settings ds t).
Proof.
  cbv zeta.
  assert (∀ t, t ∈ filter (fun t => usable_dateb settings ds t) types
               ↔ t ∈ types ∧ usable_date settings ds t) as Hin.
  { intros t. rewrite list_elem_of_filter, Is_true_true, usable_dateb_spec.
    tauto. }
  destruct (filter _ types) as [|t0 l]; simpl.
  - split; split; try done.
    + intros _ t Ht Hu. eapply elem_of_nil, Hin. eauto.
    + intros (t & Ht & Hu). exfalso. eapply elem_of_nil, Hin. eauto.
  - assert (t0 ∈ types ∧ usable_date settings ds t0) as [Ht0 Hu0]
      by (apply Hin; left).
    split; split; try done.
    + intros Hnone. by destruct (Hnone t0).
    + eauto.
Qed.

(** C4 (as amended): each check returns normally exactly on the records
    it can read, and there every rule failure is reported through the
    sink.  Rule A returns if and only if, whenever both tags are there and
    the system-number tag has at most one field instance, the first
    system-number instance carries the system-number subfield and the scan
    for each configured date type meets no fault; its reports are then
    the missing-system-number, missing-publication-date or
    duplicate-system-number violation alone, or the reports of the date
    types in configuration order followed by the no-usable-date violation
    exactly when no date type yields a non-empty date value.  Rule B
    returns if and only if, whenever both tags are there with at most one
    field instance each, the system number and the author's name can be
    read and are non-empty; its reports are then the
    missing-system-number, missing-first-author, duplicate-system-number or
    duplicate-first-author violation alone, or the author/bibcode mismatch
    exactly when the two characters differ.  Duplicate instances, an empty
    date value and an empty system number in rule A do not make a check
    raise. *)
Theorem checks_return_normally tc verbose w :
  (year_rule_readable settings (merged_record w)
   ↔ ∃ reports,
       check_pub_year_consistency settings tc verbose w
       = (Return tt, after_check w reports verbose year_line)
       ∧ year_rule_reported settings tc (merged_record w) reports)
  ∧ (author_rule_readable settings (merged_record w)
     ↔ ∃ reports,
         first_author_bibcode_consistency settings tc verbose w
         = (Return tt, after_check w reports verbose author_line)
         ∧ author_rule_reported settings tc (merged_record w) reports).
Proof.
  split.
  - rewrite check_pub_year_consistency_cases. cbv zeta.
    unfold year_rule_readable, year_rule_reported.
    destruct (fields_named settings "system number" (merged_record w))
      as [fs|].
    2: { split; [intros _ | by intros _ ? ? ?].
         eexists. split; [by rewrite report_after_msg|].
         split; [done|]. split; [by intros [? ?]|]. split; done. }
    destruct (fields_named settings "publication date" (merged_record w))
      as [ds|].
    2: { split; [intros _ | by intros _ ? ? ? ?].
         eexists. split; [by rewrite report_after_msg|].
         split; [done|]. split; [done|].
         split; [by intros ? _ [? ?] | done]. }
    case_decide as Hlen.
    { split; [intros _ | intros _ ? ? [= <-] _ ?; lia].
      eexists. split; [by rewrite report_after_msg|].
      split; [done|]. split; [done|]. split; [done|].
      intros ? ? ? [= <-] _ ?. lia. }
    split.
    + intros Hread.
      destruct (Hread fs ds eq_refl eq_refl ltac:(lia)) as [[sn Hsn] Hscan].
      rewrite first_value_item0 in Hsn. destruct fs as [|f rest]; [done|].
      destruct (field_get_subfield_values f SYS) as [|sn' sns] eqn:Hv;
        [done|].
      injection Hsn as ->.
      rewrite (check_date_types_spec settings ds sn tc TYPES 0 _ Hscan).
      rewrite Nat.add_0_l.
      exists (concat (year_reports settings tc sn ds TYPES)
              ++ (if decide (length (filter
                                       (fun t => usable_dateb settings ds t)
                                       TYPES) = 0)
                  then [no_usable_date tc] else [])).
      split.
      { case_decide; rewrite ?report_report, ?app_nil_r;
          by rewrite report_after_msg. }
      split; [done|]. split; [done|].
      split; [intros ? [= <-] _ ?; lia|].
      intros fs' ds' sn' [= <-] [= <-] _ Hsn'.
      rewrite first_value_item0, Hv in Hsn'. injection Hsn' as <-.
      eexists _, _. split; [done|]. split.
      * unfold year_reports. apply Forall2_fmap_r, Forall_Forall2_diag.
        apply Forall_forall. intros t _. apply year_report_meets_spec.
      * apply no_usable_date_tail.
    + intros (reports & Heq & _) fs' ds' [= <-] [= <-] _.
      rewrite first_value_item0. destruct fs as [|f rest]; [done|].
      destruct (field_get_subfield_values f SYS) as [|sn sns]; [done|].
      destruct (check_date_types_outcome ds sn tc TYPES 0)
        as (o & types' & Hrun & _ & Ho).
      rewrite Hrun in Heq. destruct o as [n|e]; [|done].
      destruct Ho as (_ & _ & Hall). split; [done|].
      intros t Ht. destruct (Hall t Ht) as [v Hfind].
      by eapply find_pubdate_returns_no_fault.
  - rewrite first_author_bibcode_consistency_cases. cbv zeta.
    unfold author_rule_readable, author_rule_reported.
    destruct (fields_named settings "system number" (merged_record w))
      as [fs|].
    2: { split; [intros _ | by intros _ ? ? ?].
         eexists. split; [by rewrite report_after_msg|].
         split; [done|]. split; [by intros [? ?]|].
         split; [done|]. split; done. }
    destruct (fields_named settings "first author" (merged_record w))
      as [gs|].
    2: { split; [intros _ | by intros _ ? ? ? ?].
         eexists. split; [by rewrite report_after_msg|].
         split; [done|]. split; [done|].
         split; [by intros ? _ [? ?]|]. split; done. }
    case_decide as Hlen.
    { split; [intros _ | intros _ ? ? [= <-] _ ?; lia].
      eexists. split; [by rewrite report_after_msg|].
      split; [done|]. split; [done|]. split; [done|].
      split; [intros ? ? [= <-] _ ?; lia | intros ? ? ? ? [= <-] _ ?; lia]. }
    case_decide as Hlen'.
    { split; [intros _ | intros _ ? ? _ [= <-] _ ?; lia].
      eexists. split; [by rewrite report_after_msg|].
      split; [done|]. split; [done|].
      split; [intros ? [= <-] _ ?; lia|].
      split; [done | intros ? ? ? ? _ [= <-] _ ?; lia]. }
    split.
    + intros Hread.
      destruct (Hread fs gs eq_refl eq_refl ltac:(lia) ltac:(lia))
        as (sn & a & Hsn & Hsn_ne & Ha & Ha_ne).
      rewrite Hsn, Ha.
      destruct (first_char_nonempty a Ha_ne) as [a0 Ha0].
      destruct (last_char_nonempty sn Hsn_ne) as [s_last Hs_last].
      rewrite Ha0, Hs_last.
      eexists. split; [by rewrite report_after_msg|].
      split; [done|]. split; [done|].
      split; [intros ? [= <-] _ ?; lia|].
      split; [intros ? ? [= <-] [= <-] _ ?; lia|].
      intros fs' gs' sn' a' [= <-] [= <-] _ _ Hsn' Ha'.
      assert (sn' = sn) as -> by congruence.
      assert (a' = a) as -> by congruence.
      rewrite Ha0, Hs_last.
      case_decide as Hcmp; split; split; try done; congruence.
    + intros (reports & Heq & _) fs' gs' [= <-] [= <-] _ _.
      destruct (first_value SYS fs) as [sn|]; [|done].
      destruct (first_value NAME gs) as [a|]; [|done].
      exists sn, a.
      destruct a as [|c a]; [done|].
      destruct sn as [|c' sn]; [done|].
      by split_and!.
Qed.

End CheckCases.

Section CheckCasesExamples.

Import GlobalMergingChecks CheckReadings.

Local Abbreviation year_line := "      running check_pub_year_consistency".
Local Abbreviation author_line :=
  "      running first_author_bibcode_consistency".

(** The amended C4 at a record that both rules can read although its
    last date field has no type subfield: the scans for both configured date
    types stop before it. *)
Lemma checks_return_normally_witness :
  (∃ reports,
     check_pub_year_consistency example_settings "warnings" false
       (fresh record_untyped_last)
     = (Return tt,
        after_check (fresh record_untyped_last) reports false year_line)
     ∧ year_rule_reported example_settings "warnings" record_untyped_last
         reports)
  ∧ (∃ reports,
       first_author_bibcode_consistency example_settings "warnings" false
         (fresh record_untyped_last)
       = (Return tt,
          after_check (fresh record_untyped_last) reports false author_line)
       ∧ author_rule_reported example_settings "warnings"
           record_untyped_last reports).
Proof.
  assert (fields_named example_settings "system number" record_untyped_last
          = Some [identifier_2020]) as Hsys by (vm_compute; reflexivity).
  assert (fields_named example_settings "publication date"
            record_untyped_last
          = Some [print_2019; electronic_2020; untyped_date]) as Hdate
    by (vm_compute; reflexivity).
  assert (fields_named example_settings "first author" record_untyped_last
          = Some [author_adams]) as Hauthor by (vm_compute; reflexivity).
  destruct (checks_return_normally example_settings "warnings" false
              (fresh record_untyped_last)) as [HA HB].
  split.
  - apply HA. intros fs ds Hfs Hds _. cbn [merged_record fresh] in Hfs, Hds.
    rewrite Hsys in Hfs. rewrite Hdate in Hds.
    injection Hfs as <-. injection Hds as <-.
    split; [by exists "2020ApJ...1A"|].
    exact example_scans_stop_before_untyped.
  - apply HB. intros fs gs Hfs Hgs _ _. cbn [merged_record fresh] in Hfs, Hgs.
    rewrite Hsys in Hfs. rewrite Hauthor in Hgs.
    injection Hfs as <-. injection Hgs as <-.
    exists "2020ApJ...1A", "Adams, J". by split_and!.
Defined.

(** Duplicate system-number field instances are reported, not read: rule A
    returns on a record whose two system-number instances have no subfield
    of the system-number code. *)
Example duplicate_blank_identifiers_reported :
  check_pub_year_consistency example_settings "warnings" false
    (fresh record_two_blank_identifiers)
  = (Return tt,
     after_check (fresh record_two_blank_identifiers)
       [duplicate_identifier "warnings"] false year_line).
Proof. vm_compute; reflexivity. Qed.

(** X1 at a record with a publication date and a first author but no
    system number. *)
Lemma checks_missing_identifier_witness :
  check_pub_year_consistency example_settings "warnings" false
    (fresh record_without_identifier)
  = (Return tt,
     after_check (fresh record_without_identifier)
       [missing_identifier "warnings"] false year_line)
  ∧ first_author_bibcode_consistency example_settings "warnings" false
      (fresh record_without_identifier)
    = (Return tt,
       after_check (fresh record_without_identifier)
         [missing_identifier "warnings"] false author_line).
Proof.
  apply (checks_missing_identifier example_settings "warnings" false
           (fresh record_without_identifier)).
  vm_compute; reflexivity.
Defined.

(** X2 at a record whose system-number tag holds no field instance. *)
Lemma check_pub_year_consistency_raises_iff_witness :
  (check_pub_year_consistency example_settings "warnings" false
     (fresh record_no_identifier_instance)).1
  = Raise IndexError.
Proof.
  apply (check_pub_year_consistency_raises_iff example_settings "warnings"
           false (fresh record_no_identifier_instance) IndexError).
  split; [reflexivity|]. exists [], [print_2019].
  split_and!; [vm_compute; reflexivity | vm_compute; reflexivity
              | simpl; lia | left; reflexivity].
Defined.

(** X4 at a record with one system number and two first authors. *)
Lemma first_author_bibcode_consistency_guards_witness :
  (fields_named example_settings "first author"
     (merged_record (fresh record_two_authors)) = None →
   first_author_bibcode_consistency example_settings "warnings" false
     (fresh record_two_authors)
   = (Return tt,
      after_check (fresh record_two_authors)
        [missing_first_author "warnings"] false author_line))
  ∧ (∀ gs,
       fields_named example_settings "first author"
         (merged_record (fresh record_two_authors)) = Some gs →
       (1 < length [identifier_2020] →
        first_author_bibcode_consistency example_settings "warnings" false
          (fresh record_two_authors)
        = (Return tt,
           after_check (fresh record_two_authors)
             [duplicate_identifier "warnings"] false author_line))
       ∧ (length [identifier_2020] ≤ 1 → 1 < length gs →
          first_author_bibcode_consistency example_settings "warnings" false
            (fresh record_two_authors)
          = (Return tt,
             after_check (fresh record_two_authors)
               [duplicate_first_author "warnings"] false author_line))).
Proof.
  apply (first_author_bibcode_consistency_guards example_settings "warnings"
           false (fresh record_two_authors) [identifier_2020]).
  vm_compute; reflexivity.
Defined.

Example two_first_authors_reported :
  first_author_bibcode_consistency example_settings "warnings" false
    (fresh record_two_authors)
  = (Return tt,
     after_check (fresh record_two_authors)
       [duplicate_first_author "warnings"] false author_line).
Proof. vm_compute; reflexivity. Qed.

(** X5 at the record whose first author's name is the empty string. *)
Lemma first_author_bibcode_consistency_raises_iff_witness :
  (first_author_bibcode_consistency example_settings "warnings" false
     (fresh record_empty_author)).1
  = Raise IndexError.
Proof.
  apply (first_author_bibcode_consistency_raises_iff example_settings
           "warnings" false (fresh record_empty_author) IndexError).
  split; [reflexivity|].
  exists [identifier_2020], [datafield [("a", "")]].
  split_and!; [vm_compute; reflexivity | vm_compute; reflexivity
              | simpl; lia | simpl; lia | do 3 right; reflexivity].
Defined.

(** The two orders on a record with a year mismatch and an author
    mismatch. *)
Example both_orders_example :
  sink (run_both_year_first example_settings "warnings" false
          (fresh record_curie)).2
  = [year_mismatch "warnings" "print" "2020ApJ...1A";
     author_bibcode_mismatch "warnings" "Curie, M" "2020ApJ...1A"]
  ∧ sink (run_both_author_first example_settings "warnings" false
            (fresh record_curie)).2
    = [author_bibcode_mismatch "warnings" "Curie, M" "2020ApJ...1A";
       year_mismatch "warnings" "print" "2020ApJ...1A"].
Proof. split; vm_compute; reflexivity. Qed.

End CheckCasesExamples.

(** ** Reading the timestamp files *)

Section TimestampFileFacts.

Import PipelineTimestampManager.

Local Arguments String.append : simpl nomatch.

Lemma has_tab_cons c s :
  has_tab (String c s) ↔ c = PyStr.tab ∨ has_tab s.
Proof.
  unfold has_tab. simpl. rewrite elem_of_cons.
  split; (intros [?|?]; [by left | by right]).
Qed.

Lemma split_tab1_at_first_tab b r :
  ¬ has_tab b → PyStr.split_tab1 (b +:+ String PyStr.tab r) = [b; r].
Proof.
  induction b as [|c b IH]; intros Hb; simpl; [done|].
  rewrite has_tab_cons in Hb.
  destruct (Ascii.eqb c PyStr.tab) eqn:E.
  - apply Ascii.eqb_eq in E. tauto.
  - rewrite IH by tauto. done.
Qed.

Lemma split_tab1_without_tab s : ¬ has_tab s → PyStr.split_tab1 s = [s].
Proof.
  induction s as [|c s IH]; intros Hs; simpl; [done|].
  rewrite has_tab_cons in Hs.
  destruct (Ascii.eqb c PyStr.tab) eqn:E.
  - apply Ascii.eqb_eq in E. tauto.
  - rewrite IH by tauto. done.
Qed.

Lemma split_tab1_two_iff s :
  (∃ a b, PyStr.split_tab1 s = [a; b]) ↔ has_tab s.
Proof.
  split.
  - intros (a & b & Hs). destruct (decide (has_tab s)) as [|Hno]; [done|].
    rewrite split_tab1_without_tab in Hs by done. discriminate.
  - apply split_tab1_has_tab.
Qed.

Lemma append_nonempty_r (a b : string) : b ≠ "" → a +:+ b ≠ "".
Proof. destruct a; simpl; [done | discriminate]. Qed.

Lemma drop_last_append a r :
  r ≠ "" → PyStr.drop_last (a +:+ r) = a +:+ PyStr.drop_last r.
Proof.
  intros Hr. induction a as [|c a IH]; [done|].
  change (String c a +:+ r) with (String c (a +:+ r)).
  change (String c a +:+ PyStr.drop_last r)
    with (String c (a +:+ PyStr.drop_last r)).
  rewrite <- IH. pose proof (append_nonempty_r a r Hr) as Hne.
  simpl. by destruct (a +:+ r).
Qed.

Lemma append_empty_r (s : string) : s +:+ "" = s.
Proof. induction s as [|c s IH]; simpl; by f_equal. Qed.

Lemma drop_last_snoc s c : PyStr.drop_last (s +:+ String c "") = s.
Proof.
  rewrite drop_last_append by discriminate. simpl. apply append_empty_r.
Qed.

Lemma line_snoc first second :
  line first second
  = (first +:+ String PyStr.tab second) +:+ String "010" "".
Proof.
  unfold line. induction first as [|c s IH]; simpl; [done|]. by f_equal.
Qed.

Lemma drop_last_line first second :
  PyStr.drop_last (line first second) = first +:+ String PyStr.tab second.
Proof. rewrite line_snoc. apply drop_last_snoc. Qed.

(** The lines written from pairs are read back pair by pair. *)
Lemma read_timestamp_lines_of_pairs pairs acc :
  Forall (fun p : string * string => ¬ has_tab p.1) pairs →
  read_timestamp_lines ((fun p => line p.1 p.2) <$> pairs) acc
  = Return (foldl (fun m p => <[p.1 := p.2]> m) acc pairs).
Proof.
  intros Hall. revert acc.
  induction Hall as [|[b t] pairs Hb _ IH]; intros acc; [done|].
  cbn [fmap list_fmap read_timestamp_lines foldl]. simpl fst. simpl snd.
  rewrite drop_last_line, split_tab1_at_first_tab by done. apply IH.
Qed.

Lemma foldl_insert_lookup_absent (pairs : list (string * string))
    (acc : gmap string string) k :
  k ∉ pairs.*1 →
  foldl (fun m p => <[p.1 := p.2]> m) acc pairs !! k = acc !! k.
Proof.
  revert acc. induction pairs as [|[b t] pairs IH]; intros acc Hk; [done|].
  simpl in *. apply not_elem_of_cons in Hk as [Hne Hk].
  rewrite IH by done. by rewrite lookup_insert_ne.
Qed.

Lemma foldl_insert_lookup_last (pairs : list (string * string))
    (acc : gmap string string) pre k t post :
  pairs = pre ++ (k, t) :: post → k ∉ post.*1 →
  foldl (fun m p => <[p.1 := p.2]> m) acc pairs !! k = Some t.
Proof.
  intros -> Hk. rewrite foldl_app. simpl.
  rewrite foldl_insert_lookup_absent by done. apply lookup_insert_eq.
Qed.

Lemma foldl_insert_list_to_map (pairs : list (string * string)) :
  NoDup pairs.*1 →
  foldl (fun m p => <[p.1 := p.2]> m) (∅ : gmap string string) pairs
  = list_to_map pairs.
Proof.
  intros Hnd. apply map_eq. intros k.
  destruct (list_to_map pairs !! k) as [t|] eqn:Hk.
  - apply elem_of_list_to_map in Hk; [|done].
    apply list_elem_of_split in Hk as (pre & post & ->).
    apply (foldl_insert_lookup_last _ _ pre k t post); [done|].
    rewrite fmap_app in Hnd. apply NoDup_app in Hnd as (_ & _ & Hpost).
    simpl in Hpost. by apply NoDup_cons in Hpost as [? _].
  - apply not_elem_of_list_to_map in Hk.
    by rewrite foldl_insert_lookup_absent.
Qed.

(** X7: a timestamp file written one line per pair, bibcode, tab,
    timestamp, newline, with no tab inside a bibcode, is read back pair by
    pair: a bibcode gets the timestamp of its last line, a bibcode of no
    line gets none, and when the bibcodes are distinct the dictionary
    returned holds exactly the pairs written. *)
Theorem read_timestamp_file_round_trip env filename pairs :
  Forall (fun p : string * string => ¬ has_tab p.1) pairs →
  files env !! filename = Some ((fun p => line p.1 p.2) <$> pairs) →
  ∃ db,
    _read_timestamp_file env filename = Return db
    ∧ (∀ pre b t post,
         pairs = pre ++ (b, t) :: post → b ∉ post.*1 → db !! b = Some t)
    ∧ (∀ b, b ∉ pairs.*1 → db !! b = None)
    ∧ (NoDup pairs.*1 → map_to_list db ≡ₚ pairs).
Proof.
  intros Hall Hfile. eexists. split.
  - unfold _read_timestamp_file, open_lines. rewrite Hfile. simpl.
    by apply read_timestamp_lines_of_pairs.
  - split_and!.
    + intros pre b t post Hp Hb. by eapply foldl_insert_lookup_last.
    + intros b Hb. by rewrite foldl_insert_lookup_absent.
    + intros Hnd. rewrite foldl_insert_list_to_map by done.
      by apply map_to_list_to_map.
Qed.

Lemma read_timestamp_lines_raises_iff lines acc e :
  read_timestamp_lines lines acc = Raise e
  ↔ e = ValueError
    ∧ Exists (fun l => ¬ has_tab (PyStr.drop_last l)) lines.
Proof.
  revert acc. induction lines as [|l lines IH]; intros acc; simpl.
  - split; [done|]. intros [_ H]. by apply Exists_nil in H.
  - rewrite Exists_cons.
    destruct (decide (PyStr.tab ∈ list_ascii_of_string (PyStr.drop_last l)))
      as [Htab|Hno].
    + destruct (split_tab1_has_tab _ Htab) as (a & b & ->).
      rewrite IH. unfold has_tab. split.
      * intros [-> Hex]. split; [done | by right].
      * intros [-> [Hl|Hex]]; [done | by split].
    + rewrite split_tab1_without_tab by done.
      split; [intros [= <-]; split; [done | by left] | by intros [-> _]].
Qed.

Lemma read_timestamp_lines_app l1 l2 acc :
  read_timestamp_lines (l1 ++ l2) acc
  = outcome_bind (read_timestamp_lines l1 acc) (read_timestamp_lines l2).
Proof.
  revert acc. induction l1 as [|l l1 IH]; intros acc; simpl; [done|].
  destruct (PyStr.split_tab1 (PyStr.drop_last l)) as [|a [|b [|? ?]]];
    first [done | apply IH].
Qed.

(** X8: [_read_timestamp_file] raises [IOError] exactly when the file is
    not there, and [ValueError] exactly when some line, its last character
    taken off, holds no tab; it raises nothing else. *)
Theorem read_timestamp_file_raises_iff env filename e :
  _read_timestamp_file env filename = Raise e
  ↔ (e = IOError ∧ files env !! filename = None)
    ∨ (e = ValueError
       ∧ ∃ lines, files env !! filename = Some lines
                  ∧ Exists (fun l => ¬ has_tab (PyStr.drop_last l)) lines).
Proof.
  unfold _read_timestamp_file, open_lines.
  destruct (files env !! filename) as [lines|]; simpl.
  - rewrite read_timestamp_lines_raises_iff. split.
    + intros [-> Hex]. right. eauto.
    + intros [[_ [=]] | (-> & lines' & [= <-] & Hex)]. done.
  - split; [intros [= <-]; by left|].
    intros [[-> _] | (_ & ? & [=] & _)]. done.
Qed.

(** X9: a last line that does not end with a newline loses the last
    character of its timestamp, and raises [ValueError] when nothing
    follows its tab: after lines written pair by pair, a final line made
    of a bibcode, a tab and the text [rest] stores [rest] without its last
    character under the bibcode. *)
Theorem read_timestamp_file_unterminated_line env filename pairs b rest :
  Forall (fun p : string * string => ¬ has_tab p.1) pairs →
  ¬ has_tab b →
  files env !! filename
  = Some (((fun p => line p.1 p.2) <$> pairs)
          ++ [b +:+ String PyStr.tab rest]) →
  (rest = "" → _read_timestamp_file env filename = Raise ValueError)
  ∧ (rest ≠ "" →
     ∃ db, _read_timestamp_file env filename = Return db
           ∧ db !! b = Some (PyStr.drop_last rest)).
Proof.
  intros Hall Hb Hfile.
  unfold _read_timestamp_file, open_lines. rewrite Hfile. simpl.
  rewrite read_timestamp_lines_app, read_timestamp_lines_of_pairs by done.
  simpl. split.
  - intros ->. rewrite drop_last_snoc.
    by rewrite split_tab1_without_tab.
  - intros Hrest.
    rewrite (drop_last_append b (String PyStr.tab rest)) by discriminate.
    assert (PyStr.drop_last (String PyStr.tab rest)
            = String PyStr.tab (PyStr.drop_last rest)) as ->
      by (by destruct rest).
    rewrite split_tab1_at_first_tab by done.
    eexists. split; [done|]. apply lookup_insert_eq.
Qed.

End TimestampFileFacts.

(** ** The Invenio dictionary and the comparison *)

Section TimestampStatusFacts.

Import PipelineTimestampManager.

Lemma invenio_fold_lookup_kept (deleted : list string)
    (rows : list (string * string)) (acc : gmap string string) k :
  k ∈ deleted ∨ k ∉ rows.*1 →
  foldl (fun timestamps row =>
           if decide (row.1 ∈ deleted) then timestamps
           else <[row.1 := row.2]> timestamps) acc rows !! k
  = acc !! k.
Proof.
  revert acc. induction rows as [|[b t] rows IH]; intros acc Hk; [done|].
  simpl. rewrite IH.
  - case_decide as Hb; [done|]. apply lookup_insert_ne.
    intros ->. destruct Hk as [?|Hk]; [done|]. apply Hk. simpl. left.
  - destruct Hk as [?|Hk]; [by left|]. right. simpl in Hk.
    by apply not_elem_of_cons in Hk as [_ ?].
Qed.

(** X10: in the dictionary of [_get_invenio_timestamps] a bibcode listed
    as deleted has no entry, whatever its timestamp rows; a bibcode of no
    timestamp row has no entry; any other bibcode has the timestamp of its
    last row. *)
Theorem get_invenio_timestamps_lookup env k :
  (k ∈ deleted_rows env → _get_invenio_timestamps env !! k = None)
  ∧ (k ∉ (timestamp_rows env).*1 → _get_invenio_timestamps env !! k = None)
  ∧ (k ∉ deleted_rows env →
     ∀ pre t post,
       timestamp_rows env = pre ++ (k, t) :: post → k ∉ post.*1 →
       _get_invenio_timestamps env !! k = Some t).
Proof.
  unfold _get_invenio_timestamps. split_and!.
  - intros Hk. rewrite invenio_fold_lookup_kept by (by left). done.
  - intros Hk. rewrite invenio_fold_lookup_kept by (by right). done.
  - intros Hk pre t post -> Hpost. rewrite foldl_app. simpl.
    rewrite invenio_fold_lookup_kept by (by right).
    rewrite decide_False by done. apply lookup_insert_eq.
Qed.

(** X11: a bibcode marked as deleted in Invenio is compared as if Invenio
    did not have it: [get_records_status] lists it as a record to add
    exactly when the ADS dictionary holds it, and never as a record to
    modify or to delete. *)
Theorem get_records_status_deleted_in_invenio env timestamps k :
  _get_ads_timestamps env = Return timestamps →
  k ∈ deleted_rows env →
  ∃ records_added records_modified records_deleted,
    get_records_status env
    = Return (records_added, records_modified, records_deleted)
    ∧ (k ∈ records_added ↔ is_Some (timestamps !! k))
    ∧ (k ∉ records_modified)
    ∧ (k ∉ records_deleted).
Proof.
  intros Hads Hk.
  destruct (get_invenio_timestamps_lookup env k) as (Hgone & _ & _).
  specialize (Hgone Hk).
  unfold get_records_status. rewrite Hads. simpl.
  rewrite get_records_status_from_returns.
  eexists _, _, _. split; [reflexivity|]. split_and!.
  - rewrite elem_of_difference, !elem_of_dom, Hgone.
    split; [by intros [? _] | intros ?; split; [done | by intros [? ?]]].
  - rewrite elem_of_modified, Hgone. by intros (? & ? & _ & ? & _).
  - rewrite elem_of_difference, elem_of_dom, Hgone. by intros [[? ?] _].
Qed.

(** X12: [get_records_status] has nothing to add, to modify or to delete
    exactly when the two dictionaries are equal. *)
Theorem get_records_status_in_sync
    (ads_timestamps invenio_timestamps : gmap string string) :
  get_records_status_from ads_timestamps invenio_timestamps
  = Return (∅, [], ∅)
  ↔ ads_timestamps = invenio_timestamps.
Proof.
  rewrite get_records_status_from_returns. split.
  - intros [= Hadded Hmodified Hdeleted]. apply map_eq. intros k.
    destruct (ads_timestamps !! k) as [ta|] eqn:Ha,
             (invenio_timestamps !! k) as [ti|] eqn:Hi; [| | |done].
    + destruct (decide (ta = ti)) as [->|Hne]; [done|].
      assert (k ∈ filter (fun b => invenio_timestamps !! b
                                   ≠ ads_timestamps !! b)
                         (elements (dom invenio_timestamps
                                    ∖ (dom invenio_timestamps
                                       ∖ dom ads_timestamps)))) as Hin
        by (apply elem_of_modified; eauto).
      rewrite Hmodified in Hin. by apply elem_of_nil in Hin.
    + assert (k ∈ dom ads_timestamps ∖ dom invenio_timestamps) as Hin
        by (rewrite elem_of_difference, !elem_of_dom, Ha, Hi;
            split; [eauto | by intros [? ?]]).
      rewrite Hadded in Hin. by apply elem_of_empty in Hin.
    + assert (k ∈ dom invenio_timestamps ∖ dom ads_timestamps) as Hin
        by (rewrite elem_of_difference, !elem_of_dom, Ha, Hi;
            split; [eauto | by intros [? ?]]).
      rewrite Hdeleted in Hin. by apply elem_of_empty in Hin.
  - intros ->. f_equal.
    assert (dom invenio_timestamps ∖ dom invenio_timestamps
            = (∅ : gset string)) as Hempty.
    { apply set_eq. intros k. rewrite elem_of_difference.
      split; [by intros [? ?] | by intros ?%elem_of_empty]. }
    rewrite Hempty. f_equal. f_equal.
    induction (elements _) as [|b l IH]; [done|].
    rewrite filter_cons. by rewrite decide_False by (intros H; by apply H).
Qed.

(** X13: exchanging the two dictionaries exchanges the records to add and
    the records to delete, and leaves the records to modify the same up to
    their order: the list holds the same bibcodes, each once, in the order
    in which the set of bibcodes to check happens to be gone through. *)
Theorem get_records_status_swap
    (ads_timestamps invenio_timestamps : gmap string string)
    records_added records_modified records_deleted :
  get_records_status_from ads_timestamps invenio_timestamps
  = Return (records_added, records_modified, records_deleted) →
  ∃ records_modified',
    get_records_status_from invenio_timestamps ads_timestamps
    = Return (records_deleted, records_modified', records_added)
    ∧ records_modified' ≡ₚ records_modified.
Proof.
  rewrite !get_records_status_from_returns. intros [= <- <- <-].
  eexists. split; [reflexivity|].
  apply NoDup_Permutation.
  - apply NoDup_filter, NoDup_elements.
  - apply NoDup_filter, NoDup_elements.
  - intros k. rewrite !list_elem_of_filter, !elem_of_elements.
    rewrite !elem_of_difference.
    destruct (decide (k ∈ dom ads_timestamps)),
             (decide (k ∈ dom invenio_timestamps));
      split; intros [Hne Hin]; (split; [congruence | tauto]).
Qed.

End TimestampStatusFacts.

(** ** When the ADS dictionary is built, and what it holds *)

Section TimestampTotalFacts.

Import PipelineTimestampManager TimestampReadings.

Lemma read_timestamp_lines_returns_inv lines acc db :
  read_timestamp_lines lines acc = Return db →
  Forall (fun l => has_tab (PyStr.drop_last l)) lines.
Proof.
  revert acc. induction lines as [|l lines IH]; intros acc Hrun;
    [constructor|].
  simpl in Hrun.
  destruct (PyStr.split_tab1 (PyStr.drop_last l)) as [|a [|b [|? ?]]] eqn:E;
    try done.
  constructor; [|by eapply IH].
  apply split_tab1_two_iff. eauto.
Qed.

Lemma published_eprints_of_returns_inv lines bibcodes :
  published_eprints_of lines = Return bibcodes →
  Forall (fun l => has_tab (PyStr.strip l)) lines.
Proof.
  revert bibcodes. induction lines as [|l lines IH]; intros bibcodes Hrun;
    [constructor|].
  simpl in Hrun.
  destruct (decide (PyStr.tab ∈ list_ascii_of_string (PyStr.strip l)))
    as [Htab|Hno].
  - constructor; [done|].
    destruct (split_tab1_has_tab _ Htab) as (a & b & E). rewrite E in Hrun.
    destruct (published_eprints_of lines) as [bs|]; [|done]. by eapply IH.
  - by rewrite split_tab1_without_tab in Hrun.
Qed.

Lemma update_from_files_returns_inv env filenames acc timestamps :
  update_from_files env filenames acc = Return timestamps →
  ∀ filename, filename ∈ filenames →
    ∃ db, _read_timestamp_file env filename = Return db.
Proof.
  revert acc. induction filenames as [|f filenames IH]; intros acc Hrun g Hg.
  - by apply elem_of_nil in Hg.
  - simpl in Hrun.
    destruct (_read_timestamp_file env f) as [db|] eqn:Hf; [|done].
    simpl in Hrun. apply elem_of_cons in Hg as [->|Hg]; [eauto|].
    by eapply IH.
Qed.

(** X14: [_get_ads_timestamps] returns a dictionary exactly when the four
    files of the hierarchy and the published-eprints file are there, every
    line of a timestamp file holds a tab before its last character, and
    every line of the published-eprints file still holds a tab once
    stripped; otherwise it raises. *)
Theorem get_ads_timestamps_returns_iff env :
  (∃ timestamps, _get_ads_timestamps env = Return timestamps)
  ↔ readable env.
Proof.
  split.
  - intros [timestamps Hrun]. unfold _get_ads_timestamps in Hrun.
    destruct (update_from_files env (TIMESTAMP_FILES_HIERARCHY env) ∅)
      as [merged|] eqn:Hfiles; [|done].
    simpl in Hrun.
    destruct (published_eprints env) as [eprints|] eqn:Hpub; [|done].
    split.
    + intros filename Hin.
      destruct (update_from_files_returns_inv _ _ _ _ Hfiles _ Hin)
        as [db Hdb].
      unfold _read_timestamp_file, open_lines in Hdb.
      destruct (files env !! filename) as [lines|]; [|done].
      exists lines. split; [done|]. simpl in Hdb.
      by eapply read_timestamp_lines_returns_inv.
    + unfold published_eprints, open_lines in Hpub.
      destruct (files env !! pub2arx env) as [lines|]; [|done].
      exists lines. split; [done|]. simpl in Hpub.
      by eapply published_eprints_of_returns_inv.
  - intros Hreadable.
    destruct (update_from_files_returns env (TIMESTAMP_FILES_HIERARCHY env) ∅)
      as (tiers & _ & Hrun);
      [intros; by apply _read_timestamp_file_returns|].
    destruct Hreadable as [_ (lines & Hopen & Hall)].
    destruct (published_eprints_of_returns lines Hall) as [eprints Hpub].
    eexists. unfold _get_ads_timestamps. rewrite Hrun. simpl.
    unfold published_eprints, open_lines. rewrite Hopen. simpl.
    by rewrite Hpub.
Qed.

Lemma updated_lookup_is_Some (tiers : list (gmap string string))
    (acc : gmap string string) k :
  is_Some (updated acc tiers !! k)
  ↔ is_Some (acc !! k) ∨ ∃ db, db ∈ tiers ∧ is_Some (db !! k).
Proof.
  unfold updated. revert acc.
  induction tiers as [|d tiers IH]; intros acc; simpl.
  - split; [by left|]. intros [?|(? & []%elem_of_nil & _)]. done.
  - rewrite IH. rewrite lookup_union_is_Some. split.
    + intros [[Hd|Ha]|(db & Hin & Hdb)].
      * right. exists d. split; [left | done].
      * by left.
      * right. exists db. split; [by right | done].
    + intros [Ha|(db & Hin & Hdb)]; [left; by right|].
      apply elem_of_cons in Hin as [->|Hin]; [left; by left|].
      right. eauto.
Qed.

(** X15: the bibcodes of the dictionary that [_get_ads_timestamps] returns
    are exactly the bibcodes of the four timestamp files that the
    published-eprints file does not list: none is lost, none is made up. *)
Theorem get_ads_timestamps_domain env timestamps :
  _get_ads_timestamps env = Return timestamps →
  ∃ tiers eprints,
    Forall2 (fun filename db => _read_timestamp_file env filename = Return db)
            (TIMESTAMP_FILES_HIERARCHY env) tiers
    ∧ published_eprints env = Return eprints
    ∧ ∀ k, is_Some (timestamps !! k)
           ↔ (k ∉ eprints) ∧ ∃ db, db ∈ tiers ∧ is_Some (db !! k).
Proof.
  intros Hrun.
  assert (readable env) as Hreadable
    by (apply get_ads_timestamps_returns_iff; eauto).
  destruct (update_from_files_returns env (TIMESTAMP_FILES_HIERARCHY env) ∅)
    as (tiers & Htiers & Hfiles);
    [intros; by apply _read_timestamp_file_returns|].
  unfold _get_ads_timestamps in Hrun. rewrite Hfiles in Hrun. simpl in Hrun.
  destruct (published_eprints env) as [eprints|] eqn:Hpub; [|done].
  simpl in Hrun. injection Hrun as <-.
  exists tiers, eprints. split_and!; [done | done |].
  intros k. rewrite remove_published_lookup.
  case_decide as Hk.
  - split; [by intros [? ?] | by intros [? _]].
  - rewrite updated_lookup_is_Some, lookup_empty. split.
    + intros [[? ?]|?]; [done | by split].
    + intros [_ ?]. by right.
Qed.

End TimestampTotalFacts.

(** ** The published-eprints file *)

Section PublishedEprintsFacts.

Import PipelineTimestampManager TimestampReadings.

Local Arguments String.append : simpl nomatch.

Lemma append_assoc (a b c : string) : (a +:+ b) +:+ c = a +:+ (b +:+ c).
Proof. induction a as [|x a IH]; simpl; [done | by f_equal]. Qed.

Lemma rstrip_snoc_space s c :
  PyStr.is_space c = true →
  PyStr.rstrip (s +:+ String c "") = PyStr.rstrip s.
Proof.
  intros Hc. induction s as [|d s IH]; simpl.
  - by rewrite Hc.
  - by rewrite IH.
Qed.

Lemma rstrip_snoc_nonspace s c :
  PyStr.is_space c = false →
  PyStr.rstrip (s +:+ String c "") = s +:+ String c "".
Proof.
  intros Hc. induction s as [|d s IH]; simpl.
  - by rewrite Hc.
  - rewrite IH. by destruct s.
Qed.

Lemma lstrip_starts_with_nonspace s :
  starts_with_nonspace s → PyStr.lstrip s = s.
Proof. destruct s as [|c s]; simpl; [done|]. by intros ->. Qed.

Lemma starts_with_nonspace_append a b :
  starts_with_nonspace a → starts_with_nonspace (a +:+ b).
Proof. by destruct a. Qed.

Lemma has_tab_rstrip s : has_tab (PyStr.rstrip s) → has_tab s.
Proof.
  induction s as [|c s IH]; simpl; [done|].
  rewrite has_tab_cons.
  destruct (PyStr.rstrip s) as [|d r] eqn:E.
  - destruct (PyStr.is_space c); [by intros ?%elem_of_nil|].
    rewrite has_tab_cons. intros [?|?%elem_of_nil]; [by left | done].
  - rewrite has_tab_cons. intros [?|?]; [by left | right; by apply IH].
Qed.

(** The stripped form of a line written from two columns. *)
Lemma strip_line first second :
  starts_with_nonspace first → ends_with_nonspace second →
  PyStr.strip (line first second) = first +:+ String PyStr.tab second.
Proof.
  intros Hfirst (s' & c & -> & Hc). unfold PyStr.strip.
  rewrite lstrip_starts_with_nonspace
    by (unfold line; by apply starts_with_nonspace_append).
  rewrite line_snoc, rstrip_snoc_space by done.
  change (String PyStr.tab (s' +:+ String c ""))
    with (String PyStr.tab s' +:+ String c "").
  rewrite <- append_assoc. by apply rstrip_snoc_nonspace.
Qed.

Lemma published_eprints_of_pairs pairs :
  Forall (fun p : string * string =>
            starts_with_nonspace p.1 ∧ ¬ has_tab p.1
            ∧ ends_with_nonspace p.2) pairs →
  published_eprints_of ((fun p => line p.1 p.2) <$> pairs)
  = Return pairs.*2.
Proof.
  induction 1 as [|[a b] pairs (Ha & Hno & Hb) _ IH]; [done|].
  cbn [fmap list_fmap published_eprints_of]. simpl fst. simpl snd.
  rewrite strip_line, split_tab1_at_first_tab by done.
  fold (fmap (M:=list) (fun p : string * string => line p.1 p.2) pairs).
  rewrite IH. done.
Qed.

(** X16: from a published-eprints file written one line per pair, first
    column, tab, second column, newline, where the first column holds no
    tab and neither column is padded with white space on its outer side,
    [_get_ads_timestamps] takes the second column of every line, in file
    order, as the bibcodes to remove. *)
Theorem published_eprints_second_column env pairs :
  Forall (fun p : string * string =>
            starts_with_nonspace p.1 ∧ ¬ has_tab p.1
            ∧ ends_with_nonspace p.2) pairs →
  files env !! pub2arx env = Some ((fun p => line p.1 p.2) <$> pairs) →
  published_eprints env = Return pairs.*2.
Proof.
  intros Hall Hfile. unfold published_eprints, open_lines.
  rewrite Hfile. simpl. by apply published_eprints_of_pairs.
Qed.

(** X17: a line of the published-eprints file whose second column is empty
    makes [_get_ads_timestamps] raise [IndexError]: stripping the line
    takes its tab away with the newline, and the split has no second
    part.  It does so whatever the timestamp files hold, once they are
    read. *)
Theorem published_eprints_empty_second_column env before first after :
  starts_with_nonspace first → ¬ has_tab first →
  Forall (fun l => has_tab (PyStr.strip l)) before →
  files env !! pub2arx env = Some (before ++ line first "" :: after) →
  published_eprints env = Raise IndexError
  ∧ (∀ timestamps,
       update_from_files env (TIMESTAMP_FILES_HIERARCHY env) ∅
       = Return timestamps →
       _get_ads_timestamps env = Raise IndexError).
Proof.
  intros Hfirst Hno Hbefore Hfile.
  assert (PyStr.split_tab1 (PyStr.strip (line first ""))
          = [PyStr.strip (line first "")]) as Hsplit.
  { apply split_tab1_without_tab. unfold PyStr.strip.
    rewrite lstrip_starts_with_nonspace
      by (unfold line; by apply starts_with_nonspace_append).
    rewrite line_snoc, rstrip_snoc_space by done.
    rewrite <- (append_empty_r (first +:+ String PyStr.tab "")).
    rewrite append_assoc.
    change (String PyStr.tab "" +:+ "") with (String PyStr.tab "").
    rewrite rstrip_snoc_space by done.
    intros Htab. by apply Hno, has_tab_rstrip. }
  assert (published_eprints env = Raise IndexError) as Hpub.
  { unfold published_eprints, open_lines. rewrite Hfile. simpl.
    clear Hfile. induction Hbefore as [|l before Hl _ IH]; simpl.
    - by rewrite Hsplit.
    - destruct (split_tab1_has_tab _ Hl) as (a & b & ->). by rewrite IH. }
  split; [done|].
  intros timestamps Hfiles. unfold _get_ads_timestamps.
  rewrite Hfiles. simpl. by rewrite Hpub.
Qed.

End PublishedEprintsFacts.

Section TimestampMoreExamples.

Import PipelineTimestampManager TimestampReadings.

(** A string of the examples holds no tab. *)
Ltac no_tab :=
  unfold has_tab; simpl; intros Htab;
  repeat (apply elem_of_cons in Htab as [Htab|Htab]; [discriminate Htab|]);
  by apply elem_of_nil in Htab.

(** X7 at the astronomy file of the example. *)
Lemma read_timestamp_file_round_trip_witness :
  ∃ db,
    _read_timestamp_file example_environment "ast" = Return db
    ∧ (∀ pre b t post,
         [("B1", "t-ast")] = pre ++ (b, t) :: post → b ∉ post.*1 →
         db !! b = Some t)
    ∧ (∀ b, b ∉ [("B1", "t-ast")].*1 → db !! b = None)
    ∧ (NoDup [("B1", "t-ast")].*1 → map_to_list db ≡ₚ [("B1", "t-ast")]).
Proof.
  apply (read_timestamp_file_round_trip example_environment "ast"
           [("B1", "t-ast")]).
  - repeat constructor. no_tab.
  - vm_compute; reflexivity.
Defined.

(** X8 at a file that is not there. *)
Lemma read_timestamp_file_raises_iff_witness :
  _read_timestamp_file example_environment "elsewhere" = Raise IOError.
Proof.
  apply (read_timestamp_file_raises_iff example_environment "elsewhere"
           IOError).
  left. split; [reflexivity | vm_compute; reflexivity].
Defined.

(** X9 at the astronomy file whose last line has no newline: the
    timestamp t2 is stored as t. *)
Lemma read_timestamp_file_unterminated_line_witness :
  ("t2" = "" → _read_timestamp_file ragged_environment "ast" = Raise ValueError)
  ∧ ("t2" ≠ "" →
     ∃ db, _read_timestamp_file ragged_environment "ast" = Return db
           ∧ db !! "B2" = Some (PyStr.drop_last "t2")).
Proof.
  apply (read_timestamp_file_unterminated_line ragged_environment "ast"
           [("B1", "t1")] "B2" "t2").
  - repeat constructor. no_tab.
  - no_tab.
  - vm_compute; reflexivity.
Defined.

Example unterminated_line_example :
  _read_timestamp_file ragged_environment "ast"
  = Return {[ "B1" := "t1"; "B2" := "t" ]}.
Proof. vm_compute; reflexivity. Qed.

(** X10 at the bibcode B3, deleted in Invenio. *)
Lemma get_invenio_timestamps_lookup_witness :
  ("B3" ∈ deleted_rows deleted_environment →
   _get_invenio_timestamps deleted_environment !! "B3" = None)
  ∧ ("B3" ∉ (timestamp_rows deleted_environment).*1 →
     _get_invenio_timestamps deleted_environment !! "B3" = None)
  ∧ ("B3" ∉ deleted_rows deleted_environment →
     ∀ pre t post,
       timestamp_rows deleted_environment = pre ++ ("B3", t) :: post →
       "B3" ∉ post.*1 →
       _get_invenio_timestamps deleted_environment !! "B3" = Some t).
Proof. apply (get_invenio_timestamps_lookup deleted_environment "B3"). Defined.

(** X11 at the bibcode B3: deleted in Invenio, held by ADS, it is a record
    to add. *)
Lemma get_records_status_deleted_in_invenio_witness :
  ∃ records_added records_modified records_deleted,
    get_records_status deleted_environment
    = Return (records_added, records_modified, records_deleted)
    ∧ ("B3" ∈ records_added
       ↔ is_Some (({[ "B1" := "t-ast"; "B3" := "t3" ]}
                   : gmap string string) !! "B3"))
    ∧ ("B3" ∉ records_modified)
    ∧ ("B3" ∉ records_deleted).
Proof.
  apply (get_records_status_deleted_in_invenio deleted_environment
           {[ "B1" := "t-ast"; "B3" := "t3" ]} "B3").
  - vm_compute; reflexivity.
  - simpl. left.
Defined.

(** X12 at a dictionary compared with itself. *)
Lemma get_records_status_in_sync_witness :
  get_records_status_from ({[ "B1" := "t1" ]} : gmap string string)
    {[ "B1" := "t1" ]}
  = Return (∅, [], ∅).
Proof.
  apply (get_records_status_in_sync {[ "B1" := "t1" ]} {[ "B1" := "t1" ]}).
  reflexivity.
Defined.

(** X13 at two dictionaries with one bibcode each and one in common. *)
Lemma get_records_status_swap_witness :
  ∃ records_modified',
    get_records_status_from
      ({[ "B2" := "t2"; "B3" := "new" ]} : gmap string string)
      {[ "B1" := "t1"; "B3" := "old" ]}
    = Return ({[ "B2" ]}, records_modified', {[ "B1" ]})
    ∧ records_modified' ≡ₚ ["B3"].
Proof.
  apply (get_records_status_swap
           {[ "B1" := "t1"; "B3" := "old" ]} {[ "B2" := "t2"; "B3" := "new" ]}
           {[ "B1" ]} ["B3"] {[ "B2" ]}).
  vm_compute; reflexivity.
Defined.

(** X14 at the example environment. *)
Lemma get_ads_timestamps_returns_iff_witness :
  ∃ timestamps, _get_ads_timestamps example_environment = Return timestamps.
Proof.
  apply (get_ads_timestamps_returns_iff example_environment).
  exact example_environment_readable.
Defined.

(** X15 at the example environment. *)
Lemma get_ads_timestamps_domain_witness :
  ∃ tiers eprints,
    Forall2 (fun filename db =>
               _read_timestamp_file example_environment filename = Return db)
            (TIMESTAMP_FILES_HIERARCHY example_environment) tiers
    ∧ published_eprints example_environment = Return eprints
    ∧ ∀ k, is_Some (({[ "B1" := "t-ast"; "B3" := "t3" ]}
                     : gmap string string) !! k)
           ↔ (k ∉ eprints) ∧ ∃ db, db ∈ tiers ∧ is_Some (db !! k).
Proof.
  apply (get_ads_timestamps_domain example_environment
           {[ "B1" := "t-ast"; "B3" := "t3" ]}).
  vm_compute; reflexivity.
Defined.

(** X16 at the published-eprints file of the example. *)
Lemma published_eprints_second_column_witness :
  published_eprints example_environment = Return [("B9", "B2")].*2.
Proof.
  apply (published_eprints_second_column example_environment [("B9", "B2")]).
  - repeat constructor; [no_tab|]. by exists "B", "2"%char.
  - vm_compute; reflexivity.
Defined.

(** X17 at the published-eprints file with an empty second column. *)
Lemma published_eprints_empty_second_column_witness :
  published_eprints ragged_environment = Raise IndexError
  ∧ (∀ timestamps,
       update_from_files ragged_environment
         (TIMESTAMP_FILES_HIERARCHY ragged_environment) ∅
       = Return timestamps →
       _get_ads_timestamps ragged_environment = Raise IndexError).
Proof.
  apply (published_eprints_empty_second_column ragged_environment
           [line "B9" "B2"] "B8" []).
  - reflexivity.
  - no_tab.
  - repeat constructor.
  - vm_compute; reflexivity.
Defined.

End TimestampMoreExamples.
